(** * Budget-constrained research engine: a shallow embedding

    The Python sources embedded here are
    [2_openai/deep_research_challenge/models.py], [budget.py],
    [state_machine.py], [trail_discovery.py], [trail_manager.py],
    [trail_execution.py], [agent_registry.py] and, of
    [research_coordinator.py], the two steps [_execute_searches] and
    [_follow_trails].

    Conventions of the embedding.
    - A Python [int] is a [Z]; a Python [float] is the rational it denotes
      ([Q]): sums and products are exact, so rounding, infinities and NaN are
      outside the model.  Comparisons of rationals go through [Qle_bool].
    - A Python [str] is a [string] of 8-bit characters; [str.lower] acts on
      the ASCII letters.
    - A naive [datetime] is the number of microseconds it denotes; its two
      conversions to and from text are an interface.
    - A call that may raise has an [outcome]: the value returned or the
      exception raised.  Calls to the logger are left out.
    - Objects that the code mutates in place are threaded through the
      functions as explicit state; the trail objects shared between the
      manager's lists and its callers live in a store indexed by address.
      A trail holds its budget by value: the engine is its only writer. *)

From Stdlib Require Import ZArith QArith Lqa String Ascii List Lia.
From Stdlib Require Import DecimalString DecimalZ Sorted.
From stdpp Require Import base option list gmap strings.

Import ListNotations.
Local Open Scope string_scope.
Local Open Scope Z_scope.

(** ** Python primitives *)

(** [a > b] and [a >= b] on floats. *)
Definition Qgtb (a b : Q) : bool := negb (Qle_bool a b).
Definition Qgeb (a b : Q) : bool := Qle_bool b a.

(** [max(a, b)] on floats: Python returns the first argument unless the
    second is strictly larger. *)
Definition py_max_float (a b : Q) : Q := if Qgtb b a then b else a.

(** [int(x)] on a float: truncation toward zero. *)
Definition py_int (x : Q) : Z := Z.quot (Qnum x) (Zpos (Qden x)).

(** [a / b] on two ints (true division). *)
Definition py_truediv (a b : Z) : Q := (inject_Z a / inject_Z b)%Q.

(** ** Python values, dictionaries and exceptions *)

(** The plain values a [to_dict] result is made of. *)
#[warnings="-register-all"]
Inductive pyval :=
| PNone
| PBool (b : bool)
| PInt (z : Z)
| PFloat (q : Q)
| PStr (s : string)
| PList (l : list pyval)
| PDict (d : list (string * pyval)).

(** A [dict] with string keys, in insertion order. *)
Abbreviation pydict := (list (string * pyval)).

(** [d.get(k)]: the value stored under [k], if any. *)
Fixpoint dict_get (d : pydict) (k : string) : option pyval :=
  match d with
  | [] => None
  | (k', v) :: d' => if String.eqb k' k then Some v else dict_get d' k
  end.

(** [d[k] = v]: the entry under [k] is replaced where it is, a
    new key goes to the end. *)
Fixpoint dict_set (d : pydict) (k : string) (v : pyval) : pydict :=
  match d with
  | [] => [(k, v)]
  | (k', v') :: d' =>
      if String.eqb k' k then (k', v) :: d' else (k', v') :: dict_set d' k v
  end.

Inductive exn :=
| KeyError (key : string)
| TypeError (message : string)
| ValueError (message : string)
| ImportError (message : string)
| StateTransitionError (message : string)
| RuntimeError (message : string)
| TimeoutError (message : string)
(** Not a Python exception: the value under [field] has another type than
    the field's annotation.  Python would store it as it is; the typed
    records of the embedding cannot. *)
| Untyped (field : string).

(** What a call does: it returns a value or raises. *)
Inductive outcome (A : Type) :=
| Returned (a : A)
| Raised (e : exn).
Arguments Returned {A} a.
Arguments Raised {A} e.

#[global] Instance outcome_ret : MRet outcome := fun A a => Returned a.
#[global] Instance outcome_bind : MBind outcome := fun A B f m =>
  match m with
  | Returned a => f a
  | Raised e => Raised e
  end.

Definition as_int (v : pyval) : option Z :=
  match v with PInt z => Some z | _ => None end.
Definition as_float (v : pyval) : option Q :=
  match v with PFloat q => Some q | _ => None end.
Definition as_str (v : pyval) : option string :=
  match v with PStr s => Some s | _ => None end.
Definition as_list (v : pyval) : option (list pyval) :=
  match v with PList l => Some l | _ => None end.
Definition as_dict (v : pyval) : option pydict :=
  match v with PDict d => Some d | _ => None end.
Definition as_optional_str (v : pyval) : option (option string) :=
  match v with PNone => Some None | PStr s => Some (Some s) | _ => None end.

Definition of_optional_str (o : option string) : pyval :=
  match o with None => PNone | Some s => PStr s end.

(** [[f(x) for x in l]] where [f] may fail. *)
Fixpoint traverse {M : Type -> Type} `{MBind M, MRet M} {A B}
  (f : A -> M B) (l : list A) : M (list B) :=
  match l with
  | [] => mret []
  | x :: l' => y ← f x; ys ← traverse f l'; mret (y :: ys)
  end.

Definition as_str_list (v : pyval) : option (list string) :=
  as_list v ≫= traverse as_str.

Definition as_str_dict (v : pyval) : option (list (string * string)) :=
  as_dict v ≫= traverse (fun kv => a ← as_str (snd kv); Some (fst kv, a)).

(** A value read at the type of the field [k]. *)
Definition typed {A} (k : string) (proj : pyval -> option A) (v : pyval)
  : outcome A :=
  match proj v with
  | Some a => Returned a
  | None => Raised (Untyped k)
  end.

(** [data[k]]: [KeyError] on a missing key. *)
Definition subscript (data : pydict) (k : string) : outcome pyval :=
  match dict_get data k with
  | Some v => Returned v
  | None => Raised (KeyError k)
  end.

(** [data.get(k, default)]. *)
Definition get_default {A} (data : pydict) (k : string)
  (proj : pyval -> option A) (default : A) : outcome A :=
  match dict_get data k with
  | Some v => typed k proj v
  | None => Returned default
  end.

(** The keyword call of a dataclass on the entries of a dictionary.  It
    raises [TypeError] on a key that is no field ([kwargs_known]) and on a
    missing field that has no default ([required]); a missing field with a
    default takes it ([defaulted]). *)
Definition kwargs_known (fields : list string) (data : pydict) : outcome unit :=
  if forallb (fun kv => existsb (String.eqb (fst kv)) fields) data
  then Returned tt
  else Raised (TypeError "got an unexpected keyword argument").

Definition required {A} (data : pydict) (k : string) (proj : pyval -> option A)
  : outcome A :=
  match dict_get data k with
  | Some v => typed k proj v
  | None => Raised (TypeError "missing required argument")
  end.

Definition defaulted {A} (data : pydict) (k : string) (proj : pyval -> option A)
  (default : A) : outcome A :=
  get_default data k proj default.

(** [[cls.from_dict(x) for x in data.get(k, [])]]. *)
Definition objects_of {A} (data : pydict) (k : string)
  (from_dict : pydict -> outcome A) : outcome (list A) :=
  l ← get_default data k as_list [];
  traverse (fun v => d ← typed k as_dict v; from_dict d) l.

(** [str(e)]. *)
Definition exn_message (e : exn) : string :=
  match e with
  | KeyError m | TypeError m | ValueError m | ImportError m
  | StateTransitionError m | RuntimeError m | TimeoutError m | Untyped m => m
  end.

(** How the modules of the directory are loaded: as members of a package,
    or each one as a top-level module (the directory put on [sys.path]). *)
Inductive load_mode := AsPackage | TopLevel.

(** [from .module import name], executed in a module loaded in [mode]: a
    relative import needs a parent package. *)
Definition import_relative (mode : load_mode) : outcome unit :=
  match mode with
  | AsPackage => Returned tt
  | TopLevel =>
      Raised (ImportError "attempted relative import with no known parent package")
  end.

(** ** datetime *)

Module Datetime.

Record t := mk { microseconds : Z }.

(** [datetime.isoformat] and [datetime.fromisoformat] belong to Python's
    library; the embedding takes them as an interface. *)
Class Format := {
  isoformat : t -> string;
  fromisoformat : string -> option t
}.

(** [datetime.fromisoformat(s)]: [ValueError] on a string it cannot
    read. *)
Definition parse `{Format} (v : pyval) : outcome t :=
  match v with
  | PStr s =>
      match fromisoformat s with
      | Some d => Returned d
      | None => Raised (ValueError "Invalid isoformat string")
      end
  | _ => Raised (TypeError "fromisoformat: argument must be str")
  end.

(** The library's contract: [fromisoformat] inverts [isoformat]. *)
Definition format_inverse `{Format} : Prop :=
  forall d : t, fromisoformat (isoformat d) = Some d.

End Datetime.

(** ** models.py: enumerations *)

Module ResearchState.

Inductive t :=
| INITIALIZING | CLARIFYING | PLANNING | SEARCHING | EVALUATING
| TRAIL_FOLLOWING | SYNTHESIZING | COMPLETED | FAILED.

#[global] Instance eq_dec : EqDecision t.
Proof. solve_decision. Defined.

Definition all : list t :=
  [INITIALIZING; CLARIFYING; PLANNING; SEARCHING; EVALUATING;
   TRAIL_FOLLOWING; SYNTHESIZING; COMPLETED; FAILED].

Definition value (s : t) : string :=
  match s with
  | INITIALIZING => "initializing"
  | CLARIFYING => "clarifying"
  | PLANNING => "planning"
  | SEARCHING => "searching"
  | EVALUATING => "evaluating"
  | TRAIL_FOLLOWING => "trail_following"
  | SYNTHESIZING => "synthesizing"
  | COMPLETED => "completed"
  | FAILED => "failed"
  end.

(** [ResearchState(v)]: the member whose value is [v]; [ValueError]
    otherwise. *)
Definition of_value (v : pyval) : outcome t :=
  match v with
  | PStr x =>
      match find (fun s => String.eqb (value s) x) all with
      | Some s => Returned s
      | None => Raised (ValueError "is not a valid ResearchState")
      end
  | _ => Raised (ValueError "is not a valid ResearchState")
  end.

End ResearchState.

Module TrailStatus.

Inductive t := PENDING | ACTIVE | COMPLETED | ABANDONED.

#[global] Instance eq_dec : EqDecision t.
Proof. solve_decision. Defined.

Definition all : list t := [PENDING; ACTIVE; COMPLETED; ABANDONED].

Definition value (s : t) : string :=
  match s with
  | PENDING => "pending"
  | ACTIVE => "active"
  | COMPLETED => "completed"
  | ABANDONED => "abandoned"
  end.

(** [TrailStatus(v)]. *)
Definition of_value (v : pyval) : outcome t :=
  match v with
  | PStr x =>
      match find (fun s => String.eqb (value s) x) all with
      | Some s => Returned s
      | None => Raised (ValueError "is not a valid TrailStatus")
      end
  | _ => Raised (ValueError "is not a valid TrailStatus")
  end.

End TrailStatus.

Module Capability.

Inductive t := PLANNING | SEARCHING | WRITING | EVALUATION | CLARIFICATION | EMAIL.

End Capability.

(** ** models.py: ResourceUsage *)

Module ResourceUsage.

Record t := mk {
  tokens_used : Z;
  api_calls : Z;
  time_seconds : Q
}.

(** The dataclass defaults: [ResourceUsage()]. *)
Definition default : t :=
  {| tokens_used := 0; api_calls := 0; time_seconds := 0%Q |}.

(** [self.add(other)] mutates [self]; the new value of [self]. *)
Definition add (self other : t) : t :=
  {| tokens_used := tokens_used self + tokens_used other;
     api_calls := api_calls self + api_calls other;
     time_seconds := (time_seconds self + time_seconds other)%Q |}.

(** The range the data model gives to a usage record: no negative
    count. *)
Definition valid (u : t) : Prop :=
  0 <= tokens_used u /\ 0 <= api_calls u /\ (0 <= time_seconds u)%Q.

Definition to_dict (self : t) : pydict :=
  [ ("tokens_used", PInt (tokens_used self));
    ("api_calls", PInt (api_calls self));
    ("time_seconds", PFloat (time_seconds self)) ].

Definition from_dict (data : pydict) : outcome t :=
  kwargs_known ["tokens_used"; "api_calls"; "time_seconds"] data;;
  tu ← defaulted data "tokens_used" as_int 0;
  ac ← defaulted data "api_calls" as_int 0;
  ts ← defaulted data "time_seconds" as_float 0%Q;
  mret (mk tu ac ts).

End ResourceUsage.

(** ** budget.py: Operation and ResearchBudget *)

Module Operation.

Record t := mk {
  name : string;
  estimated_tokens : Z;
  estimated_api_calls : Z;
  estimated_time_seconds : Q
}.

Definition to_usage (self : t) : ResourceUsage.t :=
  {| ResourceUsage.tokens_used := estimated_tokens self;
     ResourceUsage.api_calls := estimated_api_calls self;
     ResourceUsage.time_seconds := estimated_time_seconds self |}.

End Operation.

Module ResearchBudget.

Import ResourceUsage.

Record t := mk {
  max_tokens : Z;
  max_time_seconds : Q;
  max_api_calls : Z;
  max_trail_depth : Z;
  current_usage : ResourceUsage.t;
  trail_depth : Z
}.

(** The constructor call [ResearchBudget(max_tokens=.., ..)] with the two
    defaulted fields left out. *)
Definition new (mt : Z) (ms : Q) (mc : Z) (md : Z) : t :=
  {| max_tokens := mt; max_time_seconds := ms; max_api_calls := mc;
     max_trail_depth := md; current_usage := ResourceUsage.default;
     trail_depth := 0 |}.

Definition set_current_usage (self : t) (u : ResourceUsage.t) : t :=
  {| max_tokens := max_tokens self;
     max_time_seconds := max_time_seconds self;
     max_api_calls := max_api_calls self;
     max_trail_depth := max_trail_depth self;
     current_usage := u;
     trail_depth := trail_depth self |}.

Definition set_trail_depth (self : t) (d : Z) : t :=
  {| max_tokens := max_tokens self;
     max_time_seconds := max_time_seconds self;
     max_api_calls := max_api_calls self;
     max_trail_depth := max_trail_depth self;
     current_usage := current_usage self;
     trail_depth := d |}.

Definition can_afford (self : t) (operation : Operation.t) : bool :=
  if tokens_used (current_usage self) + Operation.estimated_tokens operation
     >? max_tokens self then false
  else if api_calls (current_usage self)
          + Operation.estimated_api_calls operation
          >? max_api_calls self then false
  else if Qgtb (time_seconds (current_usage self)
                + Operation.estimated_time_seconds operation)
               (max_time_seconds self) then false
  else true.

Definition can_afford_trail (self : t) : bool :=
  trail_depth self <? max_trail_depth self.

Definition consume (self : t) (operation : Operation.t) : t :=
  let usage := Operation.to_usage operation in
  set_current_usage self (ResourceUsage.add (current_usage self) usage).

Definition consume_usage (self : t) (usage : ResourceUsage.t) : t :=
  set_current_usage self (ResourceUsage.add (current_usage self) usage).

Definition increment_trail_depth (self : t) : t :=
  set_trail_depth self (trail_depth self + 1).

Definition decrement_trail_depth (self : t) : t :=
  if trail_depth self >? 0
  then set_trail_depth self (trail_depth self - 1)
  else self.

Definition remaining (self : t) : ResourceUsage.t :=
  {| tokens_used := Z.max 0 (max_tokens self - tokens_used (current_usage self));
     api_calls := Z.max 0 (max_api_calls self - api_calls (current_usage self));
     time_seconds :=
       py_max_float 0 (max_time_seconds self - time_seconds (current_usage self)) |}.

(** The dictionary of percentages, in insertion order. *)
Definition utilization_percent (self : t) : list (string * Q) :=
  [ ("tokens",
     if max_tokens self >? 0
     then (py_truediv (tokens_used (current_usage self)) (max_tokens self) * 100)%Q
     else 0%Q);
    ("api_calls",
     if max_api_calls self >? 0
     then (py_truediv (api_calls (current_usage self)) (max_api_calls self) * 100)%Q
     else 0%Q);
    ("time",
     if Qgtb (max_time_seconds self) 0
     then (time_seconds (current_usage self) / max_time_seconds self * 100)%Q
     else 0%Q);
    ("trail_depth",
     if max_trail_depth self >? 0
     then (py_truediv (trail_depth self) (max_trail_depth self) * 100)%Q
     else 0%Q) ].

Definition is_exhausted (self : t) : bool :=
  (tokens_used (current_usage self) >=? max_tokens self)
  || (api_calls (current_usage self) >=? max_api_calls self)
  || Qgeb (time_seconds (current_usage self)) (max_time_seconds self).

Definition is_near_limit (self : t) (threshold : Q) : bool :=
  let util := utilization_percent self in
  existsb (fun v => Qgeb v (threshold * 100)%Q) (map snd util).

Definition allocate_for_trail (self : t) (percentage : Q) : t :=
  let remaining := remaining self in
  new (py_int (inject_Z (tokens_used remaining) * percentage)%Q)
      (time_seconds remaining * percentage)%Q
      (py_int (inject_Z (api_calls remaining) * percentage)%Q)
      (Z.max 1 (max_trail_depth self - trail_depth self - 1)).

Definition create_default : t := new 50000 300%Q 50 3.
Definition create_development : t := new 10000 60%Q 10 1.

Definition to_dict (self : t) : pydict :=
  [ ("max_tokens", PInt (max_tokens self));
    ("max_time_seconds", PFloat (max_time_seconds self));
    ("max_api_calls", PInt (max_api_calls self));
    ("max_trail_depth", PInt (max_trail_depth self));
    ("current_usage", PDict (ResourceUsage.to_dict (current_usage self)));
    ("trail_depth", PInt (trail_depth self)) ].

Definition from_dict (data : pydict) : outcome t :=
  cu ← (d ← get_default data "current_usage" as_dict [];
        ResourceUsage.from_dict d);
  kwargs_known ["max_tokens"; "max_time_seconds"; "max_api_calls";
                "max_trail_depth"; "current_usage"; "trail_depth"] data;;
  mt ← required data "max_tokens" as_int;
  ms ← required data "max_time_seconds" as_float;
  mc ← required data "max_api_calls" as_int;
  md ← required data "max_trail_depth" as_int;
  td ← defaulted data "trail_depth" as_int 0;
  mret (mk mt ms mc md cu td).

(** The budget reached after [n] nested allocations, each one taken from
    the child of the previous one (vocabulary of the depth properties). *)
Fixpoint nested_allocation (n : nat) (self : t) (percentage : Q) : t :=
  match n with
  | O => self
  | S n' => allocate_for_trail (nested_allocation n' self percentage) percentage
  end.

End ResearchBudget.

(** ** models.py: Finding, Gap, QualityScore, HandoffRecord *)

Module Finding.

Record t := mk {
  id : string;
  content : string;
  source : string;
  timestamp : Datetime.t;
  confidence : Q;
  metadata : pydict
}.

Section Serialization.
Context `{Datetime.Format}.

Definition to_dict (self : t) : pydict :=
  [ ("id", PStr (id self));
    ("content", PStr (content self));
    ("source", PStr (source self));
    ("timestamp", PStr (Datetime.isoformat (timestamp self)));
    ("confidence", PFloat (confidence self));
    ("metadata", PDict (metadata self)) ].

Definition from_dict (data : pydict) : outcome t :=
  ts ← (v ← subscript data "timestamp"; Datetime.parse v);
  kwargs_known ["id"; "content"; "source"; "timestamp"; "confidence";
                "metadata"] data;;
  i ← required data "id" as_str;
  c ← required data "content" as_str;
  src ← required data "source" as_str;
  conf ← defaulted data "confidence" as_float 1%Q;
  md ← defaulted data "metadata" as_dict [];
  mret (mk i c src ts conf md).

End Serialization.

End Finding.

Module Gap.

Record t := mk {
  description : string;
  priority : Q;
  suggested_queries : list string
}.

Definition to_dict (self : t) : pydict :=
  [ ("description", PStr (description self));
    ("priority", PFloat (priority self));
    ("suggested_queries", PList (map PStr (suggested_queries self))) ].

Definition from_dict (data : pydict) : outcome t :=
  kwargs_known ["description"; "priority"; "suggested_queries"] data;;
  d ← required data "description" as_str;
  p ← required data "priority" as_float;
  sq ← defaulted data "suggested_queries" as_str_list [];
  mret (mk d p sq).

End Gap.

Module QualityScore.

Record t := mk {
  completeness : Q;
  credibility : Q;
  relevance : Q;
  confidence : Q;
  overall : Q;
  gaps_identified : list Gap.t
}.

Definition to_dict (self : t) : pydict :=
  [ ("completeness", PFloat (completeness self));
    ("credibility", PFloat (credibility self));
    ("relevance", PFloat (relevance self));
    ("confidence", PFloat (confidence self));
    ("overall", PFloat (overall self));
    ("gaps_identified",
     PList (map (fun g => PDict (Gap.to_dict g)) (gaps_identified self))) ].

Definition from_dict (data : pydict) : outcome t :=
  gaps ← objects_of data "gaps_identified" Gap.from_dict;
  kwargs_known ["completeness"; "credibility"; "relevance"; "confidence";
                "overall"; "gaps_identified"] data;;
  cm ← required data "completeness" as_float;
  cr ← required data "credibility" as_float;
  re ← required data "relevance" as_float;
  cf ← required data "confidence" as_float;
  ov ← required data "overall" as_float;
  mret (mk cm cr re cf ov gaps).

End QualityScore.

Module HandoffRecord.

Record t := mk {
  from_agent : string;
  to_agent : string;
  reason : string;
  timestamp : Datetime.t;
  context_summary : string
}.

Section Serialization.
Context `{Datetime.Format}.

Definition to_dict (self : t) : pydict :=
  [ ("from_agent", PStr (from_agent self));
    ("to_agent", PStr (to_agent self));
    ("reason", PStr (reason self));
    ("timestamp", PStr (Datetime.isoformat (timestamp self)));
    ("context_summary", PStr (context_summary self)) ].

Definition from_dict (data : pydict) : outcome t :=
  ts ← (v ← subscript data "timestamp"; Datetime.parse v);
  kwargs_known ["from_agent"; "to_agent"; "reason"; "timestamp";
                "context_summary"] data;;
  fa ← required data "from_agent" as_str;
  ta ← required data "to_agent" as_str;
  r ← required data "reason" as_str;
  cs ← required data "context_summary" as_str;
  mret (mk fa ta r ts cs).

End Serialization.

End HandoffRecord.

(** ** models.py: ResearchTrail and ResearchContext *)

Module ResearchTrail.

Record t := mk {
  id : string;
  origin_finding_id : option string;
  trail_query : string;
  relevance_score : Q;
  budget_allocated : ResearchBudget.t;
  findings : list Finding.t;
  status : TrailStatus.t;
  breadcrumbs : list string
}.

Definition set_status (self : t) (s : TrailStatus.t) : t :=
  mk (id self) (origin_finding_id self) (trail_query self)
     (relevance_score self) (budget_allocated self) (findings self) s
     (breadcrumbs self).

Definition set_findings (self : t) (fs : list Finding.t) : t :=
  mk (id self) (origin_finding_id self) (trail_query self)
     (relevance_score self) (budget_allocated self) fs (status self)
     (breadcrumbs self).

Definition set_budget_allocated (self : t) (b : ResearchBudget.t) : t :=
  mk (id self) (origin_finding_id self) (trail_query self)
     (relevance_score self) b (findings self) (status self)
     (breadcrumbs self).

Section Serialization.
Context `{Datetime.Format} (mode : load_mode).

Definition to_dict (self : t) : pydict :=
  [ ("id", PStr (id self));
    ("origin_finding_id", of_optional_str (origin_finding_id self));
    ("trail_query", PStr (trail_query self));
    ("relevance_score", PFloat (relevance_score self));
    ("budget_allocated", PDict (ResearchBudget.to_dict (budget_allocated self)));
    ("findings", PList (map (fun f => PDict (Finding.to_dict f)) (findings self)));
    ("status", PStr (TrailStatus.value (status self)));
    ("breadcrumbs", PList (map PStr (breadcrumbs self))) ].

(** The first statement of [from_dict] is
    [from .budget import ResearchBudget]. *)
Definition from_dict (data : pydict) : outcome t :=
  import_relative mode;;
  b ← (v ← subscript data "budget_allocated";
       d ← typed "budget_allocated" as_dict v;
       ResearchBudget.from_dict d);
  fs ← objects_of data "findings" Finding.from_dict;
  st ← (v ← subscript data "status"; TrailStatus.of_value v);
  kwargs_known ["id"; "origin_finding_id"; "trail_query"; "relevance_score";
                "budget_allocated"; "findings"; "status"; "breadcrumbs"] data;;
  i ← required data "id" as_str;
  o ← required data "origin_finding_id" as_optional_str;
  q ← required data "trail_query" as_str;
  r ← required data "relevance_score" as_float;
  bc ← defaulted data "breadcrumbs" as_str_list [];
  mret (mk i o q r b fs st bc).

End Serialization.

End ResearchTrail.

Module ResearchContext.

Record t := mk {
  query : string;
  state : ResearchState.t;
  clarifications : list (string * string);
  findings : list Finding.t;
  research_trails : list ResearchTrail.t;
  budget_used : ResourceUsage.t;
  quality_scores : list QualityScore.t;
  handoff_history : list HandoffRecord.t;
  metadata : pydict;
  created_at : Datetime.t;
  updated_at : Datetime.t
}.

(** [update_state]; [now] is the value of [datetime.now()]. *)
Definition update_state (self : t) (new_state : ResearchState.t)
  (now : Datetime.t) : t :=
  mk (query self) new_state (clarifications self) (findings self)
     (research_trails self) (budget_used self) (quality_scores self)
     (handoff_history self) (metadata self) (created_at self) now.

Definition set_metadata (self : t) (md : pydict) : t :=
  mk (query self) (state self) (clarifications self) (findings self)
     (research_trails self) (budget_used self) (quality_scores self)
     (handoff_history self) md (created_at self) (updated_at self).

(** [add_finding], [add_trail], [add_handoff]: an append, and the clock. *)
Definition add_finding (self : t) (finding : Finding.t) (now : Datetime.t) : t :=
  mk (query self) (state self) (clarifications self) (findings self ++ [finding])
     (research_trails self) (budget_used self) (quality_scores self)
     (handoff_history self) (metadata self) (created_at self) now.

Definition add_trail (self : t) (trail : ResearchTrail.t) (now : Datetime.t) : t :=
  mk (query self) (state self) (clarifications self) (findings self)
     (research_trails self ++ [trail]) (budget_used self) (quality_scores self)
     (handoff_history self) (metadata self) (created_at self) now.

Definition add_handoff (self : t) (handoff : HandoffRecord.t) (now : Datetime.t)
  : t :=
  mk (query self) (state self) (clarifications self) (findings self)
     (research_trails self) (budget_used self) (quality_scores self)
     (handoff_history self ++ [handoff]) (metadata self) (created_at self) now.

(** [self.clarifications[question] = answer]. *)
Fixpoint clarification_set (d : list (string * string)) (question answer : string)
  : list (string * string) :=
  match d with
  | [] => [(question, answer)]
  | (q, a) :: d' =>
      if String.eqb q question then (q, answer) :: d'
      else (q, a) :: clarification_set d' question answer
  end.

Definition add_clarification (self : t) (question answer : string)
  (now : Datetime.t) : t :=
  mk (query self) (state self)
     (clarification_set (clarifications self) question answer) (findings self)
     (research_trails self) (budget_used self) (quality_scores self)
     (handoff_history self) (metadata self) (created_at self) now.

Definition validate (self : t) : bool :=
  negb (String.eqb (query self) "").

Section Serialization.
Context `{Datetime.Format} (mode : load_mode).

Definition to_dict (self : t) : pydict :=
  [ ("query", PStr (query self));
    ("state", PStr (ResearchState.value (state self)));
    ("clarifications",
     PDict (map (fun kv => (fst kv, PStr (snd kv))) (clarifications self)));
    ("findings", PList (map (fun f => PDict (Finding.to_dict f)) (findings self)));
    ("research_trails",
     PList (map (fun t => PDict (ResearchTrail.to_dict t)) (research_trails self)));
    ("budget_used", PDict (ResourceUsage.to_dict (budget_used self)));
    ("quality_scores",
     PList (map (fun q => PDict (QualityScore.to_dict q)) (quality_scores self)));
    ("handoff_history",
     PList (map (fun h => PDict (HandoffRecord.to_dict h)) (handoff_history self)));
    ("metadata", PDict (metadata self));
    ("created_at", PStr (Datetime.isoformat (created_at self)));
    ("updated_at", PStr (Datetime.isoformat (updated_at self))) ].

Definition from_dict (data : pydict) : outcome t :=
  st ← (v ← subscript data "state"; ResearchState.of_value v);
  fs ← objects_of data "findings" Finding.from_dict;
  ts ← objects_of data "research_trails" (ResearchTrail.from_dict mode);
  bu ← (d ← get_default data "budget_used" as_dict [];
        ResourceUsage.from_dict d);
  qs ← objects_of data "quality_scores" QualityScore.from_dict;
  hs ← objects_of data "handoff_history" HandoffRecord.from_dict;
  ca ← (v ← subscript data "created_at"; Datetime.parse v);
  ua ← (v ← subscript data "updated_at"; Datetime.parse v);
  kwargs_known ["query"; "state"; "clarifications"; "findings";
                "research_trails"; "budget_used"; "quality_scores";
                "handoff_history"; "metadata"; "created_at"; "updated_at"] data;;
  q ← required data "query" as_str;
  cl ← defaulted data "clarifications" as_str_dict [];
  md ← defaulted data "metadata" as_dict [];
  mret (mk q st cl fs ts bu qs hs md ca ua).

End Serialization.

End ResearchContext.

(** ** state_machine.py *)

Module ResearchStateMachine.

Import ResearchState.

Record t := mk {
  context : ResearchContext.t;
  _state_history : list ResearchState.t
}.

(** The class attribute [TRANSITIONS]: every state is a key of it. *)
Definition TRANSITIONS (s : ResearchState.t) : list ResearchState.t :=
  match s with
  | INITIALIZING => [CLARIFYING; PLANNING; FAILED]
  | CLARIFYING => [PLANNING; FAILED]
  | PLANNING => [SEARCHING; FAILED]
  | SEARCHING => [EVALUATING; FAILED]
  | EVALUATING => [TRAIL_FOLLOWING; SYNTHESIZING; SEARCHING; FAILED]
  | TRAIL_FOLLOWING => [EVALUATING; SYNTHESIZING; FAILED]
  | SYNTHESIZING => [COMPLETED; FAILED]
  | COMPLETED => []
  | FAILED => []
  end.

Definition new (context : ResearchContext.t) : t :=
  mk context [ResearchContext.state context].

Definition can_transition (self : t) (to_state : ResearchState.t) : bool :=
  let current_state := ResearchContext.state (context self) in
  bool_decide (to_state ∈ TRANSITIONS current_state).

(** [transition]: what the call does and the machine it leaves.  [now] is
    the clock read by [update_state]. *)
Definition transition (self : t) (to_state : ResearchState.t) (reason : string)
  (now : Datetime.t) : outcome unit * t :=
  let current_state := ResearchContext.state (context self) in
  if negb (can_transition self to_state) then
    (Raised (StateTransitionError
               ("Invalid transition from " ++ value current_state
                ++ " to " ++ value to_state)),
     self)
  else
    (Returned tt,
     mk (ResearchContext.update_state (context self) to_state now)
        (_state_history self ++ [to_state])).

Definition get_valid_transitions (self : t) : list ResearchState.t :=
  TRANSITIONS (ResearchContext.state (context self)).

Definition is_terminal_state (self : t) : bool :=
  bool_decide (ResearchContext.state (context self) ∈ [COMPLETED; FAILED]).

Definition get_state_history (self : t) : list ResearchState.t :=
  _state_history self.

Definition force_fail (self : t) (reason : string) (now : Datetime.t) : t :=
  let c := ResearchContext.update_state (context self) FAILED now in
  mk (ResearchContext.set_metadata c
        (dict_set (ResearchContext.metadata c) "failure_reason" (PStr reason)))
     (_state_history self ++ [FAILED]).

(** The calls that change a machine, and a run of them in order. *)
Inductive call :=
| Transition (to_state : ResearchState.t) (reason : string) (now : Datetime.t)
| ForceFail (reason : string) (now : Datetime.t).

Definition run (c : call) (self : t) : t :=
  match c with
  | Transition to_state reason now => (transition self to_state reason now).2
  | ForceFail reason now => force_fail self reason now
  end.

Definition run_all (cs : list call) (self : t) : t :=
  foldl (fun m c => run c m) self cs.

(** A history in which every step follows an edge of the table or goes to
    FAILED (vocabulary of the history properties). *)
Definition legal_history (h : list ResearchState.t) : Prop :=
  forall (i : nat) (s s' : ResearchState.t),
    h !! i = Some s -> h !! S i = Some s' ->
    s' ∈ TRANSITIONS s \/ s' = FAILED.

End ResearchStateMachine.

(** ** planner_agent.py: ResearchTrailSuggestion *)

Module ResearchTrailSuggestion.

Record t := mk {
  trail_query : string;
  relevance_score : Q;
  reason : string
}.

End ResearchTrailSuggestion.

(** ** Strings and lists of Python *)

Definition ascii_lower (c : ascii) : ascii :=
  let n := nat_of_ascii c in
  if ((65 <=? n) && (n <=? 90))%nat then ascii_of_nat (n + 32) else c.

(** [s.lower()]. *)
Fixpoint lower (s : string) : string :=
  match s with
  | EmptyString => EmptyString
  | String c s' => String (ascii_lower c) (lower s')
  end.

(** [s[a:b]] for indices that are not negative. *)
Definition py_slice (s : string) (a b : nat) : string :=
  substring a (b - a) s.

(** [l[:n]]: a negative [n] counts from the end. *)
Definition py_take {A} (n : Z) (l : list A) : list A :=
  if n <? 0 then take (length l - Z.to_nat (- n)) l
  else take (Z.to_nat n) l.

(** [l.sort(key=key, reverse=True)]: descending and stable, an element
    stays behind the earlier elements of the same key. *)
Fixpoint insert_desc {A} (key : A -> Q) (x : A) (l : list A) : list A :=
  match l with
  | [] => [x]
  | y :: l' =>
      if Qgtb (key y) (key x) then y :: insert_desc key x l'
      else x :: y :: l'
  end.

Definition sort_desc {A} (key : A -> Q) (l : list A) : list A :=
  foldr (insert_desc key) [] l.

(** A list whose keys never go up from left to right (vocabulary of the
    sorting properties). *)
Definition descending {A} (key : A -> Q) (l : list A) : Prop :=
  forall (i j : nat) (x y : A),
    (i < j)%nat -> l !! i = Some x -> l !! j = Some y -> (key y <= key x)%Q.

(** [c.isspace()] for a character below 256. *)
Definition is_space (c : ascii) : bool :=
  let n := nat_of_ascii c in
  (((9 <=? n) && (n <=? 13)) || ((28 <=? n) && (n <=? 32))
   || (n =? 133) || (n =? 160))%nat.

(** [s.split()]: the words between runs of white space; [word] is the
    word being read. *)
Fixpoint py_split_from (s : string) (word : string) : list string :=
  match s with
  | EmptyString => if String.eqb word "" then [] else [word]
  | String c s' =>
      if is_space c then
        if String.eqb word "" then py_split_from s' ""
        else word :: py_split_from s' ""
      else py_split_from s' (word ++ String c EmptyString)
  end.

Definition py_split (s : string) : list string := py_split_from s "".

(** [set(s.lower().split())]. *)
Definition terms (s : string) : gset string := list_to_set (py_split (lower s)).

(** [needle in haystack]. *)
Definition contains (haystack needle : string) : bool :=
  match String.index 0 needle haystack with
  | Some _ => true
  | None => false
  end.

(** [min(a, b)] on floats: the first argument unless the second is
    strictly smaller. *)
Definition py_min_float (a b : Q) : Q := if Qgtb a b then b else a.

(** ** trail_discovery.py *)

Module TrailDiscovery.

Record t := mk {
  min_relevance : Q;
  _discovered_trails : gset string
}.

Definition new (min_relevance : Q) : t := mk min_relevance ∅.

Definition tangent_indicators : list string :=
  [ "related to"; "connected to"; "similar to"; "also known as";
    "see also"; "further reading"; "more information";
    "additionally"; "furthermore"; "moreover" ].

(** [indicator in content_lower] and [content_lower.find(indicator)] are
    the two readings of one search. *)
Definition _extract_trails_from_finding (finding : Finding.t)
  (original_query : string) : list ResearchTrailSuggestion.t :=
  let content_lower := lower (Finding.content finding) in
  flat_map
    (fun indicator =>
       match String.index 0 indicator content_lower with
       | Some idx =>
           let context :=
             py_slice (Finding.content finding) (idx - 50)
               (Nat.min (String.length (Finding.content finding)) (idx + 100)) in
           [ ResearchTrailSuggestion.mk
               ("More about: " ++ py_slice context 0 50 ++ "...")
               (7 # 10)
               ("Found related concept in finding from "
                ++ Finding.source finding) ]
       | None => []
       end)
    tangent_indicators.

(** The suggestions left after the two filters of [discover_trails], before
    the sort and the cut. *)
Definition candidate_pool (self : t) (query : string)
  (findings : list Finding.t) : list ResearchTrailSuggestion.t :=
  let trail_suggestions :=
    flat_map (fun finding => _extract_trails_from_finding finding query) findings in
  let trail_suggestions :=
    filter (fun t => lower (ResearchTrailSuggestion.trail_query t)
                     ∉ _discovered_trails self) trail_suggestions in
  filter (fun t => Qgeb (ResearchTrailSuggestion.relevance_score t)
                        (min_relevance self) = true) trail_suggestions.

(** [self._discovered_trails.add(..)] for every suggestion of a list. *)
Definition mark_discovered (discovered : gset string)
  (trails : list ResearchTrailSuggestion.t) : gset string :=
  foldl (fun d trail => d ∪ {[ lower (ResearchTrailSuggestion.trail_query trail) ]})
        discovered trails.

(** [discover_trails]: the list returned and the instance after the call. *)
Definition discover_trails (self : t) (query : string)
  (findings : list Finding.t) (max_trails : Z)
  : list ResearchTrailSuggestion.t * t :=
  match findings with
  | [] => ([], self)
  | _ =>
      let trail_suggestions := candidate_pool self query findings in
      let trail_suggestions :=
        sort_desc ResearchTrailSuggestion.relevance_score trail_suggestions in
      let trail_suggestions := py_take max_trails trail_suggestions in
      (trail_suggestions,
       mk (min_relevance self)
          (mark_discovered (_discovered_trails self) trail_suggestions))
  end.

Definition get_discovered_count (self : t) : nat :=
  size (_discovered_trails self).

Definition reset (self : t) : t := mk (min_relevance self) ∅.

Definition score_trail_relevance (self : t) (trail_query original_query : string)
  (findings : list Finding.t) : Q :=
  let trail_terms := terms trail_query in
  let query_terms := terms original_query in
  let overlap := size (trail_terms ∩ query_terms) in
  let relevance :=
    py_min_float 1
      (py_truediv (Z.of_nat overlap) (Z.of_nat (Nat.max (size query_terms) 1))) in
  let mention_count :=
    length
      (List.filter
         (fun f => existsb (contains (lower (Finding.content f)))
                     (elements trail_terms))
         findings) in
  if (1 <? mention_count)%nat then py_min_float 1 (relevance + (2 # 10))%Q
  else relevance.

Definition detect_novelty (self : t) (trail_query : string)
  (existing_findings : list Finding.t) : Q :=
  let trail_terms := terms trail_query in
  let max_overlap :=
    foldl
      (fun max_overlap finding =>
         let finding_terms := terms (Finding.content finding) in
         let overlap :=
           py_truediv (Z.of_nat (size (trail_terms ∩ finding_terms)))
                      (Z.of_nat (Nat.max (size trail_terms) 1)) in
         py_max_float max_overlap overlap)
      0%Q existing_findings in
  (1 - max_overlap)%Q.

(** [prioritize_trails]: each suggestion gets its combined score, then the
    list is sorted. *)
Definition prioritize_trails (self : t) (trails : list ResearchTrailSuggestion.t)
  (original_query : string) (findings : list Finding.t)
  : list ResearchTrailSuggestion.t :=
  let scored_trails :=
    map
      (fun trail =>
         let relevance :=
           score_trail_relevance self
             (ResearchTrailSuggestion.trail_query trail) original_query findings in
         let novelty :=
           detect_novelty self (ResearchTrailSuggestion.trail_query trail)
             findings in
         let combined_score :=
           (relevance * (6 # 10) + novelty * (4 # 10))%Q in
         ResearchTrailSuggestion.mk
           (ResearchTrailSuggestion.trail_query trail) combined_score
           (ResearchTrailSuggestion.reason trail))
      trails in
  sort_desc ResearchTrailSuggestion.relevance_score scored_trails.

End TrailDiscovery.

(** ** trail_manager.py *)

Module TrailManager.

Import ResearchTrail.

(** The manager holds references to trail objects that its callers hold
    too and that are mutated in place: a reference is an address in the
    store [heap] of trail objects. *)
Record t := mk {
  max_concurrent_trails : Z;
  _active_trails : list nat;
  _completed_trails : list nat;
  _visited_queries : gset string;
  _breadcrumbs : gset string
}.

Record state := mkState {
  heap : list ResearchTrail.t;
  self : t
}.

Definition new (max_concurrent_trails : Z) : t :=
  mk max_concurrent_trails [] [] ∅ ∅.

Definition init (max_concurrent_trails : Z) : state :=
  mkState [] (new max_concurrent_trails).

Definition _would_create_loop (m : t) (query : string) : bool :=
  bool_decide (lower query ∈ _breadcrumbs m).

Definition _add_breadcrumb (m : t) (query : string) : t :=
  mk (max_concurrent_trails m) (_active_trails m) (_completed_trails m)
     (_visited_queries m) (_breadcrumbs m ∪ {[ lower query ]}).

Definition _remove_breadcrumb (m : t) (query : string) : t :=
  mk (max_concurrent_trails m) (_active_trails m) (_completed_trails m)
     (_visited_queries m) (_breadcrumbs m ∖ {[ lower query ]}).

(** [t.id == trail_id] for the object at address [a]. *)
Definition has_id (h : list ResearchTrail.t) (trail_id : string) (a : nat) : bool :=
  match h !! a with
  | Some trail => String.eqb (id trail) trail_id
  | None => false
  end.

(** The first object of the list [l] whose id is [trail_id]. *)
Fixpoint find_by_id (h : list ResearchTrail.t) (trail_id : string)
  (l : list nat) : option (nat * ResearchTrail.t) :=
  match l with
  | [] => None
  | a :: l' =>
      match h !! a with
      | Some trail =>
          if String.eqb (id trail) trail_id then Some (a, trail)
          else find_by_id h trail_id l'
      | None => find_by_id h trail_id l'
      end
  end.

Definition _find_trail (s : state) (trail_id : string)
  : option (nat * ResearchTrail.t) :=
  match find_by_id (heap s) trail_id (_active_trails (self s)) with
  | Some r => Some r
  | None => find_by_id (heap s) trail_id (_completed_trails (self s))
  end.

(** [create_trail]; [uuid] is the value of [str(uuid.uuid4())].  The result
    is the address of the new trail, or [None]. *)
Definition create_trail (s : state) (trail_query : string)
  (relevance_score : Q) (budget : ResearchBudget.t)
  (origin_finding_id : option string) (uuid : string) : option nat * state :=
  let m := self s in
  if _would_create_loop m trail_query then (None, s)
  else if bool_decide (lower trail_query ∈ _visited_queries m) then (None, s)
  else if Z.of_nat (length (_active_trails m)) >=? max_concurrent_trails m
  then (None, s)
  else
    let trail :=
      ResearchTrail.mk uuid origin_finding_id trail_query relevance_score
        budget [] TrailStatus.PENDING [] in
    let a := length (heap s) in
    (Some a,
     mkState (heap s ++ [trail])
       (mk (max_concurrent_trails m) (_active_trails m ++ [a])
           (_completed_trails m)
           (_visited_queries m ∪ {[ lower trail_query ]})
           (_breadcrumbs m))).

Definition start_trail (s : state) (trail_id : string) : bool * state :=
  match _find_trail s trail_id with
  | None => (false, s)
  | Some (a, trail) =>
      if negb (bool_decide (status trail = TrailStatus.PENDING)) then (false, s)
      else
        (true,
         mkState (<[a := set_status trail TrailStatus.ACTIVE]> (heap s))
                 (_add_breadcrumb (self s) (ResearchTrail.trail_query trail)))
  end.

(** What [complete_trail] and [abandon_trail] share: the status is set, the
    breadcrumb removed, every trail of that id leaves the active list and
    the trail found joins the completed list. *)
Definition finish_trail (s : state) (trail_id : string)
  (final : TrailStatus.t) : bool * state :=
  match _find_trail s trail_id with
  | None => (false, s)
  | Some (a, trail) =>
      let h := <[a := set_status trail final]> (heap s) in
      let m := _remove_breadcrumb (self s) (ResearchTrail.trail_query trail) in
      (true,
       mkState h
         (mk (max_concurrent_trails m)
             (List.filter (fun b => negb (has_id h trail_id b)) (_active_trails m))
             (_completed_trails m ++ [a])
             (_visited_queries m) (_breadcrumbs m)))
  end.

Definition complete_trail (s : state) (trail_id : string) : bool * state :=
  finish_trail s trail_id TrailStatus.COMPLETED.

(** The reason only goes to the log. *)
Definition abandon_trail (s : state) (trail_id : string) (reason : string)
  : bool * state :=
  finish_trail s trail_id TrailStatus.ABANDONED.

Definition add_finding_to_trail (s : state) (trail_id : string)
  (finding : Finding.t) : bool * state :=
  match _find_trail s trail_id with
  | None => (false, s)
  | Some (a, trail) =>
      (true,
       mkState (<[a := set_findings trail (findings trail ++ [finding])]> (heap s))
               (self s))
  end.

Definition status_is (h : list ResearchTrail.t) (st : TrailStatus.t) (a : nat)
  : bool :=
  match h !! a with
  | Some trail => bool_decide (status trail = st)
  | None => false
  end.

Definition get_active_trails (s : state) : list nat :=
  List.filter (status_is (heap s) TrailStatus.ACTIVE) (_active_trails (self s)).

Definition get_pending_trails (s : state) : list nat :=
  List.filter (status_is (heap s) TrailStatus.PENDING) (_active_trails (self s)).

Definition get_all_trails (s : state) : list nat :=
  _active_trails (self s) ++ _completed_trails (self s).

Definition can_create_more_trails (s : state) : bool :=
  Z.of_nat (length (_active_trails (self s))) <? max_concurrent_trails (self s).

(** The calls that change a manager. *)
Inductive call :=
| CreateTrail (trail_query : string) (relevance_score : Q)
    (budget : ResearchBudget.t) (origin_finding_id : option string)
    (uuid : string)
| StartTrail (trail_id : string)
| CompleteTrail (trail_id : string)
| AbandonTrail (trail_id : string) (reason : string)
| AddFindingToTrail (trail_id : string) (finding : Finding.t).

Definition run (c : call) (s : state) : state :=
  match c with
  | CreateTrail q r b o u => (create_trail s q r b o u).2
  | StartTrail i => (start_trail s i).2
  | CompleteTrail i => (complete_trail s i).2
  | AbandonTrail i r => (abandon_trail s i r).2
  | AddFindingToTrail i f => (add_finding_to_trail s i f).2
  end.

(** The status of the trail object at an address. *)
Definition status_at (s : state) (a : nat) : option TrailStatus.t :=
  status <$> heap s !! a.

(** The changes of a trail's status that a call can make: none, or the one
    that belongs to the call. *)
Definition status_change (c : call) (before after : TrailStatus.t) : Prop :=
  after = before
  \/ match c with
     | StartTrail _ => before = TrailStatus.PENDING /\ after = TrailStatus.ACTIVE
     | CompleteTrail _ => after = TrailStatus.COMPLETED
     | AbandonTrail _ _ => after = TrailStatus.ABANDONED
     | CreateTrail _ _ _ _ _ | AddFindingToTrail _ _ => False
     end.

Definition run_all (cs : list call) (s : state) : state :=
  foldl (fun s c => run c s) s cs.

(** [sorted(pending, key=lambda t: t.relevance_score, reverse=True)]. *)
Definition relevance_at (h : list ResearchTrail.t) (a : nat) : Q :=
  match h !! a with
  | Some trail => relevance_score trail
  | None => 0%Q
  end.

Definition prioritize_trails (s : state) : list nat :=
  let pending := get_pending_trails s in
  sort_desc (relevance_at (heap s)) pending.

(** The dictionary that [get_statistics] returns. *)
Record statistics := mkStatistics {
  total_trails : nat;
  active_trails : nat;
  pending_trails : nat;
  completed_trails : nat;
  total_findings : nat;
  visited_queries : nat;
  active_breadcrumbs : nat
}.

Definition findings_at (h : list ResearchTrail.t) (a : nat) : nat :=
  match h !! a with
  | Some trail => length (findings trail)
  | None => 0%nat
  end.

Definition get_statistics (s : state) : statistics :=
  let all_trails := get_all_trails s in
  {| total_trails := length all_trails;
     active_trails := length (get_active_trails s);
     pending_trails := length (get_pending_trails s);
     completed_trails := length (_completed_trails (self s));
     total_findings := list_sum (map (findings_at (heap s)) all_trails);
     visited_queries := size (_visited_queries (self s));
     active_breadcrumbs := size (_breadcrumbs (self s)) |}.

Definition len (s : state) : nat :=
  (length (_active_trails (self s)) + length (_completed_trails (self s)))%nat.

(** Every entry of the active list is a trail that is PENDING or ACTIVE
    (vocabulary of the statistics property). *)
Definition active_list_live (s : state) : Prop :=
  forall a : nat, a ∈ _active_trails (self s) ->
    status_at s a = Some TrailStatus.PENDING
    \/ status_at s a = Some TrailStatus.ACTIVE.

End TrailManager.

(** ** trail_execution.py *)

Module TrailExecutionEngine.

Import ResearchTrail TrailManager.

(** What one call of the engine sees of its collaborators: the agent
    registry (whose own counters are left out), and the fresh values drawn
    from [uuid.uuid4()] and [datetime.now()]. *)
Record env := mkEnv {
  get_agent_for_capability : Capability.t -> option string;
  invoke_agent_tool : string -> string -> outcome string;
  uuid4 : string;
  now : Datetime.t
}.

(** [try: body except Exception as e: handler(e)]. *)
Definition try_except {A} (body : outcome A) (handler : exn -> outcome A)
  : outcome A :=
  match body with
  | Returned a => Returned a
  | Raised e => handler e
  end.

Definition newline : string := String "010"%char EmptyString.

Definition _execute_trail_search (E : env) (trail : ResearchTrail.t)
  : outcome (option Finding.t) :=
  try_except
    (match get_agent_for_capability E Capability.SEARCHING with
     | None => Returned None
     | Some agent_id =>
         let search_input :=
           "Search term: " ++ trail_query trail ++ newline
           ++ "Reason: Exploring research trail" in
         result ← invoke_agent_tool E agent_id search_input;
         Returned (Some
           (Finding.mk (uuid4 E) result
              ("trail_search:" ++ trail_query trail) (now E) (7 # 10)
              [ ("trail_id", PStr (id trail));
                ("trail_query", PStr (trail_query trail)) ]))
     end)
    (fun e => Returned None).

Definition search_op : Operation.t := Operation.mk "trail_search" 2000 1 0.

(** The [try] block of [execute_trail], for the trail object at address
    [a], whose fields before the block are [trail]. *)
Definition execute_trail_try (E : env) (s : state) (a : nat)
  (trail : ResearchTrail.t) : outcome unit * state :=
  if negb (ResearchBudget.can_afford (budget_allocated trail) search_op) then
    (Returned tt, (abandon_trail s (id trail) "budget exhausted").2)
  else
    match _execute_trail_search E trail with
    | Raised e => (Raised e, s)
    | Returned finding =>
        let s1 :=
          match finding with
          | Some f =>
              let sa :=
                mkState (alter (fun t => set_findings t (findings t ++ [f])) a (heap s))
                        (self s) in
              let sb := (add_finding_to_trail sa (id trail) f).2 in
              mkState
                (alter (fun t => set_budget_allocated t
                                   (ResearchBudget.consume (budget_allocated t) search_op))
                       a (heap sb))
                (self sb)
          | None => s
          end in
        (Returned tt, (complete_trail s1 (id trail)).2)
    end.

(** [execute_trail(trail)] for the trail object at address [a]: what the
    call does (it returns [trail]) and the state it leaves. *)
Definition execute_trail (E : env) (s : state) (a : nat) : outcome nat * state :=
  match heap s !! a with
  | None => (Raised (Untyped "trail"), s)
  | Some trail =>
      let (started, s0) := start_trail s (id trail) in
      if negb started then (Returned a, s0)
      else
        match heap s0 !! a with
        | None => (Raised (Untyped "trail"), s0)
        | Some trail0 =>
            match execute_trail_try E s0 a trail0 with
            | (Returned _, s1) => (Returned a, s1)
            | (Raised e, s1) =>
                (Returned a, (abandon_trail s1 (id trail0) (exn_message e)).2)
            end
        end
  end.


End TrailExecutionEngine.

(** ** agent_registry.py *)

Module AgentInfo.

(** The [Agent] object of the SDK is opaque to the registry: its name
    stands for it. *)
Record t := mk {
  agent_id : string;
  agent : string;
  capabilities : list Capability.t;
  description : string;
  is_available : bool;
  call_count : Z;
  failure_count : Z
}.

Definition record_call (self : t) : t :=
  mk (agent_id self) (agent self) (capabilities self) (description self)
     (is_available self) (call_count self + 1) (failure_count self).

Definition record_failure (self : t) : t :=
  mk (agent_id self) (agent self) (capabilities self) (description self)
     (is_available self) (call_count self) (failure_count self + 1).

Definition set_is_available (self : t) (b : bool) : t :=
  mk (agent_id self) (agent self) (capabilities self) (description self)
     b (call_count self) (failure_count self).

Definition success_rate (self : t) : Q :=
  let total := call_count self + failure_count self in
  if total =? 0 then 1%Q else py_truediv (call_count self) total.

End AgentInfo.

Module AgentRegistry.

#[global] Instance capability_eq_dec : EqDecision Capability.t.
Proof. solve_decision. Defined.

(** [_capability_map] has a list for every capability from the start. *)
Record t := mk {
  _agents : gmap string AgentInfo.t;
  _capability_map : Capability.t -> list string
}.

Definition new : t := mk ∅ (fun _ => []).

(** [m[capability] = l]. *)
Definition map_set (m : Capability.t -> list string) (capability : Capability.t)
  (l : list string) : Capability.t -> list string :=
  fun c => if decide (c = capability) then l else m c.

(** [l.remove(x)]: the first occurrence goes. *)
Fixpoint list_remove (x : string) (l : list string) : list string :=
  match l with
  | [] => []
  | y :: l' => if String.eqb y x then l' else y :: list_remove x l'
  end.

Definition register_agent (self : t) (agent_id : string) (agent : string)
  (capabilities : list Capability.t) (description : string) : t :=
  let agent_info := AgentInfo.mk agent_id agent capabilities description true 0 0 in
  mk (<[agent_id := agent_info]> (_agents self))
     (foldl
        (fun m capability =>
           if bool_decide (agent_id ∈ m capability) then m
           else map_set m capability (m capability ++ [agent_id]))
        (_capability_map self) capabilities).

Definition unregister_agent (self : t) (agent_id : string) : t :=
  match _agents self !! agent_id with
  | None => self
  | Some agent_info =>
      mk (delete agent_id (_agents self))
         (foldl
            (fun m capability =>
               if bool_decide (agent_id ∈ m capability)
               then map_set m capability (list_remove agent_id (m capability))
               else m)
            (_capability_map self) (AgentInfo.capabilities agent_info))
  end.

Definition get_agent (self : t) (agent_id : string) : option AgentInfo.t :=
  _agents self !! agent_id.

(** [[self._agents[aid] for aid in agent_ids if self._agents[aid].is_available]]:
    the subscript raises [KeyError] for an id that is not registered. *)
Fixpoint available_agents (self : t) (agent_ids : list string)
  : outcome (list AgentInfo.t) :=
  match agent_ids with
  | [] => Returned []
  | aid :: rest =>
      match _agents self !! aid with
      | None => Raised (KeyError aid)
      | Some info =>
          l ← available_agents self rest;
          Returned (if AgentInfo.is_available info then info :: l else l)
      end
  end.

Definition get_agent_for_capability (self : t) (capability : Capability.t)
  : outcome (option AgentInfo.t) :=
  let agent_ids := _capability_map self capability in
  match agent_ids with
  | [] => Returned None
  | _ =>
      available ← available_agents self agent_ids;
      match available with
      | [] => Returned None
      | _ => Returned (head (sort_desc AgentInfo.success_rate available))
      end
  end.

Definition get_all_agents_for_capability (self : t) (capability : Capability.t)
  : outcome (list AgentInfo.t) :=
  available_agents self (_capability_map self capability).

Definition set_agent_availability (self : t) (agent_id : string)
  (is_available : bool) : t :=
  match _agents self !! agent_id with
  | Some info =>
      mk (<[agent_id := AgentInfo.set_is_available info is_available]>
            (_agents self))
         (_capability_map self)
  | None => self
  end.

(** [invoke_agent_tool]; [run agent input timeout] is what awaiting
    [Runner.run] gives, under [asyncio.wait_for] when a timeout is given
    that is not zero. *)
Definition invoke_agent_tool
  (run : string -> string -> option Q -> outcome string)
  (self : t) (agent_id : string) (input_data : string) (timeout : option Q)
  : outcome string * t :=
  match get_agent self agent_id with
  | None =>
      (Raised (ValueError ("Agent " ++ agent_id ++ " not found in registry")),
       self)
  | Some agent_info =>
      if negb (AgentInfo.is_available agent_info) then
        (Raised (RuntimeError ("Agent " ++ agent_id ++ " is not available")),
         self)
      else
        let timeout :=
          match timeout with
          | Some t => if Qeq_bool t 0 then None else Some t
          | None => None
          end in
        match run (AgentInfo.agent agent_info) input_data timeout with
        | Returned final_output =>
            (Returned final_output,
             mk (<[agent_id := AgentInfo.record_call agent_info]> (_agents self))
                (_capability_map self))
        | Raised e =>
            (Raised e,
             mk (<[agent_id := AgentInfo.record_failure agent_info]>
                   (_agents self))
                (_capability_map self))
        end
  end.

Definition len (self : t) : nat := size (_agents self).

Definition contains (self : t) (agent_id : string) : bool :=
  bool_decide (is_Some (_agents self !! agent_id)).

(** Every id that the capability map lists is registered, with that
    capability, and is listed once (vocabulary of the properties of the
    registry). *)
Definition well_mapped (self : t) : Prop :=
  forall capability : Capability.t,
    NoDup (_capability_map self capability)
    /\ forall aid : string, aid ∈ _capability_map self capability ->
         exists info, _agents self !! aid = Some info
                      /\ capability ∈ AgentInfo.capabilities info.

End AgentRegistry.

(** ** research_coordinator.py *)

Module ResearchCoordinator.

(** [WebSearchItem] of planner_agent.py. *)
Record WebSearchItem := mkItem {
  reason : string;
  query : string
}.

(** What the steps of the coordinator see of the outside: the agent
    runner, the registry that the trail engine consults, and the
    successive values of [uuid.uuid4()] and [datetime.now()]. *)
Record world := mkWorld {
  run_search_agent : string -> outcome string;
  get_agent_for_capability : Capability.t -> option string;
  invoke_agent_tool : string -> string -> outcome string;
  uuid4 : nat -> string;
  now : nat -> Datetime.t
}.

(** How far the two sequences were read.  A call that may draw a value
    moves the position on whether it drew or not: the value is skipped. *)
Record draws := mkDraws {
  uuids : nat;
  clock : nat
}.

Definition search_operation : Operation.t := Operation.mk "search" 2000 1 0.

(** The loop of [_execute_searches]: the context, the budget and the
    positions after it. *)
Fixpoint search_loop (W : world) (searches : list WebSearchItem)
  (context : ResearchContext.t) (budget : ResearchBudget.t) (d : draws)
  : ResearchContext.t * ResearchBudget.t * draws :=
  match searches with
  | [] => (context, budget, d)
  | search_item :: rest =>
      if negb (ResearchBudget.can_afford budget search_operation)
      then (context, budget, d)
      else
        match run_search_agent W
                ("Search term: " ++ query search_item
                 ++ TrailExecutionEngine.newline
                 ++ "Reason: " ++ reason search_item) with
        | Returned result =>
            let finding :=
              Finding.mk (uuid4 W (uuids d)) result
                ("search:" ++ query search_item) (now W (clock d)) (8 # 10) [] in
            let context :=
              ResearchContext.add_finding context finding (now W (S (clock d))) in
            let budget := ResearchBudget.consume budget search_operation in
            search_loop W rest context budget
              (mkDraws (S (uuids d)) (S (S (clock d))))
        | Raised e => search_loop W rest context budget d
        end
  end.

Definition _execute_searches (W : world) (searches : list WebSearchItem)
  (context : ResearchContext.t) (budget : ResearchBudget.t) (d : draws)
  : ResearchContext.t * ResearchBudget.t * draws :=
  search_loop W (py_take 5 searches) context budget d.

(** The fields of the context that [_follow_trails] reads and writes.  The
    context holds the trail objects that the manager holds: a trail is an
    address in the manager's store. *)
Record context_view := mkView {
  view_query : string;
  view_findings : list Finding.t;
  view_research_trails : list nat;
  view_updated_at : Datetime.t
}.

Definition view_add_trail (c : context_view) (trail : nat) (t : Datetime.t)
  : context_view :=
  mkView (view_query c) (view_findings c) (view_research_trails c ++ [trail]) t.

Definition view_add_finding (c : context_view) (finding : Finding.t)
  (t : Datetime.t) : context_view :=
  mkView (view_query c) (view_findings c ++ [finding]) (view_research_trails c) t.

(** [for finding in trail.findings: context.add_finding(finding)]. *)
Fixpoint view_add_findings (W : world) (c : context_view)
  (fs : list Finding.t) (clock : nat) : context_view * nat :=
  match fs with
  | [] => (c, clock)
  | finding :: rest =>
      view_add_findings W (view_add_finding c finding (now W clock)) rest (S clock)
  end.

Record state := mkState {
  context : context_view;
  budget : ResearchBudget.t;
  trail_discovery : TrailDiscovery.t;
  trail_manager : TrailManager.state;
  drawn : draws
}.

(** The loop of [_follow_trails] over the suggestions. *)
Fixpoint trail_loop (W : world) (suggestions : list ResearchTrailSuggestion.t)
  (st : state) : outcome unit * state :=
  match suggestions with
  | [] => (Returned tt, st)
  | suggestion :: rest =>
      if negb (ResearchBudget.can_afford_trail (budget st)) then (Returned tt, st)
      else
        let trail_budget :=
          ResearchBudget.allocate_for_trail (budget st) (15 # 100) in
        let budget1 := ResearchBudget.increment_trail_depth (budget st) in
        let d := drawn st in
        let (trail, manager1) :=
          TrailManager.create_trail (trail_manager st)
            (ResearchTrailSuggestion.trail_query suggestion)
            (ResearchTrailSuggestion.relevance_score suggestion)
            trail_budget None (uuid4 W (uuids d)) in
        match trail with
        | Some a =>
            let context1 := view_add_trail (context st) a (now W (clock d)) in
            let E :=
              TrailExecutionEngine.mkEnv (get_agent_for_capability W)
                (invoke_agent_tool W) (uuid4 W (S (uuids d)))
                (now W (S (clock d))) in
            match TrailExecutionEngine.execute_trail E manager1 a with
            | (Raised e, manager2) =>
                (Raised e,
                 mkState context1 budget1 (trail_discovery st) manager2
                   (mkDraws (S (S (uuids d))) (S (S (clock d)))))
            | (Returned _, manager2) =>
                let found :=
                  match TrailManager.heap manager2 !! a with
                  | Some t => ResearchTrail.findings t
                  | None => []
                  end in
                let (context2, clock2) :=
                  view_add_findings W context1 found (S (S (clock d))) in
                trail_loop W rest
                  (mkState context2 (ResearchBudget.decrement_trail_depth budget1)
                     (trail_discovery st) manager2
                     (mkDraws (S (S (uuids d))) clock2))
            end
        | None =>
            trail_loop W rest
              (mkState (context st) (ResearchBudget.decrement_trail_depth budget1)
                 (trail_discovery st) manager1 (mkDraws (S (uuids d)) (clock d)))
        end
  end.

Definition _follow_trails (W : world) (st : state) : outcome unit * state :=
  let (trail_suggestions, discovery) :=
    TrailDiscovery.discover_trails (trail_discovery st)
      (view_query (context st)) (view_findings (context st)) 2 in
  trail_loop W trail_suggestions
    (mkState (context st) (budget st) discovery (trail_manager st) (drawn st)).

(** What never changes when only the depth of a budget is moved
    (vocabulary of the properties of [_follow_trails]). *)
Definition same_resources (b b' : ResearchBudget.t) : Prop :=
  ResearchBudget.max_tokens b' = ResearchBudget.max_tokens b
  /\ ResearchBudget.max_time_seconds b' = ResearchBudget.max_time_seconds b
  /\ ResearchBudget.max_api_calls b' = ResearchBudget.max_api_calls b
  /\ ResearchBudget.max_trail_depth b' = ResearchBudget.max_trail_depth b
  /\ ResearchBudget.current_usage b' = ResearchBudget.current_usage b.

End ResearchCoordinator.

(** ** Concrete inputs *)

Module Examples.

(** A format that satisfies the contract of [Datetime.Format]: the decimal
    numeral of the count of microseconds. *)
Definition decimal_format : Datetime.Format :=
  {| Datetime.isoformat d :=
       NilEmpty.string_of_int (Z.to_int (Datetime.microseconds d));
     Datetime.fromisoformat s :=
       (fun i => Datetime.mk (Z.of_int i)) <$> NilEmpty.int_of_string s |}.

Definition noon : Datetime.t := Datetime.mk 43200000000.

(** Two findings, each with one indicator phrase. *)
Definition finding_alpha : Finding.t :=
  Finding.mk "f1" "See also alpha" "test" noon 1 [].
Definition finding_beta : Finding.t :=
  Finding.mk "f2" "This is related to beta" "test" noon 1 [].

Definition suggestion_alpha : ResearchTrailSuggestion.t :=
  ResearchTrailSuggestion.mk "More about: See also alpha..." (7 # 10)
    "Found related concept in finding from test".
Definition suggestion_beta : ResearchTrailSuggestion.t :=
  ResearchTrailSuggestion.mk "More about: This is related to beta..." (7 # 10)
    "Found related concept in finding from test".

(** [TrailDiscovery()] with the default threshold. *)
Definition discovery : TrailDiscovery.t := TrailDiscovery.new (6 # 10).



(** A manager with room for two trails, and one trail created in it. *)
Definition pending_trail : ResearchTrail.t :=
  ResearchTrail.mk "trail-1" None "Test Trail" (8 # 10)
    ResearchBudget.create_development [] TrailStatus.PENDING [].

Definition one_pending : TrailManager.state :=
  (TrailManager.create_trail (TrailManager.init 2) "Test Trail" (8 # 10)
     ResearchBudget.create_development None "trail-1").2.

(** Scenario D: the manager is full after a second trail. *)
Definition two_pending : TrailManager.state :=
  (TrailManager.create_trail one_pending "b" (7 # 10)
     ResearchBudget.create_development None "trail-2").2.

(** A registry whose search agent fails on every invocation. *)
Definition failing_search : TrailExecutionEngine.env :=
  TrailExecutionEngine.mkEnv
    (fun _ => Some "search_agent")
    (fun _ _ => Raised (TimeoutError "timed out"))
    "finding-1" noon.

(** [ResearchContext(query="test query")] and a machine on it. *)
Definition fresh_context : ResearchContext.t :=
  ResearchContext.mk "test query" ResearchState.INITIALIZING [] [] []
    ResourceUsage.default [] [] [] noon noon.

Definition fresh_machine : ResearchStateMachine.t :=
  ResearchStateMachine.new fresh_context.

(** A registry whose search agent answers every invocation. *)
Definition working_search : TrailExecutionEngine.env :=
  TrailExecutionEngine.mkEnv
    (fun _ => Some "search_agent")
    (fun _ _ => Returned "found")
    "finding-1" noon.




(** A budget of 1000 tokens, all of them used. *)
Definition spent_budget : ResearchBudget.t :=
  ResearchBudget.consume (ResearchBudget.new 1000 60 10 2)
    (Operation.mk "search" 1000 1 0).

(** A registry with a search agent and a planner. *)
Definition registry : AgentRegistry.t :=
  AgentRegistry.register_agent
    (AgentRegistry.register_agent AgentRegistry.new "search" "Search Agent"
       [Capability.SEARCHING] "Searches web and summarizes results")
    "planner" "Planner" [Capability.PLANNING] "Plans research searches".

Definition search_info : AgentInfo.t :=
  AgentInfo.mk "search" "Search Agent" [Capability.SEARCHING]
    "Searches web and summarizes results" true 0 0.

(** A run that answers, and one that fails. *)
Definition answering_run (agent input : string) (timeout : option Q)
  : outcome string := Returned "done".
Definition failing_run (agent input : string) (timeout : option Q)
  : outcome string := Raised (RuntimeError "no answer").

(** A coordinator after the searches: the two findings are in the context,
    the agents answer, and the manager has room for two trails. *)
Definition answering_world : ResearchCoordinator.world :=
  ResearchCoordinator.mkWorld
    (fun _ => Returned "summary") (fun _ => Some "search")
    (fun _ _ => Returned "found") (fun _ => "uuid") (fun _ => noon).

Definition after_searches : ResearchCoordinator.state :=
  ResearchCoordinator.mkState
    (ResearchCoordinator.mkView "greek letters" [finding_alpha; finding_beta]
       [] noon)
    ResearchBudget.create_development discovery (TrailManager.init 2)
    (ResearchCoordinator.mkDraws 0 0).

Definition planned_searches : list ResearchCoordinator.WebSearchItem :=
  [ ResearchCoordinator.mkItem "background" "greek alphabet";
    ResearchCoordinator.mkItem "usage" "greek letters in physics" ].

End Examples.

(** * Properties *)

(** ** Comparisons and truncation *)

Lemma Qgtb_true (a b : Q) : Qgtb a b = true <-> (b < a)%Q.
Proof.
  unfold Qgtb. rewrite negb_true_iff, <- not_true_iff_false, Qle_bool_iff.
  split; [apply Qnot_le_lt | apply Qlt_not_le].
Qed.

Lemma Qgtb_false (a b : Q) : Qgtb a b = false <-> (a <= b)%Q.
Proof. unfold Qgtb. rewrite negb_false_iff. apply Qle_bool_iff. Qed.

Lemma Qgeb_true (a b : Q) : Qgeb a b = true <-> (b <= a)%Q.
Proof. apply Qle_bool_iff. Qed.

Lemma py_max_float_zero_spec (x : Q) :
  ((0 < x)%Q /\ py_max_float 0 x = x) \/ ((x <= 0)%Q /\ py_max_float 0 x = 0%Q).
Proof.
  unfold py_max_float. destruct (Qgtb x 0) eqn:E.
  - left. split; [by apply Qgtb_true | done].
  - right. split; [by apply Qgtb_false | done].
Qed.

Lemma py_max_float_zero_nonneg (x : Q) : (0 <= py_max_float 0 x)%Q.
Proof. destruct (py_max_float_zero_spec x) as [[H ->]|[_ ->]]; lra. Qed.


(** ** ResearchBudget *)

Section BudgetProperties.

Import ResourceUsage ResearchBudget.



Lemma allocate_for_trail_can_afford_trail (B : ResearchBudget.t) (p : Q) :
  can_afford_trail (allocate_for_trail B p) = true.
Proof. unfold can_afford_trail, allocate_for_trail. simpl. lia. Qed.

(** C6, as the code has it.  The child's depth cap is
    [max(1, parent.max_trail_depth - parent.trail_depth - 1)] and its depth
    counter starts at 0.  The cap is never below 1, so every child can
    afford a trail; it is at most the parent's cap when that cap is at
    least 1 and the parent's depth is not negative, and strictly smaller
    when the parent's cap is at least 2. *)
Theorem C6_allocate_for_trail_depth_cap (B : ResearchBudget.t) (p : Q) :
  max_trail_depth (allocate_for_trail B p)
    = Z.max 1 (max_trail_depth B - trail_depth B - 1)
  /\ trail_depth (allocate_for_trail B p) = 0
  /\ 1 <= max_trail_depth (allocate_for_trail B p)
  /\ can_afford_trail (allocate_for_trail B p) = true
  /\ (0 <= trail_depth B -> 1 <= max_trail_depth B ->
      max_trail_depth (allocate_for_trail B p) <= max_trail_depth B)
  /\ (0 <= trail_depth B -> 2 <= max_trail_depth B ->
      max_trail_depth (allocate_for_trail B p) < max_trail_depth B).
Proof.
  split; [done |]. split; [done |]. split; [simpl; lia |].
  split; [apply allocate_for_trail_can_afford_trail |].
  split; simpl; lia.
Qed.

(** C6, as the claim has it, fails.  From the development budget (cap 1)
    the child's cap is again 1; from the budget of the custom-budget
    example (cap 0) the child's cap is larger than the parent's; and
    along any chain of nested allocations from the development budget a
    further trail stays affordable. *)
Lemma C6_depth_cap_never_reaches_zero :
  max_trail_depth (allocate_for_trail create_development (1 # 5))
    = max_trail_depth create_development
  /\ max_trail_depth create_development = 1
  /\ max_trail_depth (allocate_for_trail (new 5000 30 5 0) (1 # 5))
      > max_trail_depth (new 5000 30 5 0)
  /\ forall n : nat,
      can_afford_trail (nested_allocation n create_development (1 # 5)) = true.
Proof.
  split; [reflexivity |]. split; [reflexivity |]. split; [reflexivity |].
  intros [|n]; [reflexivity | apply allocate_for_trail_can_afford_trail].
Qed.


End BudgetProperties.

(** ** Further properties of ResearchBudget *)

Section BudgetDepthAndLimits.

Import ResourceUsage ResearchBudget.

Lemma decrement_trail_depth_depth (b : ResearchBudget.t) :
  trail_depth (decrement_trail_depth b)
  = if trail_depth b >? 0 then trail_depth b - 1 else trail_depth b.
Proof. unfold decrement_trail_depth. by destruct (trail_depth b >? 0). Qed.

(** X1.  [decrement_trail_depth] has a floor at 0: from a depth [d] that is
    not negative, [n] decrements leave the depth at [max(0, d - n)], never
    below 0; at a depth of 0 or less the call changes nothing; and a
    decrement undoes an increment. *)
Theorem X1_decrement_trail_depth_floor (b : ResearchBudget.t) (n : nat) :
  0 <= trail_depth b ->
  trail_depth (Nat.iter n decrement_trail_depth b)
  = Z.max 0 (trail_depth b - Z.of_nat n)
  /\ 0 <= trail_depth (Nat.iter n decrement_trail_depth b)
  /\ (trail_depth b = 0 -> decrement_trail_depth b = b)
  /\ decrement_trail_depth (increment_trail_depth b) = b.
Proof.
  intros Hd.
  assert (Hiter : trail_depth (Nat.iter n decrement_trail_depth b)
                  = Z.max 0 (trail_depth b - Z.of_nat n)).
  { induction n as [|n IH]; [simpl; lia |].
    rewrite Nat.iter_succ, decrement_trail_depth_depth, IH.
    destruct (_ >? 0) eqn:E; lia. }
  split; [exact Hiter |]. split; [lia |]. split.
  - intros H0. unfold decrement_trail_depth. by rewrite H0.
  - unfold decrement_trail_depth, increment_trail_depth. simpl.
    replace (trail_depth b + 1 >? 0) with true by (symmetry; lia).
    destruct b. unfold set_trail_depth. simpl. f_equal. lia.
Qed.

(** X2.  The budget is exhausted exactly when [remaining()] reports nothing
    left in one of the three dimensions; no component of [remaining()] is
    negative, and under its cap a dimension's usage and remainder add up to
    the cap. *)
Theorem X2_exhausted_iff_nothing_remaining (b : ResearchBudget.t) :
  (is_exhausted b = true <->
   tokens_used (remaining b) = 0
   \/ api_calls (remaining b) = 0
   \/ (time_seconds (remaining b) == 0)%Q)
  /\ ResourceUsage.valid (remaining b)
  /\ (tokens_used (current_usage b) <= max_tokens b ->
      tokens_used (current_usage b) + tokens_used (remaining b) = max_tokens b).
Proof.
  split; [| split].
  - unfold is_exhausted, remaining. simpl.
    rewrite !orb_true_iff, !Z.geb_le, Qgeb_true.
    destruct (py_max_float_zero_spec
                (max_time_seconds b - time_seconds (current_usage b)))
      as [[Hpos ->]|[Hneg ->]].
    all: split; [intros [[H|H]|H] | intros [H|[H|H]]].
    all: first [ left; lia | right; left; lia | right; right; lra
               | left; left; lia | left; right; lia | right; lra ].
  - unfold valid, remaining. simpl. split; [lia |]. split; [lia |].
    apply py_max_float_zero_nonneg.
  - unfold remaining. simpl. lia.
Qed.

Lemma ratio_at_least_one (a c : Q) : (0 < c)%Q -> (c <= a)%Q -> (1 <= a / c)%Q.
Proof.
  intros Hc Hle. apply Qle_shift_div_l; [done |]. by rewrite Qmult_1_l.
Qed.

(** X3.  With positive caps and a threshold of at most 1, an exhausted
    budget is near its limit.  With no positive cap at all every
    utilisation is 0, so the budget is not near its limit for any positive
    threshold, whatever was used. *)
Theorem X3_exhausted_is_near_limit (b : ResearchBudget.t) (threshold : Q) :
  (0 < max_tokens b -> 0 < max_api_calls b -> (0 < max_time_seconds b)%Q ->
   (threshold <= 1)%Q ->
   is_exhausted b = true -> is_near_limit b threshold = true)
  /\ (max_tokens b <= 0 -> max_api_calls b <= 0 -> (max_time_seconds b <= 0)%Q ->
      max_trail_depth b <= 0 -> (0 < threshold)%Q ->
      is_near_limit b threshold = false).
Proof.
  split.
  - intros Ht Hc Hs Hth Hex.
    unfold is_exhausted in Hex.
    rewrite !orb_true_iff, !Z.geb_le, Qgeb_true in Hex.
    unfold is_near_limit, utilization_percent. simpl.
    replace (max_tokens b >? 0) with true by (symmetry; lia).
    replace (max_api_calls b >? 0) with true by (symmetry; lia).
    replace (Qgtb (max_time_seconds b) 0) with true
      by (symmetry; by apply Qgtb_true).
    rewrite !orb_true_iff, !Qgeb_true. unfold py_truediv.
    destruct Hex as [[H|H]|H].
    + left.
      assert (H1 : (1 <= inject_Z (tokens_used (current_usage b))
                         / inject_Z (max_tokens b))%Q).
      { apply ratio_at_least_one.
        - replace 0%Q with (inject_Z 0) by reflexivity. by rewrite <- Zlt_Qlt.
        - by rewrite <- Zle_Qle. }
      lra.
    + right. left.
      assert (H1 : (1 <= inject_Z (api_calls (current_usage b))
                         / inject_Z (max_api_calls b))%Q).
      { apply ratio_at_least_one.
        - replace 0%Q with (inject_Z 0) by reflexivity. by rewrite <- Zlt_Qlt.
        - by rewrite <- Zle_Qle. }
      lra.
    + right. right. left.
      pose proof (ratio_at_least_one _ _ Hs H) as H1. lra.
  - intros Ht Hc Hs Hd Hth.
    unfold is_near_limit, utilization_percent. simpl.
    replace (max_tokens b >? 0) with false by (symmetry; lia).
    replace (max_api_calls b >? 0) with false by (symmetry; lia).
    replace (max_trail_depth b >? 0) with false by (symmetry; lia).
    replace (Qgtb (max_time_seconds b) 0) with false
      by (symmetry; by apply Qgtb_false).
    assert (Hno : Qgeb 0 (threshold * 100) = false).
    { apply not_true_iff_false. rewrite Qgeb_true. lra. }
    by rewrite Hno.
Qed.

End BudgetDepthAndLimits.

(** ** ResearchStateMachine *)

Section StateMachineProperties.

Import ResearchStateMachine.

(** C7.  A target outside the edge set of the current state makes
    [transition] raise the invalid-transition error and leaves the machine,
    and with it the state of its context, as it was; a target inside the
    edge set makes it return, with the context in the target state and the
    target appended to the history. *)
Theorem C7_transition_follows_table (m : ResearchStateMachine.t)
  (to_state : ResearchState.t) (reason : string) (now : Datetime.t) :
  (to_state ∉ TRANSITIONS (ResearchContext.state (context m)) ->
   transition m to_state reason now
   = (Raised (StateTransitionError
                ("Invalid transition from "
                 ++ ResearchState.value (ResearchContext.state (context m))
                 ++ " to " ++ ResearchState.value to_state)),
      m))
  /\ (to_state ∈ TRANSITIONS (ResearchContext.state (context m)) ->
      exists m',
        transition m to_state reason now = (Returned tt, m')
        /\ ResearchContext.state (context m') = to_state
        /\ _state_history m' = (_state_history m ++ [to_state])%list).
Proof.
  unfold transition, can_transition. split; intros Hedge.
  - by rewrite bool_decide_eq_false_2.
  - rewrite bool_decide_eq_true_2 by done. simpl. eauto.
Qed.

End StateMachineProperties.

Section StateMachineHistory.

Import ResearchStateMachine.

Lemma dict_get_set_eq (d : pydict) (k : string) (v : pyval) :
  dict_get (dict_set d k v) k = Some v.
Proof.
  induction d as [|[k' v'] d IH]; simpl.
  - by rewrite String.eqb_refl.
  - destruct (String.eqb k' k) eqn:E; simpl; by rewrite E.
Qed.

Lemma dict_get_set_ne (d : pydict) (k k0 : string) (v : pyval) :
  k <> k0 -> dict_get (dict_set d k v) k0 = dict_get d k0.
Proof.
  intros Hne. induction d as [|[k' v'] d IH]; simpl.
  - by rewrite (proj2 (String.eqb_neq k k0)).
  - destruct (String.eqb k' k) eqn:E; simpl.
    + apply String.eqb_eq in E. subst k'.
      by rewrite (proj2 (String.eqb_neq k k0)).
    + destruct (String.eqb k' k0); [done | exact IH].
Qed.

(** What holds of a machine between two calls: its history ends in the
    state of its context and is legal. *)
Lemma run_keeps_history (c : call) (m : ResearchStateMachine.t) :
  last (_state_history m) = Some (ResearchContext.state (context m)) ->
  legal_history (_state_history m) ->
  last (_state_history (run c m))
  = Some (ResearchContext.state (context (run c m)))
  /\ legal_history (_state_history (run c m)).
Proof.
  intros Hlast Hlegal.
  assert (Hstep : forall s',
    s' ∈ TRANSITIONS (ResearchContext.state (context m))
    \/ s' = ResearchState.FAILED ->
    legal_history (_state_history m ++ [s'])).
  { intros s' Hedge i s1 s2 H1 H2.
    destruct (decide (S i < length (_state_history m))%nat) as [Hlt|Hge].
    - rewrite lookup_app_l in H1 by lia. rewrite lookup_app_l in H2 by lia.
      by apply (Hlegal i).
    - assert (Hi : (i < length (_state_history m))%nat).
      { apply lookup_lt_Some in H1. rewrite length_app in H1. simpl in H1.
        apply lookup_lt_Some in H2. rewrite length_app in H2. simpl in H2. lia. }
      rewrite lookup_app_l in H1 by lia.
      rewrite lookup_app_r in H2 by lia.
      assert (Hlen : S i = length (_state_history m)) by lia.
      rewrite Hlen, Nat.sub_diag in H2. simpl in H2.
      injection H2 as <-.
      rewrite last_lookup in Hlast.
      replace (Nat.pred (length (_state_history m))) with i in Hlast by lia.
      rewrite H1 in Hlast. injection Hlast as ->. exact Hedge. }
  destruct c as [to_state reason now|reason now]; simpl.
  - unfold transition, can_transition.
    destruct (bool_decide _) eqn:Hcan; simpl; [| done].
    apply bool_decide_eq_true in Hcan.
    split; [by rewrite last_snoc | apply Hstep; by left].
  - split; [by rewrite last_snoc | apply Hstep; by right].
Qed.

(** X4.  However the calls of [transition] and [force_fail] follow one
    another on a new machine, and whichever of them raise, the history
    starts with the state the context had, ends with the state it has now,
    and each of its steps follows an edge of [TRANSITIONS] or goes to
    FAILED. *)
Theorem X4_history_is_a_legal_trace (ctx : ResearchContext.t) (cs : list call) :
  head (_state_history (run_all cs (new ctx))) = Some (ResearchContext.state ctx)
  /\ last (_state_history (run_all cs (new ctx)))
     = Some (ResearchContext.state (context (run_all cs (new ctx))))
  /\ legal_history (_state_history (run_all cs (new ctx))).
Proof.
  assert (Hgen : forall m,
    head (_state_history m) = Some (ResearchContext.state ctx) ->
    last (_state_history m) = Some (ResearchContext.state (context m)) ->
    legal_history (_state_history m) ->
    head (_state_history (run_all cs m)) = Some (ResearchContext.state ctx)
    /\ last (_state_history (run_all cs m))
       = Some (ResearchContext.state (context (run_all cs m)))
    /\ legal_history (_state_history (run_all cs m))).
  { induction cs as [|c cs IH]; intros m Hhead Hlast Hlegal; [done |].
    simpl. destruct (run_keeps_history c m Hlast Hlegal) as [Hlast' Hlegal'].
    apply IH; [| done | done].
    destruct c as [to_state reason now|reason now]; simpl.
    - unfold transition. destruct (negb _); simpl; [done |].
      destruct (_state_history m); [done | exact Hhead].
    - destruct (_state_history m); [done | exact Hhead]. }
  apply Hgen; [done | done |].
  intros i s s' H1 H2. simpl in H2. by destruct i.
Qed.

(** X5.  The terminal states are those without an edge: [is_terminal_state]
    holds exactly when [get_valid_transitions] is empty.  In a terminal
    state every [transition] raises and leaves the machine as it is; in
    every other state FAILED is among the valid transitions. *)
Theorem X5_terminal_states_are_absorbing (m : ResearchStateMachine.t) :
  (is_terminal_state m = true <-> get_valid_transitions m = [])
  /\ (is_terminal_state m = true ->
      forall to_state reason now,
        exists message,
          transition m to_state reason now
          = (Raised (StateTransitionError message), m))
  /\ (is_terminal_state m = false ->
      ResearchState.FAILED ∈ get_valid_transitions m
      /\ can_transition m ResearchState.FAILED = true).
Proof.
  assert (Hiff : is_terminal_state m = true <-> get_valid_transitions m = []).
  { unfold is_terminal_state, get_valid_transitions.
    destruct (ResearchContext.state (context m)); by split. }
  split; [exact Hiff |]. split.
  - intros Ht to_state reason now. apply Hiff in Ht.
    unfold get_valid_transitions in Ht. unfold transition, can_transition.
    rewrite Ht. eexists. reflexivity.
  - intros Ht. unfold is_terminal_state in Ht.
    unfold get_valid_transitions, can_transition.
    destruct (ResearchContext.state (context m)); try discriminate Ht.
    all: split; [simpl; rewrite !elem_of_cons; tauto | reflexivity].
Qed.

(** X6.  [force_fail] does not consult the table: from any state, the
    terminal ones included, it leaves the context FAILED, with the reason
    under ['failure_reason'] in the metadata and the other entries of the
    metadata as they were, stamps [updated_at], and appends FAILED to the
    history. *)
Theorem X6_force_fail_from_any_state (m : ResearchStateMachine.t)
  (reason : string) (now : Datetime.t) :
  ResearchContext.state (context (force_fail m reason now)) = ResearchState.FAILED
  /\ is_terminal_state (force_fail m reason now) = true
  /\ dict_get (ResearchContext.metadata (context (force_fail m reason now)))
       "failure_reason" = Some (PStr reason)
  /\ (forall k, k <> "failure_reason" ->
        dict_get (ResearchContext.metadata (context (force_fail m reason now))) k
        = dict_get (ResearchContext.metadata (context m)) k)
  /\ ResearchContext.updated_at (context (force_fail m reason now)) = now
  /\ ResearchContext.created_at (context (force_fail m reason now))
     = ResearchContext.created_at (context m)
  /\ _state_history (force_fail m reason now)
     = (_state_history m ++ [ResearchState.FAILED])%list.
Proof.
  unfold force_fail, is_terminal_state. simpl.
  split; [done |]. split; [done |].
  split; [apply dict_get_set_eq |].
  split; [intros k Hk; by apply dict_get_set_ne |].
  done.
Qed.

End StateMachineHistory.

(** ** TrailDiscovery *)

Section DiscoveryProperties.

Import ResearchTrailSuggestion TrailDiscovery.

Lemma elem_of_insert_desc {A} (key : A -> Q) (x a : A) (l : list A) :
  x ∈ insert_desc key a l <-> x = a \/ x ∈ l.
Proof.
  induction l as [|y l IH]; simpl.
  - rewrite elem_of_cons. tauto.
  - destruct (Qgtb (key y) (key a)).
    + rewrite !elem_of_cons, IH. tauto.
    + rewrite !elem_of_cons. tauto.
Qed.

Lemma elem_of_sort_desc {A} (key : A -> Q) (x : A) (l : list A) :
  x ∈ sort_desc key l <-> x ∈ l.
Proof.
  unfold sort_desc. induction l as [|y l IH]; simpl; [done |].
  rewrite elem_of_insert_desc, elem_of_cons, IH. done.
Qed.

Lemma elem_of_py_take {A} (n : Z) (x : A) (l : list A) :
  x ∈ py_take n l -> x ∈ l.
Proof. unfold py_take. destruct (n <? 0); apply subseteq_take. Qed.

Lemma elem_of_mark_discovered (d : gset string) (ts : list ResearchTrailSuggestion.t)
  (q : string) :
  q ∈ mark_discovered d ts <->
  q ∈ d \/ exists t, t ∈ ts /\ lower (trail_query t) = q.
Proof.
  unfold mark_discovered. revert d.
  induction ts as [|t ts IH]; intros d; simpl.
  - split; [by left | intros [H|(t & Ht & _)]; [done | by apply elem_of_nil in Ht]].
  - rewrite IH, elem_of_union, elem_of_singleton. split.
    + intros [[H|H]|(t' & Ht' & Hq)].
      * by left.
      * right. exists t. split; [apply elem_of_cons; by left | done].
      * right. exists t'. split; [apply elem_of_cons; by right | done].
    + intros [H|(t' & Ht' & Hq)]; [by left; left |].
      apply elem_of_cons in Ht' as [->|Ht']; [by left; right |].
      right. by exists t'.
Qed.

Lemma candidate_pool_fresh (self : TrailDiscovery.t) (query : string)
  (findings : list Finding.t) (t : ResearchTrailSuggestion.t) :
  t ∈ candidate_pool self query findings ->
  lower (trail_query t) ∉ _discovered_trails self.
Proof.
  unfold candidate_pool. rewrite !list_elem_of_filter. tauto.
Qed.

Lemma discover_trails_from_pool (self : TrailDiscovery.t) (query : string)
  (findings : list Finding.t) (max_trails : Z) (t : ResearchTrailSuggestion.t) :
  t ∈ (discover_trails self query findings max_trails).1 ->
  t ∈ candidate_pool self query findings.
Proof.
  unfold discover_trails. destruct findings as [|f fs]; simpl.
  - intros Ht. by apply elem_of_nil in Ht.
  - intros Ht. apply elem_of_py_take in Ht. by apply elem_of_sort_desc in Ht.
Qed.

Lemma discover_trails_discovered (self : TrailDiscovery.t) (query : string)
  (findings : list Finding.t) (max_trails : Z) (q : string) :
  q ∈ _discovered_trails (discover_trails self query findings max_trails).2 <->
  q ∈ _discovered_trails self
  \/ exists t, t ∈ (discover_trails self query findings max_trails).1
               /\ lower (trail_query t) = q.
Proof.
  unfold discover_trails. destruct findings as [|f fs]; simpl.
  - split; [by left | intros [H|(t & Ht & _)]; [done | by apply elem_of_nil in Ht]].
  - apply elem_of_mark_discovered.
Qed.


End DiscoveryProperties.

(** ** TrailManager *)

Section ManagerProperties.

Import ResearchTrail TrailManager.

Lemma find_by_id_Some (h : list ResearchTrail.t) (trail_id : string)
  (l : list nat) (a : nat) (trail : ResearchTrail.t) :
  find_by_id h trail_id l = Some (a, trail) ->
  h !! a = Some trail /\ id trail = trail_id.
Proof.
  induction l as [|b l IH]; simpl; [done |].
  destruct (h !! b) as [x|] eqn:Hb; [| exact IH].
  destruct (String.eqb (id x) trail_id) eqn:Hid; [| exact IH].
  intros [= <- <-]. split; [done | by apply String.eqb_eq].
Qed.

Lemma _find_trail_Some (s : state) (trail_id : string) (a : nat)
  (trail : ResearchTrail.t) :
  _find_trail s trail_id = Some (a, trail) ->
  heap s !! a = Some trail /\ id trail = trail_id.
Proof.
  unfold _find_trail.
  destruct (find_by_id _ _ (_active_trails _)) as [r|] eqn:Hact.
  - intros [= ->]. by apply find_by_id_Some in Hact.
  - apply find_by_id_Some.
Qed.

(** Replacing an object by one of the same status leaves every status. *)
Lemma status_at_insert (s : state) (m : TrailManager.t) (a b : nat)
  (old new : ResearchTrail.t) :
  heap s !! b = Some old ->
  status_at (mkState (<[b := new]> (heap s)) m) a
  = if decide (a = b) then Some (status new) else status_at s a.
Proof.
  intros Hb. unfold status_at. simpl. destruct (decide (a = b)) as [->|Hne].
  - rewrite list_lookup_insert_eq; [done |]. by eapply lookup_lt_Some.
  - by rewrite list_lookup_insert_ne.
Qed.




(** C3, as the code has it.  A call of the manager leaves the status of
    every trail object as it was, except that [start_trail] moves the
    trail it finds from PENDING to ACTIVE, and [complete_trail] and
    [abandon_trail] set the trail they find to COMPLETED and to ABANDONED
    whatever its status was; no object disappears. *)
Theorem C3_status_changes_by_call (c : call) (s : state) (a : nat)
  (before : TrailStatus.t) :
  status_at s a = Some before ->
  exists after : TrailStatus.t,
    status_at (run c s) a = Some after
    /\ status_change c before after.
Proof.
  intros Hbefore.
  assert (Hsame : status_at s a = Some before /\ status_change c before before).
  { split; [done | by left]. }
  destruct c as [q r b o u|i|i|i rs|i f]; simpl.
  - unfold create_trail.
    destruct (_would_create_loop _ _); [by exists before |].
    destruct (bool_decide _); [by exists before |].
    destruct (_ >=? _); [by exists before |].
    exists before. split; [| by left]. unfold status_at in *. simpl.
    destruct (heap s !! a) as [x|] eqn:Hx; [| done].
    by rewrite (lookup_app_l_Some _ _ _ _ Hx).
  - unfold start_trail.
    destruct (_find_trail s i) as [[a' trail]|] eqn:Hfind; [| by exists before].
    apply _find_trail_Some in Hfind as [Hheap _].
    destruct (bool_decide (status trail = TrailStatus.PENDING)) eqn:Hpending;
      [| by exists before].
    apply bool_decide_eq_true in Hpending. simpl.
    rewrite (status_at_insert s _ a a' trail _ Hheap).
    destruct (decide (a = a')) as [->|Hne]; [| by exists before].
    exists TrailStatus.ACTIVE. split; [done |]. right. simpl.
    unfold status_at in Hbefore. rewrite Hheap in Hbefore. simpl in Hbefore.
    split; [congruence | done].
  - unfold complete_trail, finish_trail.
    destruct (_find_trail s i) as [[a' trail]|] eqn:Hfind; [| by exists before].
    apply _find_trail_Some in Hfind as [Hheap _]. simpl.
    rewrite (status_at_insert s _ a a' trail _ Hheap).
    destruct (decide (a = a')) as [->|Hne]; [| by exists before].
    exists TrailStatus.COMPLETED. split; [done | by right].
  - unfold abandon_trail, finish_trail.
    destruct (_find_trail s i) as [[a' trail]|] eqn:Hfind; [| by exists before].
    apply _find_trail_Some in Hfind as [Hheap _]. simpl.
    rewrite (status_at_insert s _ a a' trail _ Hheap).
    destruct (decide (a = a')) as [->|Hne]; [| by exists before].
    exists TrailStatus.ABANDONED. split; [done | by right].
  - unfold add_finding_to_trail.
    destruct (_find_trail s i) as [[a' trail]|] eqn:Hfind; [| by exists before].
    apply _find_trail_Some in Hfind as [Hheap _]. simpl.
    rewrite (status_at_insert s _ a a' trail _ Hheap).
    destruct (decide (a = a')) as [->|Hne]; [| by exists before].
    exists before. split; [| by left]. simpl.
    unfold status_at in Hbefore. rewrite Hheap in Hbefore. by simpl in Hbefore.
Qed.

End ManagerProperties.

(** ** TrailExecutionEngine *)

Section ExecutionProperties.

Import ResearchTrail TrailManager TrailExecutionEngine.

Lemma find_by_id_insert (h : list ResearchTrail.t) (a : nat)
  (old new : ResearchTrail.t) (trail_id : string) (l : list nat) :
  h !! a = Some old -> id new = id old ->
  find_by_id (<[a := new]> h) trail_id l
  = (fun r => if decide (r.1 = a) then (a, new) else r) <$> find_by_id h trail_id l.
Proof.
  intros Hold Hid. induction l as [|b l IH]; simpl; [done |].
  destruct (decide (b = a)) as [->|Hne].
  - rewrite list_lookup_insert_eq by (by eapply lookup_lt_Some).
    rewrite Hold, Hid. destruct (String.eqb (id old) trail_id); [| done].
    simpl. by rewrite decide_True.
  - rewrite list_lookup_insert_ne by done.
    destruct (h !! b) as [x|]; [| done].
    destruct (String.eqb (id x) trail_id); [| done].
    simpl. by rewrite decide_False.
Qed.

Lemma _find_trail_insert (s : state) (m : TrailManager.t) (a : nat)
  (old new : ResearchTrail.t) (trail_id : string) :
  heap s !! a = Some old -> id new = id old ->
  _active_trails m = _active_trails (self s) ->
  _completed_trails m = _completed_trails (self s) ->
  _find_trail s trail_id = Some (a, old) ->
  _find_trail (mkState (<[a := new]> (heap s)) m) trail_id = Some (a, new).
Proof.
  intros Hold Hid Hact Hcomp. unfold _find_trail. simpl.
  rewrite Hact, Hcomp, !(find_by_id_insert _ _ _ _ _ _ Hold Hid).
  destruct (find_by_id (heap s) trail_id (_active_trails (self s))) as [r|].
  - intros [= ->]. simpl. by rewrite decide_True.
  - simpl. intros ->. simpl. by rewrite decide_True.
Qed.



End ExecutionProperties.

(** ** Further properties of TrailManager *)

Section ManagerExtras.

Import ResearchTrail TrailManager.

Lemma finish_trail_found (s : state) (trail_id : string) (final : TrailStatus.t)
  (a : nat) (trail : ResearchTrail.t) :
  _find_trail s trail_id = Some (a, trail) ->
  finish_trail s trail_id final
  = (true,
     mkState (<[a := set_status trail final]> (heap s))
       (TrailManager.mk (max_concurrent_trails (self s))
          (List.filter
             (fun b => negb (has_id (<[a := set_status trail final]> (heap s))
                               trail_id b))
             (_active_trails (self s)))
          (_completed_trails (self s) ++ [a])
          (_visited_queries (self s))
          (_breadcrumbs (self s) ∖ {[ lower (trail_query trail) ]}))).
Proof. intros Hfind. unfold finish_trail. by rewrite Hfind. Qed.

Lemma finish_trail_missing (s : state) (trail_id : string) (final : TrailStatus.t) :
  _find_trail s trail_id = None -> finish_trail s trail_id final = (false, s).
Proof. intros Hfind. unfold finish_trail. by rewrite Hfind. Qed.

(** What a call does to the size of the active list, the cap and the
    visited set. *)
Lemma run_active_bound (c : call) (s : state) :
  Z.of_nat (length (_active_trails (self s))) <= max_concurrent_trails (self s) ->
  Z.of_nat (length (_active_trails (self (run c s))))
  <= max_concurrent_trails (self (run c s))
  /\ max_concurrent_trails (self (run c s)) = max_concurrent_trails (self s).
Proof.
  intros Hle.
  assert (Hfinish : forall i final,
    Z.of_nat (length (_active_trails (self (finish_trail s i final).2)))
    <= max_concurrent_trails (self (finish_trail s i final).2)
    /\ max_concurrent_trails (self (finish_trail s i final).2)
       = max_concurrent_trails (self s)).
  { intros i final. destruct (_find_trail s i) as [[a trail]|] eqn:Hfind.
    - rewrite (finish_trail_found _ _ _ _ _ Hfind). simpl. split; [| done].
      pose proof (List.filter_length_le
        (fun b => negb (has_id (<[a := set_status trail final]> (heap s)) i b))
        (_active_trails (self s))). lia.
    - by rewrite (finish_trail_missing _ _ _ Hfind). }
  destruct c as [q r b o u|i|i|i rs|i f]; simpl.
  - unfold create_trail.
    destruct (_would_create_loop _ _); [done |].
    destruct (bool_decide _); [done |].
    destruct (_ >=? _) eqn:Hcap; [done |].
    rewrite Z.geb_leb, Z.leb_gt in Hcap. simpl.
    rewrite length_app. simpl. split; [lia | done].
  - unfold start_trail. destruct (_find_trail s i) as [[a trail]|]; [| done].
    by destruct (negb _).
  - apply Hfinish.
  - apply Hfinish.
  - unfold add_finding_to_trail.
    by destruct (_find_trail s i) as [[a trail]|].
Qed.


Lemma run_all_cons (c : call) (cs : list call) (s : state) :
  run_all (c :: cs) s = run_all cs (run c s).
Proof. reflexivity. Qed.

(** X11.  The concurrency cap is kept.  When the active list is within
    [max_concurrent_trails], it still is after any calls of the manager,
    and the cap itself never changes; so from a new manager with a cap that
    is not negative the active list never has more entries than the cap. *)
Theorem X11_active_list_within_cap (cs : list call) (s : state) :
  (Z.of_nat (length (_active_trails (self s))) <= max_concurrent_trails (self s) ->
   Z.of_nat (length (_active_trails (self (run_all cs s))))
   <= max_concurrent_trails (self s)
   /\ max_concurrent_trails (self (run_all cs s)) = max_concurrent_trails (self s))
  /\ (forall n : Z, 0 <= n ->
        Z.of_nat (length (_active_trails (self (run_all cs (init n))))) <= n).
Proof.
  assert (Hgen : forall cs s,
    Z.of_nat (length (_active_trails (self s))) <= max_concurrent_trails (self s) ->
    Z.of_nat (length (_active_trails (self (run_all cs s))))
    <= max_concurrent_trails (self s)
    /\ max_concurrent_trails (self (run_all cs s)) = max_concurrent_trails (self s)).
  { clear cs s. induction cs as [|c cs IH]; intros s Hle; [done |].
    rewrite run_all_cons.
    destruct (run_active_bound c s Hle) as [Hle' Hmax].
    destruct (IH (run c s) Hle') as [H1 H2].
    rewrite <- Hmax. split; [exact H1 | by rewrite H2]. }
  split; [apply Hgen |].
  intros n Hn. by apply (Hgen cs (init n)).
Qed.


(** X13.  A trail is started once: after a [start_trail] that returned
    true, the trail is ACTIVE and its lower-cased query is a breadcrumb,
    and a second [start_trail] with the same id returns false and changes
    nothing. *)
Theorem X13_start_trail_twice (s s1 : state) (trail_id : string) :
  start_trail s trail_id = (true, s1) ->
  start_trail s1 trail_id = (false, s1)
  /\ exists a trail,
       _find_trail s trail_id = Some (a, trail)
       /\ status trail = TrailStatus.PENDING
       /\ status_at s1 a = Some TrailStatus.ACTIVE
       /\ lower (trail_query trail) ∈ _breadcrumbs (self s1).
Proof.
  unfold start_trail at 1.
  destruct (_find_trail s trail_id) as [[a trail]|] eqn:Hfind; [| done].
  destruct (bool_decide (status trail = TrailStatus.PENDING)) eqn:Hp; [| done].
  simpl. intros [= <-]. apply bool_decide_eq_true in Hp.
  pose proof (_find_trail_Some _ _ _ _ Hfind) as [Hheap Hid].
  assert (Hfind1 :
    _find_trail
      (mkState (<[a := set_status trail TrailStatus.ACTIVE]> (heap s))
               (_add_breadcrumb (self s) (trail_query trail)))
      trail_id
    = Some (a, set_status trail TrailStatus.ACTIVE)).
  { by apply (_find_trail_insert s _ a trail). }
  split.
  - unfold start_trail. by rewrite Hfind1.
  - exists a, trail. split; [done |]. split; [done |]. split.
    + unfold status_at. simpl.
      rewrite list_lookup_insert_eq; [done | by eapply lookup_lt_Some].
    + simpl. apply elem_of_union_r. by apply elem_of_singleton.
Qed.

Lemma finish_trail_effect (s : state) (trail_id : string) (final : TrailStatus.t)
  (a : nat) (trail : ResearchTrail.t) :
  _find_trail s trail_id = Some (a, trail) ->
  (finish_trail s trail_id final).1 = true
  /\ status_at (finish_trail s trail_id final).2 a = Some final
  /\ _completed_trails (self (finish_trail s trail_id final).2)
     = (_completed_trails (self s) ++ [a])%list
  /\ (forall b, b ∈ _active_trails (self (finish_trail s trail_id final).2) ->
        b ∈ _active_trails (self s)
        /\ has_id (heap (finish_trail s trail_id final).2) trail_id b = false)
  /\ (lower (trail_query trail)
        ∉ _breadcrumbs (self (finish_trail s trail_id final).2))
  /\ _visited_queries (self (finish_trail s trail_id final).2)
     = _visited_queries (self s).
Proof.
  intros Hfind. pose proof (_find_trail_Some _ _ _ _ Hfind) as [Hheap Hid].
  rewrite (finish_trail_found _ _ _ _ _ Hfind). simpl.
  split; [done |]. split.
  { unfold status_at. simpl.
    rewrite list_lookup_insert_eq; [done | by eapply lookup_lt_Some]. }
  split; [done |]. split.
  { intros b Hb. apply list_elem_of_In, filter_In in Hb as [Hb Hnot].
    split; [by apply list_elem_of_In | by apply negb_true_iff in Hnot]. }
  split; [| done].
  rewrite elem_of_difference, elem_of_singleton. tauto.
Qed.

(** X14.  [complete_trail] and [abandon_trail] return false and change
    nothing when no trail has the id.  Otherwise they return true: the
    trail found has the terminal status, no trail of that id is left in the
    active list, the trail is appended to the completed list (once more if
    it was there already), its query is no breadcrumb any more, and the
    visited set is what it was. *)
Theorem X14_complete_and_abandon_move_the_trail (s : state) (trail_id : string)
  (reason : string) :
  (_find_trail s trail_id = None ->
   complete_trail s trail_id = (false, s)
   /\ abandon_trail s trail_id reason = (false, s))
  /\ (forall a trail, _find_trail s trail_id = Some (a, trail) ->
        ((complete_trail s trail_id).1 = true
         /\ status_at (complete_trail s trail_id).2 a = Some TrailStatus.COMPLETED
         /\ _completed_trails (self (complete_trail s trail_id).2)
            = (_completed_trails (self s) ++ [a])%list
         /\ (forall b, b ∈ _active_trails (self (complete_trail s trail_id).2) ->
               b ∈ _active_trails (self s)
               /\ has_id (heap (complete_trail s trail_id).2) trail_id b = false)
         /\ (lower (trail_query trail)
               ∉ _breadcrumbs (self (complete_trail s trail_id).2))
         /\ _visited_queries (self (complete_trail s trail_id).2)
            = _visited_queries (self s))
        /\ ((abandon_trail s trail_id reason).1 = true
            /\ status_at (abandon_trail s trail_id reason).2 a
               = Some TrailStatus.ABANDONED
            /\ _completed_trails (self (abandon_trail s trail_id reason).2)
               = (_completed_trails (self s) ++ [a])%list
            /\ (forall b,
                  b ∈ _active_trails (self (abandon_trail s trail_id reason).2) ->
                  b ∈ _active_trails (self s)
                  /\ has_id (heap (abandon_trail s trail_id reason).2) trail_id b
                     = false)
            /\ (lower (trail_query trail)
                  ∉ _breadcrumbs (self (abandon_trail s trail_id reason).2))
            /\ _visited_queries (self (abandon_trail s trail_id reason).2)
               = _visited_queries (self s))).
Proof.
  split.
  - intros Hnone. unfold complete_trail, abandon_trail.
    by rewrite !(finish_trail_missing _ _ _ Hnone).
  - intros a trail Hfind. unfold complete_trail, abandon_trail.
    split; by apply finish_trail_effect.
Qed.

Lemma live_filter_lengths (h : list ResearchTrail.t) (l : list nat) :
  (forall a, a ∈ l ->
     status <$> h !! a = Some TrailStatus.PENDING
     \/ status <$> h !! a = Some TrailStatus.ACTIVE) ->
  (length (List.filter (status_is h TrailStatus.ACTIVE) l)
   + length (List.filter (status_is h TrailStatus.PENDING) l))%nat
  = length l.
Proof.
  induction l as [|a l IH]; intros Hlive; [done |].
  assert (Htail : forall b, b ∈ l ->
            status <$> h !! b = Some TrailStatus.PENDING
            \/ status <$> h !! b = Some TrailStatus.ACTIVE).
  { intros b Hb. apply Hlive. apply elem_of_cons. by right. }
  specialize (IH Htail).
  assert (Ha : a ∈ a :: l) by (apply elem_of_cons; by left).
  assert (Hone : (status_is h TrailStatus.ACTIVE a = true
                  /\ status_is h TrailStatus.PENDING a = false)
                 \/ (status_is h TrailStatus.ACTIVE a = false
                     /\ status_is h TrailStatus.PENDING a = true)).
  { unfold status_is.
    destruct (Hlive a Ha) as [H|H]; destruct (h !! a) as [trail|]; simpl in H;
      try discriminate H; injection H as H; rewrite H; [by right | by left]. }
  simpl. destruct Hone as [[-> ->]|[-> ->]]; simpl; lia.
Qed.

Lemma run_keeps_live (c : call) (s : state) :
  active_list_live s -> active_list_live (run c s).
Proof.
  intros Hlive.
  assert (Hfinish : forall i final, active_list_live (finish_trail s i final).2).
  { intros i final. destruct (_find_trail s i) as [[a trail]|] eqn:Hfind.
    - pose proof (_find_trail_Some _ _ _ _ Hfind) as [Hheap Hid].
      destruct (finish_trail_effect s i final a trail Hfind)
        as (_ & _ & _ & Hactive & _).
      intros b Hb. destruct (Hactive b Hb) as [Hb0 Hnot].
      rewrite (finish_trail_found _ _ _ _ _ Hfind) in Hnot |- *.
      cbn [snd heap] in Hnot. cbn [snd].
      rewrite (status_at_insert s _ b a trail _ Hheap).
      destruct (decide (b = a)) as [->|Hne]; [| by apply Hlive].
      unfold has_id in Hnot.
      rewrite list_lookup_insert_eq in Hnot by (by eapply lookup_lt_Some).
      simpl in Hnot. rewrite Hid, String.eqb_refl in Hnot. discriminate Hnot.
    - by rewrite (finish_trail_missing _ _ _ Hfind). }
  destruct c as [q r b o u|i|i|i rs|i f]; simpl.
  - unfold create_trail.
    destruct (_would_create_loop _ _); [done |].
    destruct (bool_decide _); [done |].
    destruct (_ >=? _); [done |]. simpl.
    intros a Ha. simpl in Ha. unfold status_at. simpl.
    apply elem_of_app in Ha as [Ha|Ha].
    + destruct (Hlive a Ha) as [H|H]; unfold status_at in H;
        destruct (heap s !! a) as [x|] eqn:Hx; try discriminate H;
        rewrite (lookup_app_l_Some _ _ _ _ Hx); [by left | by right].
    + apply list_elem_of_singleton in Ha. subst a.
      rewrite lookup_app_r by lia. rewrite Nat.sub_diag. by left.
  - unfold start_trail.
    destruct (_find_trail s i) as [[a trail]|] eqn:Hfind; [| done].
    destruct (negb _); [done |]. simpl.
    pose proof (_find_trail_Some _ _ _ _ Hfind) as [Hheap Hid].
    intros b Hb. simpl in Hb.
    rewrite (status_at_insert s _ b a trail _ Hheap).
    destruct (decide (b = a)); [by right | by apply Hlive].
  - apply Hfinish.
  - apply Hfinish.
  - unfold add_finding_to_trail.
    destruct (_find_trail s i) as [[a trail]|] eqn:Hfind; [| done]. simpl.
    pose proof (_find_trail_Some _ _ _ _ Hfind) as [Hheap Hid].
    intros b Hb. simpl in Hb.
    rewrite (status_at_insert s _ b a trail _ Hheap).
    destruct (decide (b = a)) as [->|Hne]; [| by apply Hlive].
    simpl. specialize (Hlive a Hb). unfold status_at in Hlive.
    by rewrite Hheap in Hlive.
Qed.

(** X15.  On a manager that started empty, whatever calls were made, every
    entry of the active list is PENDING or ACTIVE, and the counts of
    [get_statistics] add up: active, pending and completed trails make the
    total. *)
Theorem X15_statistics_add_up (n : Z) (cs : list call) :
  active_list_live (run_all cs (init n))
  /\ (active_trails (get_statistics (run_all cs (init n)))
      + pending_trails (get_statistics (run_all cs (init n)))
      + completed_trails (get_statistics (run_all cs (init n))))%nat
     = total_trails (get_statistics (run_all cs (init n))).
Proof.
  assert (Hgen : forall cs s, active_list_live s -> active_list_live (run_all cs s)).
  { clear. induction cs as [|c cs IH]; intros s Hlive; [done |].
    rewrite run_all_cons. by apply IH, run_keeps_live. }
  assert (Hlive : active_list_live (run_all cs (init n))).
  { apply Hgen. intros a Ha. simpl in Ha. by apply elem_of_nil in Ha. }
  split; [exact Hlive |].
  unfold get_statistics, get_active_trails, get_pending_trails, get_all_trails.
  simpl. rewrite length_app.
  by rewrite (live_filter_lengths _ _ Hlive).
Qed.

End ManagerExtras.

(** ** Sorting *)

Section SortingProperties.

Context {A : Type} (key : A -> Q).

Lemma insert_desc_perm (x : A) (l : list A) : insert_desc key x l ≡ₚ x :: l.
Proof.
  induction l as [|y l IH]; simpl; [done |].
  destruct (Qgtb (key y) (key x)); [| done].
  rewrite IH. apply Permutation_swap.
Qed.

Lemma sort_desc_perm (l : list A) : sort_desc key l ≡ₚ l.
Proof.
  unfold sort_desc. induction l as [|x l IH]; simpl; [done |].
  by rewrite insert_desc_perm, IH.
Qed.

Lemma insert_desc_sorted (x : A) (l : list A) :
  StronglySorted (fun a b => (key b <= key a)%Q) l ->
  StronglySorted (fun a b => (key b <= key a)%Q) (insert_desc key x l).
Proof.
  induction l as [|y l IH]; intros Hs; simpl.
  - constructor; [constructor | constructor].
  - apply StronglySorted_inv in Hs as [Hs Hy].
    destruct (Qgtb (key y) (key x)) eqn:E.
    + apply Qgtb_true in E. constructor; [by apply IH |].
      apply Forall_forall. intros z Hz.
      apply elem_of_insert_desc in Hz as [->|Hz]; [by apply Qlt_le_weak |].
      rewrite Forall_forall in Hy. by apply Hy.
    + apply Qgtb_false in E. constructor.
      * by constructor.
      * constructor; [done |].
        rewrite Forall_forall in Hy |- *. intros z Hz.
        eapply Qle_trans; [by apply Hy | done].
Qed.

Lemma sort_desc_sorted (l : list A) :
  StronglySorted (fun a b => (key b <= key a)%Q) (sort_desc key l).
Proof.
  unfold sort_desc. induction l as [|x l IH]; simpl; [constructor |].
  by apply insert_desc_sorted.
Qed.

Lemma sorted_descending (l : list A) :
  StronglySorted (fun a b => (key b <= key a)%Q) l -> descending key l.
Proof.
  induction l as [|z l IH]; intros Hs i j x y Hij Hi Hj.
  - by rewrite lookup_nil in Hi.
  - apply StronglySorted_inv in Hs as [Hs Hz].
    destruct j as [|j]; [lia |]. simpl in Hj.
    destruct i as [|i]; simpl in Hi.
    + injection Hi as ->. rewrite Forall_forall in Hz.
      apply Hz. by eapply list_elem_of_lookup_2.
    + apply (IH Hs i j); [lia | done | done].
Qed.

Lemma sort_desc_descending (l : list A) : descending key (sort_desc key l).
Proof. apply sorted_descending, sort_desc_sorted. Qed.

Lemma py_take_descending (n : Z) (l : list A) :
  descending key l -> descending key (py_take n l).
Proof.
  intros Hd i j x y Hij Hi Hj. unfold py_take in Hi, Hj.
  destruct (n <? 0);
    apply lookup_take_Some in Hi as [Hi _]; apply lookup_take_Some in Hj as [Hj _];
    by apply (Hd i j).
Qed.

Lemma py_take_length (n : Z) (l : list A) :
  (0 <= n -> Z.of_nat (length (py_take n l)) <= n)
  /\ (n < 0 -> length (py_take n l) = (length l - Z.to_nat (- n))%nat).
Proof.
  unfold py_take. split; intros Hn.
  - replace (n <? 0) with false by (symmetry; lia).
    rewrite length_take. lia.
  - replace (n <? 0) with true by (symmetry; lia).
    rewrite length_take. lia.
Qed.

End SortingProperties.

Section ManagerPriorities.

Import ResearchTrail TrailManager.

(** X16.  [prioritize_trails] of the manager returns the PENDING trails of
    the active list, each once, none lost, and in an order in which the
    relevance score never goes up. *)
Theorem X16_prioritize_trails_sorts_the_pending (s : state) :
  prioritize_trails s ≡ₚ get_pending_trails s
  /\ descending (relevance_at (heap s)) (prioritize_trails s)
  /\ (forall a, a ∈ prioritize_trails s ->
        a ∈ _active_trails (self s)
        /\ status_at s a = Some TrailStatus.PENDING).
Proof.
  unfold prioritize_trails.
  split; [apply sort_desc_perm |]. split; [apply sort_desc_descending |].
  intros a Ha. apply elem_of_sort_desc in Ha.
  unfold get_pending_trails in Ha.
  apply list_elem_of_In, filter_In in Ha as [Ha Hst].
  split; [by apply list_elem_of_In |].
  unfold status_is in Hst. unfold status_at.
  destruct (heap s !! a) as [trail|]; [| done].
  apply bool_decide_eq_true in Hst. simpl. by rewrite Hst.
Qed.

End ManagerPriorities.

(** ** Further properties of TrailDiscovery *)

Section DiscoveryExtras.

Import ResearchTrailSuggestion TrailDiscovery.

Lemma string_length_append (s1 s2 : string) :
  String.length (s1 ++ s2) = (String.length s1 + String.length s2)%nat.
Proof. induction s1 as [|c s1 IH]; simpl; [done | by rewrite IH]. Qed.

Lemma substring_length_le (n m : nat) (s : string) :
  (String.length (substring n m s) <= m)%nat.
Proof.
  revert n m. induction s as [|c s IH]; intros n m.
  - destruct n, m; simpl; lia.
  - destruct n as [|n]; simpl.
    + destruct m as [|m]; simpl; [lia |]. specialize (IH 0%nat m). lia.
    + apply IH.
Qed.

Lemma flat_map_short {X Y} (f : X -> list Y) (l : list X) :
  (forall x, (length (f x) <= 1)%nat) ->
  (length (flat_map f l) <= length l)%nat.
Proof.
  intros Hf. induction l as [|x l IH]; simpl; [done |].
  rewrite length_app. specialize (Hf x). lia.
Qed.

Lemma extracted_suggestion (finding : Finding.t) (original_query : string)
  (t : ResearchTrailSuggestion.t) :
  t ∈ _extract_trails_from_finding finding original_query ->
  exists context : string,
    t = ResearchTrailSuggestion.mk
          ("More about: " ++ py_slice context 0 50 ++ "...") (7 # 10)
          ("Found related concept in finding from " ++ Finding.source finding).
Proof.
  unfold _extract_trails_from_finding. intros Ht.
  apply list_elem_of_In, in_flat_map in Ht as (indicator & _ & Ht).
  destruct (String.index 0 indicator _) as [idx|]; [| done].
  destruct Ht as [<-|[]]. eauto.
Qed.

(** X17.  What [_extract_trails_from_finding] yields: at most one
    suggestion for each of the ten indicator phrases; each with the
    relevance 0.7, a query of at most 65 characters that starts with
    ["More about: "] and ends with ["..."], and a reason that names the
    source of the finding. *)
Theorem X17_extracted_suggestions (finding : Finding.t) (original_query : string) :
  (length (_extract_trails_from_finding finding original_query) <= 10)%nat
  /\ forall t, t ∈ _extract_trails_from_finding finding original_query ->
       relevance_score t = (7 # 10)%Q
       /\ (String.length (trail_query t) <= 65)%nat
       /\ (exists excerpt, trail_query t = "More about: " ++ excerpt ++ "..."
                           /\ (String.length excerpt <= 50)%nat)
       /\ reason t
          = "Found related concept in finding from " ++ Finding.source finding.
Proof.
  split.
  - unfold _extract_trails_from_finding.
    etrans; [apply flat_map_short | done].
    intros indicator. destruct (String.index 0 indicator _); simpl; lia.
  - intros t Ht. apply extracted_suggestion in Ht as [context ->]. simpl.
    pose proof (substring_length_le 0 (50 - 0) context) as Hlen.
    split; [done |]. split.
    + unfold py_slice. rewrite !string_length_append. simpl in *. lia.
    + split; [| done]. exists (py_slice context 0 50). split; [done |].
      unfold py_slice. simpl in *. lia.
Qed.

Lemma filter_none {X} (P : X -> Prop) `{forall x, Decision (P x)} (l : list X) :
  (forall x, x ∈ l -> ~ P x) -> filter P l = [].
Proof.
  induction l as [|x l IH]; intros Hno; [done |].
  rewrite filter_cons_False by (apply Hno, elem_of_cons; by left).
  apply IH. intros y Hy. apply Hno, elem_of_cons. by right.
Qed.

Lemma candidate_pool_relevance (self : TrailDiscovery.t) (query : string)
  (findings : list Finding.t) (t : ResearchTrailSuggestion.t) :
  t ∈ candidate_pool self query findings ->
  relevance_score t = (7 # 10)%Q
  /\ (min_relevance self <= relevance_score t)%Q.
Proof.
  unfold candidate_pool. rewrite !list_elem_of_filter.
  intros (Hmin & _ & Ht). apply Qgeb_true in Hmin. split; [| done].
  apply list_elem_of_In, in_flat_map in Ht as (finding & _ & Ht).
  apply list_elem_of_In, extracted_suggestion in Ht as [context ->]. done.
Qed.

(** X18.  The list that [discover_trails] returns.  Without findings it is
    empty and the instance is as before.  It has at most [max_trails]
    entries when [max_trails] is not negative, and with a negative
    [max_trails] the slice drops that many survivors from the end.  Every
    entry has a relevance of at least [min_relevance] and a query that was
    not discovered before; the relevance never goes up along the list.
    The threshold is not changed and the discovered set only grows.  Since
    every candidate has the relevance 0.7, a threshold above 0.7 leaves
    the list empty. *)
Theorem X18_discover_trails_result (self : TrailDiscovery.t) (query : string)
  (findings : list Finding.t) (max_trails : Z) :
  discover_trails self query [] max_trails = ([], self)
  /\ (0 <= max_trails ->
      Z.of_nat (length (discover_trails self query findings max_trails).1)
      <= max_trails)
  /\ (max_trails < 0 -> findings <> [] ->
      length (discover_trails self query findings max_trails).1
      = (length (candidate_pool self query findings)
         - Z.to_nat (- max_trails))%nat)
  /\ (forall t, t ∈ (discover_trails self query findings max_trails).1 ->
        (min_relevance self <= relevance_score t)%Q
        /\ lower (trail_query t) ∉ _discovered_trails self)
  /\ descending relevance_score
       (discover_trails self query findings max_trails).1
  /\ min_relevance (discover_trails self query findings max_trails).2
     = min_relevance self
  /\ _discovered_trails self
     ⊆ _discovered_trails (discover_trails self query findings max_trails).2
  /\ ((7 # 10 < min_relevance self)%Q ->
      (discover_trails self query findings max_trails).1 = []).
Proof.
  split; [reflexivity |]. split.
  { intros Hn. unfold discover_trails. destruct findings; simpl; [lia |].
    by apply py_take_length. }
  split.
  { intros Hn Hne. unfold discover_trails. destruct findings as [|f fs]; [done |].
    simpl. rewrite (proj2 (py_take_length _ _) Hn).
    by rewrite (Permutation_length (sort_desc_perm _ _)). }
  split.
  { intros t Ht. apply discover_trails_from_pool in Ht.
    split; [by apply candidate_pool_relevance in Ht as [_ H] |
            by apply candidate_pool_fresh in Ht]. }
  split.
  { unfold discover_trails. destruct findings as [|f fs]; simpl.
    - intros i j x y _ Hi. by rewrite lookup_nil in Hi.
    - apply py_take_descending, sort_desc_descending. }
  split.
  { unfold discover_trails. by destruct findings. }
  split.
  { intros q Hq. apply discover_trails_discovered. by left. }
  intros Hhigh.
  destruct (discover_trails self query findings max_trails).1 as [|t ts] eqn:E;
    [done |].
  assert (Ht : t ∈ (discover_trails self query findings max_trails).1).
  { rewrite E. apply elem_of_cons. by left. }
  apply discover_trails_from_pool, candidate_pool_relevance in Ht as [H7 Hmin].
  rewrite H7 in Hmin. lra.
Qed.

End DiscoveryExtras.

(** ** Scoring in TrailDiscovery *)

Section ScoringProperties.

Import ResearchTrailSuggestion TrailDiscovery.

Lemma truediv_unit (a b : nat) :
  (a <= b)%nat ->
  (0 <= py_truediv (Z.of_nat a) (Z.of_nat (Nat.max b 1)) <= 1)%Q.
Proof.
  intros Hab. unfold py_truediv.
  assert (Hpos : (0 < inject_Z (Z.of_nat (Nat.max b 1)))%Q).
  { change 0%Q with (inject_Z 0). rewrite <- Zlt_Qlt. lia. }
  split.
  - apply Qle_shift_div_l; [done |]. rewrite Qmult_0_l.
    change 0%Q with (inject_Z 0). rewrite <- Zle_Qle. lia.
  - apply Qle_shift_div_r; [done |]. rewrite Qmult_1_l.
    rewrite <- Zle_Qle. lia.
Qed.

Lemma truediv_full (a : nat) :
  (0 < a)%nat -> (py_truediv (Z.of_nat a) (Z.of_nat (Nat.max a 1)) == 1)%Q.
Proof.
  intros Ha. unfold py_truediv. rewrite Nat.max_l by lia.
  apply Qmult_inv_r. change 0%Q with (inject_Z 0). rewrite inject_Z_injective. lia.
Qed.

Lemma py_min_float_one (x : Q) :
  (0 <= x)%Q -> (0 <= py_min_float 1 x <= 1)%Q.
Proof.
  intros Hx. unfold py_min_float. destruct (Qgtb 1 x) eqn:E.
  - apply Qgtb_true in E. split; [done | by apply Qlt_le_weak].
  - split; [lra | apply Qle_refl].
Qed.

Lemma py_min_float_one_eq (x : Q) : (1 <= x)%Q -> (py_min_float 1 x == 1)%Q.
Proof.
  intros Hx. unfold py_min_float. destruct (Qgtb 1 x) eqn:E; [| reflexivity].
  apply Qgtb_true in E. lra.
Qed.

Lemma py_min_float_one_small (x : Q) :
  (0 <= x)%Q -> (x <= 1)%Q -> (py_min_float 1 x == x)%Q.
Proof.
  intros Hlo Hhi. unfold py_min_float. destruct (Qgtb 1 x) eqn:E; [reflexivity |].
  apply Qgtb_false in E. by apply Qle_antisym.
Qed.

Lemma size_intersection_l (X Y : gset string) : (size (X ∩ Y) <= size X)%nat.
Proof. apply subseteq_size, intersection_subseteq_l. Qed.

Lemma size_intersection_r (X Y : gset string) : (size (X ∩ Y) <= size Y)%nat.
Proof. apply subseteq_size, intersection_subseteq_r. Qed.

Lemma size_intersection_subseteq (X Y : gset string) :
  X ⊆ Y -> size (X ∩ Y) = size X.
Proof. intros HXY. f_equal. by apply subseteq_intersection_1_L. Qed.

Lemma score_trail_relevance_unit (self : TrailDiscovery.t)
  (trail_query original_query : string) (findings : list Finding.t) :
  (0 <= score_trail_relevance self trail_query original_query findings <= 1)%Q.
Proof.
  unfold score_trail_relevance.
  pose proof (truediv_unit _ _
    (size_intersection_r (terms trail_query) (terms original_query))) as [Hlo Hhi].
  pose proof (py_min_float_one _ Hlo) as [Hlo' Hhi'].
  destruct (1 <? _)%nat; [| done].
  apply py_min_float_one. lra.
Qed.

(** The loop of [detect_novelty], with its accumulator. *)
Lemma max_overlap_unit (trail_terms : gset string) (findings : list Finding.t)
  (start : Q) :
  (0 <= start <= 1)%Q ->
  (0 <= foldl
          (fun max_overlap finding =>
             py_max_float max_overlap
               (py_truediv
                  (Z.of_nat (size (trail_terms ∩ terms (Finding.content finding))))
                  (Z.of_nat (Nat.max (size trail_terms) 1))))
          start findings <= 1)%Q.
Proof.
  revert start. induction findings as [|f fs IH]; intros start Hstart; [done |].
  simpl. apply IH.
  pose proof (truediv_unit _ _
    (size_intersection_l trail_terms (terms (Finding.content f)))) as Hunit.
  unfold py_max_float. by destruct (Qgtb _ start).
Qed.

Lemma max_overlap_grows (trail_terms : gset string) (findings : list Finding.t)
  (start : Q) :
  (start <= foldl
          (fun max_overlap finding =>
             py_max_float max_overlap
               (py_truediv
                  (Z.of_nat (size (trail_terms ∩ terms (Finding.content finding))))
                  (Z.of_nat (Nat.max (size trail_terms) 1))))
          start findings)%Q.
Proof.
  revert start. induction findings as [|f fs IH]; intros start;
    [apply Qle_refl |].
  simpl. eapply Qle_trans; [| apply IH].
  unfold py_max_float. destruct (Qgtb _ start) eqn:E; [| apply Qle_refl].
  apply Qgtb_true in E. by apply Qlt_le_weak.
Qed.

Lemma max_overlap_covers (trail_terms : gset string) (findings : list Finding.t)
  (start : Q) (f : Finding.t) :
  f ∈ findings ->
  (py_truediv (Z.of_nat (size (trail_terms ∩ terms (Finding.content f))))
              (Z.of_nat (Nat.max (size trail_terms) 1))
   <= foldl
        (fun max_overlap finding =>
           py_max_float max_overlap
             (py_truediv
                (Z.of_nat (size (trail_terms ∩ terms (Finding.content finding))))
                (Z.of_nat (Nat.max (size trail_terms) 1))))
        start findings)%Q.
Proof.
  revert start. induction findings as [|g gs IH]; intros start Hf;
    [by apply elem_of_nil in Hf |].
  apply elem_of_cons in Hf as [->|Hf]; [| by apply IH].
  simpl. eapply Qle_trans; [| apply max_overlap_grows].
  unfold py_max_float. destruct (Qgtb _ start) eqn:E; [apply Qle_refl |].
  by apply Qgtb_false in E.
Qed.

Lemma detect_novelty_unit (self : TrailDiscovery.t) (trail_query : string)
  (existing_findings : list Finding.t) :
  (0 <= detect_novelty self trail_query existing_findings <= 1)%Q.
Proof.
  unfold detect_novelty.
  pose proof (max_overlap_unit (terms trail_query) existing_findings 0) as H.
  destruct H as [Hlo Hhi]; [lra |]. lra.
Qed.

(** X19.  [score_trail_relevance] stays between 0 and 1, and is 1 when the
    original query has a word and all its words occur in the trail query.
    The call does not read the instance. *)
Theorem X19_score_trail_relevance_range (self : TrailDiscovery.t)
  (trail_query original_query : string) (findings : list Finding.t) :
  (0 <= score_trail_relevance self trail_query original_query findings <= 1)%Q
  /\ (terms original_query <> ∅ ->
      terms original_query ⊆ terms trail_query ->
      (score_trail_relevance self trail_query original_query findings == 1)%Q)
  /\ (terms trail_query ∩ terms original_query = ∅ ->
      (score_trail_relevance self trail_query original_query findings == 0)%Q
      \/ (score_trail_relevance self trail_query original_query findings
          == 2 # 10)%Q).
Proof.
  split; [apply score_trail_relevance_unit |]. split.
  - intros Hne Hsub. unfold score_trail_relevance.
    assert (Hsize : size (terms trail_query ∩ terms original_query)
                    = size (terms original_query)).
    { f_equal. rewrite (comm_L (∩)). by apply subseteq_intersection_1_L. }
    rewrite Hsize.
    assert (Hpos : (0 < size (terms original_query))%nat).
    { destruct (size (terms original_query)) eqn:E; [| lia].
      apply size_empty_inv, leibniz_equiv in E. done. }
    pose proof (truediv_full _ Hpos) as Hfull.
    assert (Hone : (py_min_float 1
              (py_truediv (Z.of_nat (size (terms original_query)))
                 (Z.of_nat (Nat.max (size (terms original_query)) 1))) == 1)%Q).
    { apply py_min_float_one_eq. rewrite Hfull. apply Qle_refl. }
    destruct (1 <? _)%nat; [| done].
    apply py_min_float_one_eq. rewrite Hone. lra.
  - intros Hdisjoint. unfold score_trail_relevance. rewrite Hdisjoint, size_empty.
    assert (Hdiv : (py_truediv (Z.of_nat 0)
                      (Z.of_nat (Nat.max (size (terms original_query)) 1)) == 0)%Q).
    { unfold py_truediv, Qdiv. apply Qmult_0_l. }
    assert (Hzero : (py_min_float 1
              (py_truediv (Z.of_nat 0)
                 (Z.of_nat (Nat.max (size (terms original_query)) 1))) == 0)%Q).
    { rewrite py_min_float_one_small; [done | |]; rewrite Hdiv; lra. }
    destruct (1 <? _)%nat; [right | by left].
    rewrite py_min_float_one_small; rewrite Hzero; lra.
Qed.

(** X20.  [detect_novelty] stays between 0 and 1; it is 1 without
    findings, and 0 when the trail query has a word and all its words
    occur in the content of one finding. *)
Theorem X20_detect_novelty_range (self : TrailDiscovery.t) (trail_query : string)
  (existing_findings : list Finding.t) :
  (0 <= detect_novelty self trail_query existing_findings <= 1)%Q
  /\ (detect_novelty self trail_query [] == 1)%Q
  /\ (forall f, f ∈ existing_findings ->
        terms trail_query <> ∅ ->
        terms trail_query ⊆ terms (Finding.content f) ->
        (detect_novelty self trail_query existing_findings == 0)%Q)
  /\ ((forall f, f ∈ existing_findings ->
         terms trail_query ∩ terms (Finding.content f) = ∅) ->
      (detect_novelty self trail_query existing_findings == 1)%Q).
Proof.
  split; [apply detect_novelty_unit |]. split; [reflexivity |]. split.
  - intros f Hf Hne Hsub. unfold detect_novelty.
    pose proof (max_overlap_unit (terms trail_query) existing_findings 0) as Hunit.
    destruct Hunit as [_ Hhi]; [lra |].
    pose proof (max_overlap_covers (terms trail_query) existing_findings 0 f Hf)
      as Hcover.
    rewrite size_intersection_subseteq in Hcover by done.
    assert (Hpos : (0 < size (terms trail_query))%nat).
    { destruct (size (terms trail_query)) eqn:E; [| lia].
      apply size_empty_inv, leibniz_equiv in E. done. }
    rewrite (truediv_full _ Hpos) in Hcover. lra.
  - intros Hdisjoint. unfold detect_novelty.
    assert (Hzero : forall start,
      (start == 0)%Q ->
      (foldl
         (fun max_overlap finding =>
            py_max_float max_overlap
              (py_truediv
                 (Z.of_nat
                    (size (terms trail_query ∩ terms (Finding.content finding))))
                 (Z.of_nat (Nat.max (size (terms trail_query)) 1))))
         start existing_findings == 0)%Q).
    { induction existing_findings as [|f fs IH]; intros start Hstart; [done |].
      simpl. apply IH.
      - intros g Hg. apply Hdisjoint, elem_of_cons. by right.
      - rewrite (Hdisjoint f) by (apply elem_of_cons; by left).
        rewrite size_empty. unfold py_max_float, py_truediv. simpl.
        destruct (Qgtb _ start) eqn:E; [| done].
        unfold Qdiv. apply Qmult_0_l. }
    rewrite (Hzero 0%Q) by reflexivity. reflexivity.
Qed.

(** X21.  [prioritize_trails] of the discovery returns the given
    suggestions with their queries and reasons, each with a combined score
    between 0 and 1 that is 0.6 times its relevance plus 0.4 times its
    novelty, in an order in which the score never goes up. *)
Theorem X21_prioritize_trails_scores (self : TrailDiscovery.t)
  (trails : list ResearchTrailSuggestion.t) (original_query : string)
  (findings : list Finding.t) :
  let result := TrailDiscovery.prioritize_trails self trails original_query findings in
  map (fun t => (trail_query t, reason t)) result
    ≡ₚ map (fun t => (trail_query t, reason t)) trails
  /\ descending relevance_score result
  /\ forall t, t ∈ result ->
       (0 <= relevance_score t <= 1)%Q
       /\ relevance_score t
          = (score_trail_relevance self (trail_query t) original_query findings
               * (6 # 10)
             + detect_novelty self (trail_query t) findings * (4 # 10))%Q.
Proof.
  cbv zeta. unfold TrailDiscovery.prioritize_trails. split.
  { rewrite sort_desc_perm, map_map. done. }
  split; [apply sort_desc_descending |].
  intros t Ht. rewrite sort_desc_perm in Ht.
  apply list_elem_of_fmap in Ht as (trail & -> & _). simpl.
  split; [| done].
  pose proof (score_trail_relevance_unit self (trail_query trail) original_query
                findings) as [? ?].
  pose proof (detect_novelty_unit self (trail_query trail) findings) as [? ?].
  split; nra.
Qed.

End ScoringProperties.

(** ** Further properties of TrailExecutionEngine *)

Section ExecutionExtras.

Import ResearchTrail TrailManager TrailExecutionEngine.

Lemma heap_alter_insert (h : list ResearchTrail.t) (a : nat)
  (f : ResearchTrail.t -> ResearchTrail.t) (x : ResearchTrail.t) :
  h !! a = Some x -> alter f a h = <[a := f x]> h.
Proof.
  revert a. induction h as [|y h IH]; intros [|a] Ha; simpl in *;
    try done.
  - by injection Ha as ->.
  - f_equal. by apply IH.
Qed.

Lemma find_by_id_removed (h : list ResearchTrail.t) (trail_id : string)
  (l : list nat) :
  find_by_id h trail_id
    (List.filter (fun b => negb (has_id h trail_id b)) l) = None.
Proof.
  induction l as [|b l IH]; simpl; [done |].
  unfold has_id at 1. destruct (h !! b) as [x|] eqn:Hb; simpl.
  - destruct (String.eqb (id x) trail_id) eqn:Hid; simpl; [done |].
    by rewrite Hb, Hid.
  - by rewrite Hb.
Qed.

Lemma not_in_filter_has_id (h : list ResearchTrail.t) (trail_id : string)
  (a : nat) (trail : ResearchTrail.t) (l : list nat) :
  h !! a = Some trail -> id trail = trail_id ->
  a ∉ List.filter (fun b => negb (has_id h trail_id b)) l.
Proof.
  intros Ha Hid Hin. apply list_elem_of_In, filter_In in Hin as [_ Hin].
  unfold has_id in Hin. rewrite Ha, Hid, String.eqb_refl in Hin. done.
Qed.

(** What [finish_trail] leaves of a trail that the manager finds. *)
Lemma finish_trail_leaves (s : state) (a : nat) (trail : ResearchTrail.t)
  (final : TrailStatus.t) :
  _find_trail s (id trail) = Some (a, trail) ->
  let s' := (finish_trail s (id trail) final).2 in
  heap s' = <[a := set_status trail final]> (heap s)
  /\ a ∈ _completed_trails (self s')
  /\ (a ∉ _active_trails (self s'))
  /\ (lower (trail_query trail) ∉ _breadcrumbs (self s'))
  /\ _find_trail s' (id trail)
     = match find_by_id (heap s') (id trail) (_completed_trails (self s)) with
       | Some r => Some r
       | None => Some (a, set_status trail final)
       end.
Proof.
  intros Hfind. pose proof (_find_trail_Some _ _ _ _ Hfind) as [Hheap _].
  assert (Hlt : (a < length (heap s))%nat) by (by eapply lookup_lt_Some).
  cbv zeta. unfold finish_trail. rewrite Hfind. cbn [snd heap self _completed_trails
    _active_trails _breadcrumbs _remove_breadcrumb max_concurrent_trails
    _visited_queries].
  split; [done |]. split; [apply elem_of_app; right; by apply list_elem_of_singleton |].
  split.
  { apply (not_in_filter_has_id _ _ _ (set_status trail final));
      [by rewrite list_lookup_insert_eq | done]. }
  split.
  { intros Hin. apply elem_of_difference in Hin as [_ Hin].
    apply Hin. by apply elem_of_singleton. }
  unfold _find_trail. cbn [heap self _active_trails _completed_trails].
  rewrite find_by_id_removed.
  induction (_completed_trails (self s)) as [|b l IH]; simpl.
  - rewrite list_lookup_insert_eq by done. simpl. by rewrite String.eqb_refl.
  - destruct (<[a:=set_status trail final]> (heap s) !! b) as [x|]; [| done].
    by destruct (String.eqb (id x) (id trail)).
Qed.

Lemma start_trail_pending (s : state) (a : nat) (trail : ResearchTrail.t) :
  _find_trail s (id trail) = Some (a, trail) ->
  status trail = TrailStatus.PENDING ->
  let s0 := mkState (<[a := set_status trail TrailStatus.ACTIVE]> (heap s))
              (_add_breadcrumb (self s) (trail_query trail)) in
  start_trail s (id trail) = (true, s0)
  /\ heap s0 !! a = Some (set_status trail TrailStatus.ACTIVE)
  /\ _find_trail s0 (id trail) = Some (a, set_status trail TrailStatus.ACTIVE).
Proof.
  intros Hfind Hpending. pose proof (_find_trail_Some _ _ _ _ Hfind) as [Hheap _].
  assert (Hlt : (a < length (heap s))%nat) by (by eapply lookup_lt_Some).
  cbv zeta. split.
  { unfold start_trail. rewrite Hfind. by rewrite bool_decide_eq_true_2. }
  split; [cbn [heap]; by rewrite list_lookup_insert_eq |].
  by apply (_find_trail_insert s _ a trail).
Qed.

(** [_execute_trail_search] catches what the registry raises: it returns,
    with no finding or with the finding built from the result. *)
Lemma _execute_trail_search_returns (E : env) (trail : ResearchTrail.t) :
  _execute_trail_search E trail = Returned None
  \/ exists result,
       _execute_trail_search E trail
       = Returned (Some
           (Finding.mk (uuid4 E) result
              ("trail_search:" ++ trail_query trail) (now E) (7 # 10)
              [ ("trail_id", PStr (id trail));
                ("trail_query", PStr (trail_query trail)) ])).
Proof.
  unfold _execute_trail_search.
  destruct (get_agent_for_capability E Capability.SEARCHING) as [agent_id|];
    [| by left].
  destruct (invoke_agent_tool E agent_id _) as [result|e]; simpl; [| by left].
  right. by exists result.
Qed.

(** The state after the three statements under [if finding:]. *)
Lemma finding_recorded (s : state) (a : nat) (trail : ResearchTrail.t)
  (f : Finding.t) :
  _find_trail s (id trail) = Some (a, trail) ->
  let recorded :=
    set_budget_allocated (set_findings trail (findings trail ++ [f; f]))
      (ResearchBudget.consume (budget_allocated trail) search_op) in
  let sa :=
    mkState (alter (fun t => set_findings t (findings t ++ [f])) a (heap s))
            (self s) in
  let sb := (add_finding_to_trail sa (id trail) f).2 in
  let sc :=
    mkState
      (alter (fun t => set_budget_allocated t
                         (ResearchBudget.consume (budget_allocated t) search_op))
             a (heap sb))
      (self sb) in
  self sc = self s
  /\ heap sc = <[a := recorded]> (heap s)
  /\ _find_trail sc (id trail) = Some (a, recorded).
Proof.
  intros Hfind. pose proof (_find_trail_Some _ _ _ _ Hfind) as [Hheap _].
  assert (Hlt : (a < length (heap s))%nat) by (by eapply lookup_lt_Some).
  cbv zeta.
  rewrite (heap_alter_insert _ _ _ _ Hheap).
  pose proof (_find_trail_insert s (self s) a trail
                (set_findings trail (findings trail ++ [f])) (id trail)
                Hheap eq_refl eq_refl eq_refl Hfind) as Hfind1.
  unfold add_finding_to_trail. rewrite Hfind1.
  cbn [snd heap self]. rewrite list_insert_insert_eq.
  rewrite (heap_alter_insert _ _ _ (set_findings
             (set_findings trail (findings trail ++ [f]))
             (findings (set_findings trail (findings trail ++ [f])) ++ [f])))
    by (by rewrite list_lookup_insert_eq).
  rewrite list_insert_insert_eq. simpl. rewrite <- app_assoc. simpl.
  split; [done |]. split; [done |].
  by apply (_find_trail_insert s (self s) a trail).
Qed.


(** The trail object after a finding was recorded by [execute_trail]: the
    finding is appended by the engine and again by the manager, the
    budget is charged once. *)
Lemma execute_trail_pending (E : env) (s : state) (a : nat)
  (trail : ResearchTrail.t) :
  _find_trail s (id trail) = Some (a, trail) ->
  status trail = TrailStatus.PENDING ->
  let active := set_status trail TrailStatus.ACTIVE in
  exists (s1 : state) (t1 : ResearchTrail.t) (final : TrailStatus.t),
    execute_trail E s a = (Returned a, (finish_trail s1 (id trail) final).2)
    /\ _find_trail s1 (id trail) = Some (a, t1)
    /\ heap s1 = <[a := t1]> (heap s)
    /\ self s1 = _add_breadcrumb (self s) (trail_query trail)
    /\ id t1 = id trail /\ trail_query t1 = trail_query trail
    /\ ((ResearchBudget.can_afford (budget_allocated trail) search_op = false
         /\ final = TrailStatus.ABANDONED /\ t1 = active)
        \/ (ResearchBudget.can_afford (budget_allocated trail) search_op = true
            /\ final = TrailStatus.COMPLETED
            /\ _execute_trail_search E active = Returned None /\ t1 = active)
        \/ (ResearchBudget.can_afford (budget_allocated trail) search_op = true
            /\ final = TrailStatus.COMPLETED
            /\ exists f, _execute_trail_search E active = Returned (Some f)
                 /\ t1 = set_budget_allocated
                           (set_findings active (findings trail ++ [f; f]))
                           (ResearchBudget.consume (budget_allocated trail)
                              search_op))).
Proof.
  intros Hfind Hpending. cbv zeta.
  pose proof (_find_trail_Some _ _ _ _ Hfind) as [Hheap _].
  assert (Hlt : (a < length (heap s))%nat) by (by eapply lookup_lt_Some).
  destruct (start_trail_pending s a trail Hfind Hpending) as (Hstart & Hheap0 & Hfind0).
  unfold execute_trail. rewrite Hheap, Hstart. cbn [negb]. rewrite Hheap0.
  unfold execute_trail_try.
  change (id (set_status trail TrailStatus.ACTIVE)) with (id trail).
  change (budget_allocated (set_status trail TrailStatus.ACTIVE))
    with (budget_allocated trail).
  destruct (ResearchBudget.can_afford (budget_allocated trail) search_op) eqn:Hafford;
    cbn [negb].
  - destruct (_execute_trail_search_returns E (set_status trail TrailStatus.ACTIVE))
      as [Hnone|[result Hsome]].
    + rewrite Hnone. eexists _, _, _. split; [reflexivity |].
      split; [exact Hfind0 |]. do 4 (split; [done |]). right; left. done.
    + rewrite Hsome.
      match goal with
      | |- context [Some ?x] =>
          match type of x with Finding.t => set (f := x) end
      end.
      destruct (finding_recorded _ a (set_status trail TrailStatus.ACTIVE) f Hfind0)
        as (Hself & Hheapc & Hfindc).
      eexists _, _, _. split; [reflexivity |].
      split; [exact Hfindc |].
      split.
      { etrans; [exact Hheapc |]. cbn [heap].
        by rewrite list_insert_insert_eq. }
      split; [etrans; [exact Hself | done] |].
      do 2 (split; [done |]). right; right.
      split; [done |]. split; [done |]. by exists f.
  - eexists _, _, _. unfold abandon_trail. split; [reflexivity |].
    split; [exact Hfind0 |]. do 4 (split; [done |]). left. done.
Qed.


(** X23.  A search that succeeds, on a pending trail of the manager whose
    budget affords it: the finding built from the result is in the
    trail's findings twice, appended once by [execute_trail] itself and
    once more by [add_finding_to_trail] on the same object; the budget is
    charged for one search; the trail is COMPLETED. *)
Theorem X23_found_finding_is_recorded_twice (E : env) (s : state) (a : nat)
  (trail : ResearchTrail.t) (agent_id result : string) :
  _find_trail s (id trail) = Some (a, trail) ->
  status trail = TrailStatus.PENDING ->
  ResearchBudget.can_afford (budget_allocated trail) search_op = true ->
  get_agent_for_capability E Capability.SEARCHING = Some agent_id ->
  (forall input, invoke_agent_tool E agent_id input = Returned result) ->
  let finding :=
    Finding.mk (uuid4 E) result ("trail_search:" ++ trail_query trail) (now E)
      (7 # 10)
      [ ("trail_id", PStr (id trail)); ("trail_query", PStr (trail_query trail)) ] in
  exists (s' : state) (trail' : ResearchTrail.t),
    execute_trail E s a = (Returned a, s')
    /\ heap s' !! a = Some trail'
    /\ findings trail' = (findings trail ++ [finding; finding])%list
    /\ budget_allocated trail'
       = ResearchBudget.consume (budget_allocated trail) search_op
    /\ ResourceUsage.tokens_used
         (ResearchBudget.current_usage (budget_allocated trail'))
       = ResourceUsage.tokens_used
           (ResearchBudget.current_usage (budget_allocated trail)) + 2000
    /\ status trail' = TrailStatus.COMPLETED.
Proof.
  intros Hfind Hpending Hafford Hagent Hinvoke. cbv zeta.
  pose proof (_find_trail_Some _ _ _ _ Hfind) as [Hheap _].
  assert (Hlt : (a < length (heap s))%nat) by (by eapply lookup_lt_Some).
  destruct (execute_trail_pending E s a trail Hfind Hpending)
    as (s1 & t1 & final & Hexec & Hfind1 & Hheap1 & Hself1 & Hid & Hquery & Hcases).
  assert (Hsearch : _execute_trail_search E (set_status trail TrailStatus.ACTIVE)
            = Returned (Some
                (Finding.mk (uuid4 E) result ("trail_search:" ++ trail_query trail)
                   (now E) (7 # 10)
                   [ ("trail_id", PStr (id trail));
                     ("trail_query", PStr (trail_query trail)) ]))).
  { unfold _execute_trail_search. by rewrite Hagent, Hinvoke. }
  rewrite <- Hid in Hfind1, Hexec.
  destruct (finish_trail_leaves s1 a t1 final Hfind1) as (Hheap' & _).
  destruct Hcases as [(Hno & _)|[(_ & _ & Hnone & _)|(_ & -> & f & Hsome & ->)]];
    [congruence | congruence |].
  rewrite Hsearch in Hsome. injection Hsome as <-.
  eexists _, _. split; [exact Hexec |].
  split.
  { rewrite Hheap', list_lookup_insert_eq
      by (rewrite Hheap1, length_insert; done). reflexivity. }
  done.
Qed.

(** X24.  [execute_trail] does nothing to a trail that cannot be started:
    when the manager does not find the trail's id, or finds a trail that
    is not PENDING, the call returns the trail and the state is as it was.
    So, for a pending trail whose id no completed trail has, a second
    [execute_trail] after the first changes nothing, whatever the
    registries do. *)
Theorem X24_execute_trail_once (E E' : env) (s : state) (a : nat)
  (trail : ResearchTrail.t) :
  heap s !! a = Some trail ->
  ((start_trail s (id trail)).1 = false -> execute_trail E s a = (Returned a, s))
  /\ (_find_trail s (id trail) = Some (a, trail) ->
      status trail = TrailStatus.PENDING ->
      find_by_id (heap s) (id trail) (_completed_trails (self s)) = None ->
      execute_trail E' (execute_trail E s a).2 a
      = (Returned a, (execute_trail E s a).2)).
Proof.
  intros Hheap. split.
  { intros Hnot. unfold execute_trail. rewrite Hheap.
    assert (Hsame : (start_trail s (id trail)).2 = s).
    { revert Hnot. unfold start_trail.
      destruct (_find_trail s (id trail)) as [[b t]|]; [| done].
      by destruct (negb _). }
    destruct (start_trail s (id trail)) as [started s0]. simpl in *.
    by rewrite Hnot, Hsame. }
  intros Hfind Hpending Hfresh.
  assert (Hlt : (a < length (heap s))%nat) by (by eapply lookup_lt_Some).
  destruct (execute_trail_pending E s a trail Hfind Hpending)
    as (s1 & t1 & final & Hexec & Hfind1 & Hheap1 & Hself1 & Hid & Hquery & Hcases).
  assert (Hfinal : final <> TrailStatus.PENDING).
  { by destruct Hcases as [(_ & -> & _)|[(_ & -> & _)|(_ & -> & _)]]. }
  rewrite <- Hid in Hfind1, Hexec.
  destruct (finish_trail_leaves s1 a t1 final Hfind1)
    as (Hheap' & _ & _ & _ & Hfind').
  rewrite Hexec. cbn [snd].
  set (s' := (finish_trail s1 (id t1) final).2) in *.
  assert (Hcompleted : _completed_trails (self s1) = _completed_trails (self s))
    by (by rewrite Hself1).
  rewrite Hcompleted, Hheap', Hheap1, list_insert_insert_eq in Hfind'.
  rewrite (find_by_id_insert _ _ trail _ _ _ Hheap) in Hfind' by (by rewrite <- Hid).
  rewrite Hid, Hfresh in Hfind'. simpl in Hfind'.
  assert (Hat : heap s' !! a = Some (set_status t1 final)).
  { rewrite Hheap', list_lookup_insert_eq
      by (rewrite Hheap1, length_insert; done). done. }
  unfold execute_trail. rewrite Hat.
  change (id (set_status t1 final)) with (id t1). rewrite Hid.
  unfold start_trail. rewrite Hfind'. simpl.
  by rewrite bool_decide_eq_false_2.
Qed.


End ExecutionExtras.
(** ** ResearchCoordinator *)

Section CoordinatorProperties.

Import ResearchCoordinator.

Lemma start_trail_heap_length (s : TrailManager.state) (trail_id : string) :
  length (TrailManager.heap (TrailManager.start_trail s trail_id).2)
  = length (TrailManager.heap s).
Proof.
  unfold TrailManager.start_trail.
  destruct (TrailManager._find_trail s trail_id) as [[a t]|]; [| done].
  destruct (negb _); [done |]. simpl. by rewrite length_insert.
Qed.

Lemma finish_trail_heap_length (s : TrailManager.state) (trail_id : string)
  (final : TrailStatus.t) :
  length (TrailManager.heap (TrailManager.finish_trail s trail_id final).2)
  = length (TrailManager.heap s).
Proof.
  unfold TrailManager.finish_trail.
  destruct (TrailManager._find_trail s trail_id) as [[a t]|]; [| done].
  simpl. by rewrite length_insert.
Qed.

Lemma add_finding_heap_length (s : TrailManager.state) (trail_id : string)
  (f : Finding.t) :
  length (TrailManager.heap (TrailManager.add_finding_to_trail s trail_id f).2)
  = length (TrailManager.heap s).
Proof.
  unfold TrailManager.add_finding_to_trail.
  destruct (TrailManager._find_trail s trail_id) as [[a t]|]; [| done].
  simpl. by rewrite length_insert.
Qed.

(** [execute_trail] returns the trail it was given, whatever happens
    inside, and creates no trail object. *)
Lemma execute_trail_returns (E : TrailExecutionEngine.env)
  (s : TrailManager.state) (a : nat) :
  (a < length (TrailManager.heap s))%nat ->
  (TrailExecutionEngine.execute_trail E s a).1 = Returned a
  /\ length (TrailManager.heap (TrailExecutionEngine.execute_trail E s a).2)
     = length (TrailManager.heap s).
Proof.
  intros Hlt. unfold TrailExecutionEngine.execute_trail.
  destruct (TrailManager.heap s !! a) as [trail|] eqn:Ha;
    [| apply lookup_ge_None in Ha; lia].
  pose proof (start_trail_heap_length s (ResearchTrail.id trail)) as Hstart.
  destruct (TrailManager.start_trail s (ResearchTrail.id trail)) as [started s0].
  simpl in Hstart. destruct started; simpl; [| done].
  destruct (TrailManager.heap s0 !! a) as [trail0|] eqn:Ha0;
    [| apply lookup_ge_None in Ha0; lia].
  unfold TrailExecutionEngine.execute_trail_try.
  destruct (negb _).
  { simpl. unfold TrailManager.abandon_trail.
    by rewrite finish_trail_heap_length. }
  destruct (_execute_trail_search_returns E trail0) as [->|[result ->]];
    cbn [fst snd]; unfold TrailManager.complete_trail;
    rewrite finish_trail_heap_length; [done |].
  cbn [TrailManager.heap].
  rewrite length_alter, add_finding_heap_length. cbn [TrailManager.heap].
  by rewrite length_alter.
Qed.

Lemma create_trail_heap_length (s : TrailManager.state) (trail_query : string)
  (relevance_score : Q) (b : ResearchBudget.t) (origin : option string)
  (uuid : string) :
  let r := TrailManager.create_trail s trail_query relevance_score b origin uuid in
  match r.1 with
  | Some a =>
      a = length (TrailManager.heap s)
      /\ length (TrailManager.heap r.2) = S (length (TrailManager.heap s))
  | None => r.2 = s
  end.
Proof.
  cbv zeta. unfold TrailManager.create_trail.
  destruct (TrailManager._would_create_loop _ _); [done |].
  destruct (bool_decide _); [done |].
  destruct (_ >=? _); [done |].
  simpl. rewrite length_app. simpl. split; [done | lia].
Qed.

Lemma decrement_increment_trail_depth (b : ResearchBudget.t) :
  0 <= ResearchBudget.trail_depth b ->
  ResearchBudget.decrement_trail_depth (ResearchBudget.increment_trail_depth b) = b.
Proof.
  intros Hdepth.
  unfold ResearchBudget.decrement_trail_depth, ResearchBudget.increment_trail_depth.
  simpl. replace (_ >? 0) with true by (symmetry; lia).
  destruct b as [mt ms mc md u depth]. unfold ResearchBudget.set_trail_depth.
  simpl. f_equal. lia.
Qed.

Lemma same_resources_depth (b : ResearchBudget.t) :
  same_resources b
    (ResearchBudget.decrement_trail_depth (ResearchBudget.increment_trail_depth b)).
Proof.
  unfold ResearchBudget.decrement_trail_depth, ResearchBudget.increment_trail_depth.
  simpl. by destruct (_ >? 0).
Qed.

Lemma view_add_findings_spec (W : world) (c : context_view)
  (fs : list Finding.t) (k : nat) :
  view_findings (view_add_findings W c fs k).1 = (view_findings c ++ fs)%list
  /\ view_research_trails (view_add_findings W c fs k).1 = view_research_trails c
  /\ view_query (view_add_findings W c fs k).1 = view_query c.
Proof.
  revert c k. induction fs as [|f fs IH]; intros c k; simpl.
  - by rewrite app_nil_r.
  - destruct (IH (view_add_finding c f (now W k)) (S k)) as (-> & -> & ->).
    simpl. by rewrite <- app_assoc.
Qed.

Lemma trail_loop_budget (W : world) (suggestions : list ResearchTrailSuggestion.t)
  (st : state) :
  let r := trail_loop W suggestions st in
  r.1 = Returned tt
  /\ same_resources (budget st) (budget r.2)
  /\ (0 <= ResearchBudget.trail_depth (budget st) -> budget r.2 = budget st)
  /\ (length (TrailManager.heap (trail_manager r.2))
      <= length (TrailManager.heap (trail_manager st)) + length suggestions)%nat
  /\ (length (TrailManager.heap (trail_manager st))
      <= length (TrailManager.heap (trail_manager r.2)))%nat
  /\ view_findings (context st) `prefix_of` view_findings (context r.2)
  /\ view_research_trails (context st)
     `prefix_of` view_research_trails (context r.2)
  /\ view_query (context r.2) = view_query (context st)
  /\ trail_discovery r.2 = trail_discovery st.
Proof.
  cbv zeta. revert st. induction suggestions as [|suggestion rest IH]; intros st.
  { simpl. unfold same_resources. repeat split; try done; lia. }
  simpl. destruct (negb _).
  { simpl. unfold same_resources. repeat split; try done; lia. }
  pose proof (create_trail_heap_length (trail_manager st)
    (ResearchTrailSuggestion.trail_query suggestion)
    (ResearchTrailSuggestion.relevance_score suggestion)
    (ResearchBudget.allocate_for_trail (budget st) (15 # 100)) None
    (uuid4 W (uuids (drawn st)))) as Hcreate.
  cbv zeta in Hcreate.
  destruct (TrailManager.create_trail _ _ _ _ _ _) as [[a|] manager1];
    simpl in Hcreate.
  - destruct Hcreate as [-> Hlen1].
    pose proof (execute_trail_returns
      (TrailExecutionEngine.mkEnv (get_agent_for_capability W)
         (invoke_agent_tool W) (uuid4 W (S (uuids (drawn st))))
         (now W (S (clock (drawn st)))))
      manager1 (length (TrailManager.heap (trail_manager st))))
      as [Hret Hlen2]; [lia |].
    destruct (TrailExecutionEngine.execute_trail _ manager1 _)
      as [[r|e] manager2]; simpl in Hret, Hlen2; [| done].
    match goal with
    | |- context [view_add_findings W ?c ?fs ?k] =>
        pose proof (view_add_findings_spec W c fs k) as (Hf & Ht & Hq);
        destruct (view_add_findings W c fs k) as [context2 clock2]
    end.
    simpl in Hf, Ht, Hq.
    match goal with
    | |- context [trail_loop W rest ?st'] =>
        destruct (IH st') as (H1 & H2 & H3 & H4 & H5 & H6 & H7 & H8 & H9)
    end.
    simpl in H2, H3, H4, H5, H6, H7, H8, H9.
    split; [done |]. split.
    { pose proof (same_resources_depth (budget st)) as Hsame.
      unfold same_resources in *. intuition congruence. }
    split.
    { intros Hdepth.
      rewrite (decrement_increment_trail_depth _ Hdepth) in H3 |- *.
      by apply H3. }
    split; [lia |]. split; [lia |].
    split; [etrans; [| exact H6]; rewrite Hf; by apply prefix_app_r |].
    split; [etrans; [| exact H7]; rewrite Ht; by apply prefix_app_r |].
    split; [by rewrite H8, Hq |]. done.
  - subst manager1.
    match goal with
    | |- context [trail_loop W rest ?st'] =>
        destruct (IH st') as (H1 & H2 & H3 & H4 & H5 & H6 & H7 & H8 & H9)
    end.
    simpl in H2, H3, H4, H5, H6, H7, H8, H9.
    split; [done |]. split.
    { pose proof (same_resources_depth (budget st)) as Hsame.
      unfold same_resources in *. intuition congruence. }
    split.
    { intros Hdepth.
      rewrite (decrement_increment_trail_depth _ Hdepth) in H3 |- *.
      by apply H3. }
    split; [lia |]. done.
Qed.

(** X26.  [_follow_trails] returns without raising, whatever the agents
    do.  It leaves the caps and the usage of the budget it was given as
    they were: what the trails consume is charged to their own budgets
    only.  When the trail depth is not negative the whole budget is as
    before, the depth being raised for each trail and lowered after it.
    At most two trail objects are created, and the findings and the
    trails that the context had stay at the front of its lists. *)
Theorem X26_follow_trails_restores_the_budget (W : world) (st : state) :
  let r := _follow_trails W st in
  r.1 = Returned tt
  /\ ResearchBudget.current_usage (budget r.2)
     = ResearchBudget.current_usage (budget st)
  /\ ResearchBudget.remaining (budget r.2) = ResearchBudget.remaining (budget st)
  /\ (0 <= ResearchBudget.trail_depth (budget st) -> budget r.2 = budget st)
  /\ (length (TrailManager.heap (trail_manager st))
      <= length (TrailManager.heap (trail_manager r.2))
      <= length (TrailManager.heap (trail_manager st)) + 2)%nat
  /\ view_findings (context st) `prefix_of` view_findings (context r.2)
  /\ view_research_trails (context st)
     `prefix_of` view_research_trails (context r.2).
Proof.
  cbv zeta. unfold _follow_trails.
  assert (Hshort : (length (TrailDiscovery.discover_trails (trail_discovery st)
                      (view_query (context st)) (view_findings (context st)) 2).1
                    <= 2)%nat).
  { unfold TrailDiscovery.discover_trails.
    destruct (view_findings (context st)); simpl; [lia |].
    match goal with
    | |- context [py_take 2 ?l] =>
        pose proof (proj1 (py_take_length 2 l)) as Hlen
    end.
    lia. }
  destruct (TrailDiscovery.discover_trails _ _ _ _) as [suggestions discovery].
  simpl in Hshort.
  match goal with
  | |- context [trail_loop W suggestions ?st'] =>
      destruct (trail_loop_budget W suggestions st')
        as (H1 & H2 & H3 & H4 & H5 & H6 & H7 & _)
  end.
  simpl in H2, H3, H4, H5, H6, H7.
  destruct H2 as (Ha & Hb & Hc & Hd & He).
  split; [done |]. split; [done |].
  split; [unfold ResearchBudget.remaining; by rewrite Ha, Hb, Hc, He |].
  split; [done |]. split; [lia |]. done.
Qed.

Lemma can_afford_search (b : ResearchBudget.t) :
  ResearchBudget.can_afford b search_operation = true ->
  ResourceUsage.tokens_used (ResearchBudget.current_usage b) + 2000
  <= ResearchBudget.max_tokens b
  /\ ResourceUsage.api_calls (ResearchBudget.current_usage b) + 1
     <= ResearchBudget.max_api_calls b.
Proof.
  unfold ResearchBudget.can_afford. simpl.
  destruct (_ + 2000 >? _) eqn:Ht; [done |].
  destruct (_ + 1 >? _) eqn:Hc; [done |]. lia.
Qed.

Lemma search_loop_accounting (W : world) (searches : list WebSearchItem)
  (context : ResearchContext.t) (b : ResearchBudget.t) (d : draws) :
  exists added : list Finding.t,
    let r := search_loop W searches context b d in
    ResearchContext.findings r.1.1 = (ResearchContext.findings context ++ added)%list
    /\ (length added <= length searches)%nat
    /\ ResourceUsage.tokens_used (ResearchBudget.current_usage r.1.2)
       = ResourceUsage.tokens_used (ResearchBudget.current_usage b)
         + 2000 * Z.of_nat (length added)
    /\ ResourceUsage.api_calls (ResearchBudget.current_usage r.1.2)
       = ResourceUsage.api_calls (ResearchBudget.current_usage b)
         + Z.of_nat (length added)
    /\ (ResourceUsage.time_seconds (ResearchBudget.current_usage r.1.2)
        == ResourceUsage.time_seconds (ResearchBudget.current_usage b))%Q
    /\ ResearchBudget.max_tokens r.1.2 = ResearchBudget.max_tokens b
    /\ ResearchBudget.max_api_calls r.1.2 = ResearchBudget.max_api_calls b
    /\ ResearchBudget.max_time_seconds r.1.2 = ResearchBudget.max_time_seconds b
    /\ ResearchBudget.trail_depth r.1.2 = ResearchBudget.trail_depth b
    /\ (added <> [] ->
        ResourceUsage.tokens_used (ResearchBudget.current_usage r.1.2)
        <= ResearchBudget.max_tokens b
        /\ ResourceUsage.api_calls (ResearchBudget.current_usage r.1.2)
           <= ResearchBudget.max_api_calls b)
    /\ Forall (fun f => Finding.confidence f = (8 # 10)%Q) added
    /\ ResearchContext.query r.1.1 = ResearchContext.query context
    /\ ResearchContext.state r.1.1 = ResearchContext.state context.
Proof.
  revert context b d. induction searches as [|search_item rest IH];
    intros context b d.
  { exists []. simpl. rewrite app_nil_r.
    repeat split; try done; try lia; reflexivity. }
  simpl. destruct (ResearchBudget.can_afford b search_operation) eqn:Hafford;
    simpl.
  2: { exists []. simpl. rewrite app_nil_r.
       repeat split; try done; try lia; reflexivity. }
  apply can_afford_search in Hafford as [Htokens Hcalls].
  destruct (run_search_agent W _) as [result|e].
  - match goal with
    | |- context [search_loop W rest ?c ?b' ?d'] =>
        destruct (IH c b' d') as (added & IHadded)
    end.
    cbv zeta in IHadded. simpl in IHadded.
    destruct IHadded as (Hf & Hlen & Ht & Hc & Htime & Hmt & Hmc & Hms & Hdepth
                         & Hbound & Hconf & Hq & Hs).
    match type of Hf with
    | _ = ((_ ++ [?f]) ++ _)%list => exists (f :: added)
    end.
    cbv zeta. simpl.
    split; [by rewrite Hf, <- app_assoc |]. split; [lia |].
    split; [lia |]. split; [lia |].
    split; [rewrite Htime; ring |].
    do 4 (split; [done |]).
    split.
    { intros _. destruct added as [|f' added'].
      - simpl in Ht, Hc. lia.
      - destruct Hbound as [? ?]; [done |]. lia. }
    split; [by constructor |]. done.
  - destruct (IH context b d) as (added & IHadded).
    exists added. cbv zeta in *. intuition lia.
Qed.

(** X27.  What [_execute_searches] adds up to.  It appends at most five
    findings to the context, never more than there are planned searches,
    and leaves the findings the context had in front of them; every such
    finding has the confidence 0.8.  The budget is charged 2000 tokens
    and one API call for each finding added and nothing for a search
    that failed; the time used, the caps and the trail depth stay.  When
    a finding was added, the usage after the call is within the token cap
    and the API call cap. *)
Theorem X27_execute_searches_accounting (W : world)
  (searches : list WebSearchItem) (context : ResearchContext.t)
  (b : ResearchBudget.t) (d : draws) :
  exists added : list Finding.t,
    let r := _execute_searches W searches context b d in
    ResearchContext.findings r.1.1 = (ResearchContext.findings context ++ added)%list
    /\ (length added <= 5)%nat
    /\ (length added <= length searches)%nat
    /\ Forall (fun f => Finding.confidence f = (8 # 10)%Q) added
    /\ ResearchBudget.current_usage r.1.2
       = ResourceUsage.mk
           (ResourceUsage.tokens_used (ResearchBudget.current_usage b)
            + 2000 * Z.of_nat (length added))
           (ResourceUsage.api_calls (ResearchBudget.current_usage b)
            + Z.of_nat (length added))
           (ResourceUsage.time_seconds (ResearchBudget.current_usage r.1.2))
    /\ (ResourceUsage.time_seconds (ResearchBudget.current_usage r.1.2)
        == ResourceUsage.time_seconds (ResearchBudget.current_usage b))%Q
    /\ ResearchBudget.max_tokens r.1.2 = ResearchBudget.max_tokens b
    /\ ResearchBudget.max_api_calls r.1.2 = ResearchBudget.max_api_calls b
    /\ ResearchBudget.max_time_seconds r.1.2 = ResearchBudget.max_time_seconds b
    /\ ResearchBudget.trail_depth r.1.2 = ResearchBudget.trail_depth b
    /\ (added <> [] ->
        ResourceUsage.tokens_used (ResearchBudget.current_usage r.1.2)
        <= ResearchBudget.max_tokens b
        /\ ResourceUsage.api_calls (ResearchBudget.current_usage r.1.2)
           <= ResearchBudget.max_api_calls b).
Proof.
  unfold _execute_searches.
  destruct (search_loop_accounting W (py_take 5 searches) context b d)
    as (added & H).
  cbv zeta in H.
  destruct H as (Hf & Hlen & Ht & Hc & Htime & Hmt & Hmc & Hms & Hdepth
                 & Hbound & Hconf & _).
  exists added. cbv zeta.
  assert (Htake : (length (py_take 5 searches) <= 5
                   /\ length (py_take 5 searches) <= length searches)%nat).
  { unfold py_take. simpl. rewrite length_take. lia. }
  split; [done |]. split; [lia |]. split; [lia |]. split; [done |].
  split.
  { destruct (ResearchBudget.current_usage _) as [tu ac ts]. simpl in *.
    by rewrite Ht, Hc. }
  done.
Qed.

End CoordinatorProperties.
(** ** AgentRegistry *)

Section RegistryProperties.

Import AgentRegistry.

Lemma map_set_eq (m : Capability.t -> list string) (c : Capability.t)
  (l : list string) : map_set m c l c = l.
Proof. unfold map_set. by rewrite decide_True. Qed.

Lemma map_set_ne (m : Capability.t -> list string) (c c' : Capability.t)
  (l : list string) : c' <> c -> map_set m c l c' = m c'.
Proof. intros Hne. unfold map_set. by rewrite decide_False. Qed.

(** The capability map after the loop of [register_agent]. *)
Lemma register_map (agent_id : string) (capabilities : list Capability.t)
  (m : Capability.t -> list string) (c : Capability.t) :
  foldl
    (fun m capability =>
       if bool_decide (agent_id ∈ m capability) then m
       else map_set m capability (m capability ++ [agent_id]))
    m capabilities c
  = if bool_decide (c ∈ capabilities) && negb (bool_decide (agent_id ∈ m c))
    then (m c ++ [agent_id])%list else m c.
Proof.
  revert m. induction capabilities as [|cap caps IH]; intros m; simpl; [done |].
  rewrite IH. clear IH.
  destruct (decide (c = cap)) as [->|Hne].
  - rewrite (bool_decide_eq_true_2 (cap ∈ cap :: caps)) by (apply elem_of_cons; by left).
    simpl. destruct (bool_decide (agent_id ∈ m cap)) eqn:Hin; simpl.
    + by rewrite Hin, andb_false_r.
    + rewrite map_set_eq.
      rewrite (bool_decide_eq_true_2 (agent_id ∈ (m cap ++ [agent_id])%list))
        by (apply elem_of_app; right; by apply list_elem_of_singleton).
      by rewrite andb_false_r.
  - assert (Hsame : (if bool_decide (agent_id ∈ m cap) then m
                     else map_set m cap (m cap ++ [agent_id])) c = m c).
    { destruct (bool_decide _); [done | by apply map_set_ne]. }
    rewrite Hsame.
    assert (Hmem : bool_decide (c ∈ cap :: caps) = bool_decide (c ∈ caps)).
    { apply bool_decide_ext. rewrite elem_of_cons.
      split; [intros [?|?]; done | intros ?; by right]. }
    by rewrite Hmem.
Qed.

Lemma list_remove_notin (x : string) (l : list string) :
  x ∉ l -> list_remove x l = l.
Proof.
  induction l as [|y l IH]; intros Hx; simpl; [done |].
  apply not_elem_of_cons in Hx as [Hne Hx].
  destruct (String.eqb_spec y x) as [->|_]; [done |]. by rewrite IH.
Qed.

Lemma list_remove_NoDup (x : string) (l : list string) :
  NoDup l ->
  NoDup (list_remove x l)
  /\ forall y, y ∈ list_remove x l <-> y ∈ l /\ y <> x.
Proof.
  induction 1 as [|y l Hy Hl IH]; simpl.
  { split; [constructor |]. intros y. rewrite elem_of_nil. tauto. }
  destruct IH as [IHdup IHin].
  destruct (String.eqb_spec y x) as [->|Hne].
  - split; [done |]. intros z. rewrite elem_of_cons.
    split; [intros Hz; split; [by right | by intros ->] | intros [[->|Hz] Hzx]; done].
  - split.
    + constructor; [| done]. rewrite IHin. tauto.
    + intros z. rewrite !elem_of_cons, IHin.
      split; [intros [->|[Hz Hzx]]; [by split; [left |] | by split; [right |]]
             | intros [[->|Hz] Hzx]; [by left | by right]].
Qed.

(** The capability map after the loop of [unregister_agent]. *)
Lemma unregister_map (agent_id : string) (capabilities : list Capability.t)
  (m : Capability.t -> list string) (c : Capability.t) :
  NoDup (m c) ->
  foldl
    (fun m capability =>
       if bool_decide (agent_id ∈ m capability)
       then map_set m capability (list_remove agent_id (m capability))
       else m)
    m capabilities c
  = if bool_decide (c ∈ capabilities) then list_remove agent_id (m c) else m c.
Proof.
  revert m. induction capabilities as [|cap caps IH]; intros m Hdup; simpl; [done |].
  destruct (decide (c = cap)) as [->|Hne].
  - rewrite (bool_decide_eq_true_2 (cap ∈ cap :: caps)) by (apply elem_of_cons; by left).
    destruct (bool_decide (agent_id ∈ m cap)) eqn:Hin.
    + rewrite IH; rewrite map_set_eq.
      * destruct (bool_decide (cap ∈ caps)); [| done].
        apply list_remove_notin. rewrite (proj2 (list_remove_NoDup _ _ Hdup)).
        tauto.
      * apply list_remove_NoDup, Hdup.
    + apply bool_decide_eq_false in Hin. rewrite IH by done.
      rewrite (list_remove_notin _ _ Hin). by destruct (bool_decide _).
  - assert (Hmem : bool_decide (c ∈ cap :: caps) = bool_decide (c ∈ caps)).
    { apply bool_decide_ext. rewrite elem_of_cons.
      split; [intros [?|?]; done | intros ?; by right]. }
    rewrite Hmem.
    destruct (bool_decide (agent_id ∈ m cap)).
    + rewrite IH by (by rewrite map_set_ne). by rewrite map_set_ne.
    + by apply IH.
Qed.

Lemma truediv_share (a b : Z) :
  0 <= a -> 0 <= b -> a + b <> 0 -> (0 <= py_truediv a (a + b) <= 1)%Q.
Proof.
  intros Ha Hb Hne. unfold py_truediv.
  assert (Hpos : (0 < inject_Z (a + b))%Q).
  { change 0%Q with (inject_Z 0). rewrite <- Zlt_Qlt. lia. }
  split.
  - apply Qle_shift_div_l; [done |]. rewrite Qmult_0_l.
    change 0%Q with (inject_Z 0). rewrite <- Zle_Qle. lia.
  - apply Qle_shift_div_r; [done |]. rewrite Qmult_1_l.
    rewrite <- Zle_Qle. lia.
Qed.

(** X28.  [invoke_agent_tool] and the counters.  An id that is not
    registered raises [ValueError] and an agent that is not available
    raises [RuntimeError], the registry staying as it was.  Otherwise the
    call gives what the run gives, an exception being raised again, and
    counts it: exactly one of [call_count] and [failure_count] of that
    agent goes up by one, the call count for a result and the failure
    count for an exception.  No other agent and no entry of the
    capability map changes.  With counters that are not negative the
    success rate lies between 0 and 1, and it is 1 for an agent that was
    never invoked. *)
Theorem X28_invoke_agent_tool_counts
  (run : string -> string -> option Q -> outcome string)
  (self : AgentRegistry.t) (agent_id : string) (input_data : string)
  (timeout : option Q) :
  let r := invoke_agent_tool run self agent_id input_data timeout in
  (_agents self !! agent_id = None ->
   r = (Raised (ValueError ("Agent " ++ agent_id ++ " not found in registry")),
        self))
  /\ (forall info, _agents self !! agent_id = Some info ->
        AgentInfo.is_available info = false ->
        r = (Raised (RuntimeError ("Agent " ++ agent_id ++ " is not available")),
             self))
  /\ (forall info, _agents self !! agent_id = Some info ->
        AgentInfo.is_available info = true ->
        exists info',
          _agents r.2 !! agent_id = Some info'
          /\ (exists t, r.1 = run (AgentInfo.agent info) input_data t)
          /\ match r.1 with
             | Returned _ =>
                 AgentInfo.call_count info' = AgentInfo.call_count info + 1
                 /\ AgentInfo.failure_count info' = AgentInfo.failure_count info
             | Raised _ =>
                 AgentInfo.call_count info' = AgentInfo.call_count info
                 /\ AgentInfo.failure_count info'
                    = AgentInfo.failure_count info + 1
             end
          /\ AgentInfo.is_available info' = true
          /\ AgentInfo.capabilities info' = AgentInfo.capabilities info
          /\ (0 <= AgentInfo.call_count info ->
              0 <= AgentInfo.failure_count info ->
              (0 <= AgentInfo.success_rate info' <= 1)%Q))
  /\ _capability_map r.2 = _capability_map self
  /\ (forall other, other <> agent_id ->
        _agents r.2 !! other = _agents self !! other)
  /\ (forall agent capabilities description,
        AgentInfo.success_rate
          (AgentInfo.mk agent_id agent capabilities description true 0 0) = 1%Q).
Proof.
  cbv zeta. unfold invoke_agent_tool, get_agent.
  destruct (_agents self !! agent_id) as [info|] eqn:Hinfo.
  2: { repeat split; try done. }
  destruct (AgentInfo.is_available info) eqn:Havailable; simpl.
  2: { split; [done |]. split; [by intros ? [= <-] _ |].
       split; [intros ? [= <-]; congruence |]. done. }
  split; [done |]. split; [intros ? [= <-]; congruence |].
  split.
  { intros ? [= <-] _.
    destruct (run (AgentInfo.agent info) input_data _) as [out|e] eqn:Hrun;
      simpl; rewrite lookup_insert_eq; eexists; (split; [reflexivity |]);
      (split; [eexists; by rewrite Hrun |]); simpl;
      (split; [done |]); (split; [done |]); (split; [done |]);
      intros Hc Hf; unfold AgentInfo.success_rate; simpl.
    - replace (_ =? 0) with false by (symmetry; lia).
      replace (AgentInfo.call_count info + 1 + AgentInfo.failure_count info)
        with ((AgentInfo.call_count info + 1) + AgentInfo.failure_count info)
        by lia.
      apply truediv_share; lia.
    - replace (_ =? 0) with false by (symmetry; lia).
      apply truediv_share; lia. }
  split; [by destruct (run _ _ _) |].
  split; [| done].
  intros other Hother.
  destruct (run _ _ _); simpl; by rewrite lookup_insert_ne.
Qed.

Lemma available_agents_registered (self : AgentRegistry.t)
  (agent_ids : list string) :
  (forall aid, aid ∈ agent_ids -> is_Some (_agents self !! aid)) ->
  exists l,
    available_agents self agent_ids = Returned l
    /\ forall info, info ∈ l <->
         exists aid, aid ∈ agent_ids /\ _agents self !! aid = Some info
                     /\ AgentInfo.is_available info = true.
Proof.
  induction agent_ids as [|aid rest IH]; intros Hreg; simpl.
  { exists []. split; [done |]. intros info. rewrite elem_of_nil.
    split; [done |]. intros (aid & Haid & _). by apply elem_of_nil in Haid. }
  destruct (Hreg aid) as [info Hinfo]; [apply elem_of_cons; by left |].
  rewrite Hinfo.
  destruct IH as (l & -> & Hl).
  { intros a Ha. apply Hreg, elem_of_cons. by right. }
  simpl. eexists. split; [reflexivity |].
  intros x. destruct (AgentInfo.is_available info) eqn:Hav.
  - rewrite elem_of_cons, Hl. split.
    + intros [->|(a & Ha & Hx & Hxa)].
      * exists aid. split; [apply elem_of_cons; by left | done].
      * exists a. split; [apply elem_of_cons; by right | done].
    + intros (a & Ha & Hx & Hxa). apply elem_of_cons in Ha as [->|Ha].
      * left. congruence.
      * right. by exists a.
  - rewrite Hl. split.
    + intros (a & Ha & Hx & Hxa).
      exists a. split; [apply elem_of_cons; by right | done].
    + intros (a & Ha & Hx & Hxa). apply elem_of_cons in Ha as [->|Ha].
      * congruence.
      * by exists a.
Qed.

Lemma sort_desc_head {A} (key : A -> Q) (l : list A) :
  l <> [] ->
  exists best, head (sort_desc key l) = Some best
               /\ best ∈ l /\ forall x, x ∈ l -> (key x <= key best)%Q.
Proof.
  intros Hne. pose proof (sort_desc_perm key l) as Hperm.
  pose proof (sort_desc_descending key l) as Hdesc.
  destruct (sort_desc key l) as [|best sorted] eqn:Hsorted.
  { apply Permutation_nil_l in Hperm. by subst. }
  exists best. split; [done |]. split.
  { rewrite <- Hperm. apply elem_of_cons. by left. }
  intros x Hx. rewrite <- Hperm in Hx.
  apply elem_of_cons in Hx as [->|Hx]; [apply Qle_refl |].
  apply list_elem_of_lookup in Hx as [j Hj].
  by apply (Hdesc 0%nat (S j) best x); [lia | |].
Qed.

(** X29.  [get_agent_for_capability] on a registry whose capability map
    lists registered agents only: the call does not raise; it returns
    [None] exactly when no agent listed for the capability is available;
    an agent it returns is available, is listed for the capability and
    declares it, and no available agent listed for the capability has a
    higher success rate. *)
Theorem X29_get_agent_for_capability_choice (self : AgentRegistry.t)
  (capability : Capability.t) :
  well_mapped self ->
  exists res,
    get_agent_for_capability self capability = Returned res
    /\ (res = None <->
        forall aid info, aid ∈ _capability_map self capability ->
          _agents self !! aid = Some info -> AgentInfo.is_available info = false)
    /\ forall best, res = Some best ->
         AgentInfo.is_available best = true
         /\ capability ∈ AgentInfo.capabilities best
         /\ (exists aid, aid ∈ _capability_map self capability
                         /\ _agents self !! aid = Some best)
         /\ forall aid info, aid ∈ _capability_map self capability ->
              _agents self !! aid = Some info ->
              AgentInfo.is_available info = true ->
              (AgentInfo.success_rate info <= AgentInfo.success_rate best)%Q.
Proof.
  intros Hmapped. unfold get_agent_for_capability.
  destruct (Hmapped capability) as [_ Hlisted].
  destruct (available_agents_registered self (_capability_map self capability))
    as (l & Havailable & Hl).
  { intros aid Haid. destruct (Hlisted aid Haid) as (info & -> & _). done. }
  destruct (_capability_map self capability) as [|aid0 ids] eqn:Hids.
  { exists None. split; [done |]. split; [| done].
    split; [| done]. intros _ aid info Haid. by apply elem_of_nil in Haid. }
  rewrite Havailable. simpl.
  destruct l as [|x l'] eqn:El.
  { exists None. split; [done |]. split; [| done]. split; [| done].
    intros _ aid info Haid Hinfo.
    destruct (AgentInfo.is_available info) eqn:Hav; [| done].
    assert (Hin : info ∈ @nil AgentInfo.t) by (apply Hl; by exists aid).
    by apply elem_of_nil in Hin. }
  destruct (sort_desc_head AgentInfo.success_rate (x :: l')) as (best & Hhead & Hbest & Hmax);
    [done |].
  exists (Some best). split; [by rewrite Hhead |]. split.
  { split; [done |]. intros Hnone.
    apply Hl in Hbest as (aid & Haid & Hinfo & Hav).
    rewrite (Hnone aid best Haid Hinfo) in Hav. done. }
  intros ? [= <-].
  pose proof Hbest as Hbest'.
  apply Hl in Hbest' as (aid & Haid & Hinfo & Hav).
  split; [done |]. split.
  { destruct (Hlisted aid Haid) as (info & Hinfo' & Hcap). congruence. }
  split; [by exists aid |].
  intros a info Ha Hi Hv. apply Hmax, Hl. by exists a.
Qed.

Lemma available_agents_missing (self : AgentRegistry.t)
  (agent_ids : list string) (agent_id : string) :
  agent_id ∈ agent_ids ->
  _agents self !! agent_id = None ->
  (forall aid, aid ∈ agent_ids -> aid <> agent_id ->
     is_Some (_agents self !! aid)) ->
  available_agents self agent_ids = Raised (KeyError agent_id).
Proof.
  induction agent_ids as [|aid rest IH]; intros Hin Hnone Hothers;
    [by apply elem_of_nil in Hin |].
  simpl. destruct (decide (aid = agent_id)) as [->|Hne].
  { by rewrite Hnone. }
  destruct (Hothers aid) as [info ->]; [apply elem_of_cons; by left | done |].
  apply elem_of_cons in Hin as [->|Hin]; [done |].
  rewrite IH; [done | done | done |].
  intros a Ha. apply Hothers, elem_of_cons. by right.
Qed.

Lemma register_agent_well_mapped (self : AgentRegistry.t) (agent_id agent : string)
  (capabilities : list Capability.t) (description : string) :
  well_mapped self ->
  (forall info, _agents self !! agent_id = Some info ->
     forall c, c ∈ AgentInfo.capabilities info -> c ∈ capabilities) ->
  well_mapped (register_agent self agent_id agent capabilities description).
Proof.
  intros Hmapped Hgrow c. destruct (Hmapped c) as [Hdup Hlisted].
  unfold register_agent. cbn [_capability_map _agents]. rewrite register_map.
  destruct (bool_decide (c ∈ capabilities)) eqn:Hc; simpl.
  - destruct (bool_decide (agent_id ∈ _capability_map self c)) eqn:Hin; simpl.
    + apply bool_decide_eq_true in Hc, Hin. split; [done |].
      intros aid Haid. destruct (decide (aid = agent_id)) as [->|Hne].
      * rewrite lookup_insert_eq. eexists. split; [done |]. done.
      * rewrite lookup_insert_ne by done. by apply Hlisted.
    + apply bool_decide_eq_true in Hc. apply bool_decide_eq_false in Hin.
      split.
      { apply NoDup_app. split; [done |]. split; [| apply NoDup_singleton].
        intros x Hx Hx'. apply list_elem_of_singleton in Hx'. by subst. }
      intros aid Haid. destruct (decide (aid = agent_id)) as [->|Hne].
      * rewrite lookup_insert_eq. eexists. split; [done |]. done.
      * rewrite lookup_insert_ne by done. apply Hlisted.
        apply elem_of_app in Haid as [Haid|Haid]; [done |].
        by apply list_elem_of_singleton in Haid.
  - split; [done |].
    intros aid Haid. destruct (decide (aid = agent_id)) as [->|Hne].
    + rewrite lookup_insert_eq. eexists. split; [done |]. simpl.
      destruct (Hlisted agent_id Haid) as (info & Hinfo & Hcap).
      by apply (Hgrow info).
    + rewrite lookup_insert_ne by done. by apply Hlisted.
Qed.

Lemma unregister_agent_well_mapped (self : AgentRegistry.t) (agent_id : string) :
  well_mapped self ->
  well_mapped (unregister_agent self agent_id)
  /\ forall c, agent_id ∉ _capability_map (unregister_agent self agent_id) c.
Proof.
  intros Hmapped. unfold unregister_agent.
  destruct (_agents self !! agent_id) as [info|] eqn:Hinfo.
  2: { split; [done |]. intros c Hin.
       destruct (Hmapped c) as [_ Hlisted].
       destruct (Hlisted agent_id Hin) as (x & Hx & _). congruence. }
  split.
  - intros c. destruct (Hmapped c) as [Hdup Hlisted].
    cbn [_capability_map _agents]. rewrite unregister_map by done.
    destruct (list_remove_NoDup agent_id _ Hdup) as [Hdup' Hin'].
    destruct (bool_decide (c ∈ AgentInfo.capabilities info)) eqn:Hc.
    + split; [done |]. intros aid Haid. apply Hin' in Haid as [Haid Hne].
      rewrite lookup_delete_ne by done. by apply Hlisted.
    + apply bool_decide_eq_false in Hc. split; [done |].
      intros aid Haid. destruct (decide (aid = agent_id)) as [->|Hne].
      * destruct (Hlisted agent_id Haid) as (x & Hx & Hcap). congruence.
      * rewrite lookup_delete_ne by done. by apply Hlisted.
  - intros c. destruct (Hmapped c) as [Hdup Hlisted].
    cbn [_capability_map]. rewrite unregister_map by done.
    destruct (list_remove_NoDup agent_id _ Hdup) as [Hdup' Hin'].
    destruct (bool_decide (c ∈ AgentInfo.capabilities info)) eqn:Hc.
    + rewrite Hin'. tauto.
    + apply bool_decide_eq_false in Hc. intros Hin.
      destruct (Hlisted agent_id Hin) as (x & Hx & Hcap). congruence.
Qed.

(** X30.  The capability map and the agents.  Call a registry well mapped
    when every id listed for a capability is listed once and is a
    registered agent that declares the capability; the empty registry is.
    [register_agent] keeps it well mapped for a new id, and for a
    registered id when the new capabilities include the old ones, and
    lists the agent for each of its capabilities; [unregister_agent] and
    [set_agent_availability] keep it well mapped, and after
    [unregister_agent] the id is listed nowhere.  But registering an id
    again without a capability it is listed for leaves the old entry in
    the map: after unregistering the agent,
    [get_agent_for_capability] for that capability raises [KeyError]. *)
Theorem X30_registry_stays_well_mapped (self : AgentRegistry.t)
  (agent_id agent : string) (capabilities : list Capability.t)
  (description : string) :
  well_mapped self ->
  well_mapped AgentRegistry.new
  /\ ((forall info, _agents self !! agent_id = Some info ->
         forall c, c ∈ AgentInfo.capabilities info -> c ∈ capabilities) ->
      well_mapped (register_agent self agent_id agent capabilities description))
  /\ (forall c, c ∈ capabilities ->
        agent_id ∈ _capability_map
                     (register_agent self agent_id agent capabilities description) c)
  /\ well_mapped (unregister_agent self agent_id)
  /\ (forall c, agent_id ∉ _capability_map (unregister_agent self agent_id) c)
  /\ (forall b, well_mapped (set_agent_availability self agent_id b))
  /\ (forall c, agent_id ∈ _capability_map self c -> c ∉ capabilities ->
        get_agent_for_capability
          (unregister_agent
             (register_agent self agent_id agent capabilities description)
             agent_id) c
        = Raised (KeyError agent_id)).
Proof.
  intros Hmapped.
  split.
  { intros c. split; [constructor |]. intros aid Haid. by apply elem_of_nil in Haid. }
  split; [by apply register_agent_well_mapped |].
  split.
  { intros c Hc. unfold register_agent. cbn [_capability_map].
    rewrite register_map, (bool_decide_eq_true_2 _ Hc). simpl.
    destruct (bool_decide (agent_id ∈ _capability_map self c)) eqn:Hin; simpl.
    - by apply bool_decide_eq_true in Hin.
    - apply elem_of_app. right. by apply list_elem_of_singleton. }
  split; [by apply unregister_agent_well_mapped |].
  split; [by apply unregister_agent_well_mapped |].
  split.
  { intros b. unfold set_agent_availability.
    destruct (_agents self !! agent_id) as [info|] eqn:Hinfo; [| done].
    intros c. destruct (Hmapped c) as [Hdup Hlisted]. split; [done |].
    cbn [_capability_map _agents]. intros aid Haid.
    destruct (decide (aid = agent_id)) as [->|Hne].
    - rewrite lookup_insert_eq. eexists. split; [done |]. simpl.
      destruct (Hlisted agent_id Haid) as (x & Hx & Hcap). congruence.
    - rewrite lookup_insert_ne by done. by apply Hlisted. }
  intros c Hin Hc.
  destruct (Hmapped c) as [Hdup Hlisted].
  assert (Hmap : _capability_map
                   (unregister_agent
                      (register_agent self agent_id agent capabilities description)
                      agent_id) c
                 = _capability_map self c).
  { unfold unregister_agent, register_agent. cbn [_agents _capability_map].
    rewrite lookup_insert_eq. cbn [_capability_map AgentInfo.capabilities].
    rewrite unregister_map; rewrite register_map;
      rewrite (bool_decide_eq_false_2 _ Hc); done. }
  assert (Hagents : _agents
                      (unregister_agent
                         (register_agent self agent_id agent capabilities description)
                         agent_id)
                    = delete agent_id (_agents self)).
  { unfold unregister_agent, register_agent. cbn [_agents _capability_map].
    rewrite lookup_insert_eq. cbn [_agents]. by rewrite delete_insert_eq. }
  unfold get_agent_for_capability. rewrite Hmap.
  destruct (_capability_map self c) as [|aid0 ids] eqn:Hids;
    [by apply elem_of_nil in Hin |].
  rewrite (available_agents_missing _ _ agent_id); [done | done | |].
  - rewrite Hagents. apply lookup_delete_eq.
  - intros aid Haid Hne. rewrite Hagents, lookup_delete_ne by done.
    destruct (Hlisted aid Haid) as (x & -> & _). done.
Qed.

End RegistryProperties.
(** ** Serialisation round trips *)

Lemma traverse_option_map {A B} (f : A -> option B) (g : B -> A) (l : list B) :
  (forall x, f (g x) = Some x) -> traverse f (map g l) = Some l.
Proof.
  intros Hfg. induction l as [|x l IH]; [done |].
  simpl. rewrite Hfg. simpl. by rewrite IH.
Qed.

Lemma traverse_outcome_map {A B} (f : A -> outcome B) (g : B -> A) (l : list B) :
  (forall x, f (g x) = Returned x) -> traverse f (map g l) = Returned l.
Proof.
  intros Hfg. induction l as [|x l IH]; [done |].
  simpl. rewrite Hfg. simpl. by rewrite IH.
Qed.

Lemma traverse_objects {A} (k : string) (from_dict : pydict -> outcome A)
  (to_dict : A -> pydict) (l : list A) :
  (forall x, from_dict (to_dict x) = Returned x) ->
  traverse (fun v => d ← typed k as_dict v; from_dict d)
           (map (fun x => PDict (to_dict x)) l) = Returned l.
Proof.
  intros Hrt. apply (traverse_outcome_map _ (fun x => PDict (to_dict x))).
  exact Hrt.
Qed.

Lemma as_str_list_round_trip (l : list string) :
  as_str_list (PList (map PStr l)) = Some l.
Proof. apply (traverse_option_map as_str PStr). done. Qed.

Lemma as_str_dict_round_trip (cl : list (string * string)) :
  as_str_dict (PDict (map (fun kv => (fst kv, PStr (snd kv))) cl)) = Some cl.
Proof.
  apply (traverse_option_map _ (fun kv : string * string => (fst kv, PStr (snd kv)))).
  by intros [k v].
Qed.

Lemma optional_str_round_trip (o : option string) :
  as_optional_str (of_optional_str o) = Some o.
Proof. by destruct o. Qed.

Lemma TrailStatus_value_round_trip (s : TrailStatus.t) :
  TrailStatus.of_value (PStr (TrailStatus.value s)) = Returned s.
Proof. by destruct s. Qed.

Lemma ResearchState_value_round_trip (s : ResearchState.t) :
  ResearchState.of_value (PStr (ResearchState.value s)) = Returned s.
Proof. by destruct s. Qed.

(** Evaluation of the dictionary look-ups of a [from_dict], leaving the
    nested conversions folded. *)
Ltac reduce_dict :=
  cbn -[ResourceUsage.from_dict ResourceUsage.to_dict
        ResearchBudget.from_dict ResearchBudget.to_dict
        Gap.from_dict Gap.to_dict
        QualityScore.from_dict QualityScore.to_dict
        Finding.from_dict Finding.to_dict
        HandoffRecord.from_dict HandoffRecord.to_dict
        ResearchTrail.from_dict ResearchTrail.to_dict
        TrailStatus.of_value TrailStatus.value
        ResearchState.of_value ResearchState.value
        Datetime.parse as_str_list as_str_dict
        as_optional_str of_optional_str traverse].

Lemma ResourceUsage_round_trip (u : ResourceUsage.t) :
  ResourceUsage.from_dict (ResourceUsage.to_dict u) = Returned u.
Proof. by destruct u. Qed.

Lemma ResearchBudget_round_trip (b : ResearchBudget.t) :
  ResearchBudget.from_dict (ResearchBudget.to_dict b) = Returned b.
Proof.
  destruct b as [mt ms mc md cu td].
  unfold ResearchBudget.from_dict, ResearchBudget.to_dict. reduce_dict.
  by rewrite ResourceUsage_round_trip.
Qed.

Lemma Gap_round_trip (g : Gap.t) : Gap.from_dict (Gap.to_dict g) = Returned g.
Proof.
  destruct g as [d p sq]. unfold Gap.from_dict, Gap.to_dict. reduce_dict.
  unfold typed. by rewrite as_str_list_round_trip.
Qed.

Lemma QualityScore_round_trip (q : QualityScore.t) :
  QualityScore.from_dict (QualityScore.to_dict q) = Returned q.
Proof.
  destruct q as [cm cr re cf ov gaps].
  unfold QualityScore.from_dict, QualityScore.to_dict, objects_of. reduce_dict.
  by rewrite (traverse_objects _ _ _ _ Gap_round_trip).
Qed.

Section RoundTrip.

Context `{Datetime.Format}.
Hypothesis iso_inverse : Datetime.format_inverse.

Lemma Datetime_parse_isoformat (d : Datetime.t) :
  Datetime.parse (PStr (Datetime.isoformat d)) = Returned d.
Proof. unfold Datetime.parse. by rewrite iso_inverse. Qed.

Lemma Finding_round_trip (f : Finding.t) :
  Finding.from_dict (Finding.to_dict f) = Returned f.
Proof.
  destruct f as [i c s ts cf md].
  unfold Finding.from_dict, Finding.to_dict. reduce_dict.
  by rewrite Datetime_parse_isoformat.
Qed.

Lemma HandoffRecord_round_trip (h : HandoffRecord.t) :
  HandoffRecord.from_dict (HandoffRecord.to_dict h) = Returned h.
Proof.
  destruct h as [fa ta r ts cs].
  unfold HandoffRecord.from_dict, HandoffRecord.to_dict. reduce_dict.
  by rewrite Datetime_parse_isoformat.
Qed.

(** With the modules loaded as a package the relative import of
    [ResearchTrail.from_dict] resolves, and trails and contexts make the
    round trip too. *)
Lemma ResearchTrail_round_trip_as_package (t : ResearchTrail.t) :
  ResearchTrail.from_dict AsPackage (ResearchTrail.to_dict t) = Returned t.
Proof.
  destruct t as [i o q r b fs st bc].
  unfold ResearchTrail.from_dict, ResearchTrail.to_dict, objects_of. reduce_dict.
  rewrite ResearchBudget_round_trip. reduce_dict.
  rewrite (traverse_objects _ _ _ _ Finding_round_trip). reduce_dict.
  rewrite TrailStatus_value_round_trip. reduce_dict.
  unfold typed.
  rewrite optional_str_round_trip. reduce_dict.
  by rewrite as_str_list_round_trip.
Qed.

Lemma ResearchContext_round_trip_as_package (c : ResearchContext.t) :
  ResearchContext.from_dict AsPackage (ResearchContext.to_dict c)
  = Returned c.
Proof.
  destruct c as [q st cl fs ts bu qs hs md ca ua].
  unfold ResearchContext.from_dict, ResearchContext.to_dict, objects_of.
  reduce_dict.
  rewrite ResearchState_value_round_trip. reduce_dict.
  rewrite (traverse_objects _ _ _ _ Finding_round_trip). reduce_dict.
  rewrite (traverse_objects _ _ _ _ ResearchTrail_round_trip_as_package).
  reduce_dict.
  rewrite ResourceUsage_round_trip. reduce_dict.
  rewrite (traverse_objects _ _ _ _ QualityScore_round_trip). reduce_dict.
  rewrite (traverse_objects _ _ _ _ HandoffRecord_round_trip). reduce_dict.
  rewrite !Datetime_parse_isoformat. reduce_dict.
  unfold typed.
  by rewrite as_str_dict_round_trip.
Qed.

End RoundTrip.

Lemma decimal_format_inverse : @Datetime.format_inverse Examples.decimal_format.
Proof.
  intros [z]. unfold Datetime.fromisoformat, Datetime.isoformat. simpl.
  rewrite NilEmpty.isi. simpl. by rewrite DecimalZ.of_to.
Qed.

(** C9 on the code.  With the modules loaded as top-level modules, the
    way the tests and the entry points of the repository load them, the
    relative import that opens [ResearchTrail.from_dict] raises
    [ImportError]: no dictionary, and so no [to_dict] of a trail, is turned
    back into a trail. *)
Theorem C9_ResearchTrail_from_dict_raises_at_top_level
  (format : Datetime.Format) (t : ResearchTrail.t) :
  ResearchTrail.from_dict TopLevel (ResearchTrail.to_dict t)
  = Raised (ImportError "attempted relative import with no known parent package")
  /\ ResearchTrail.from_dict TopLevel (ResearchTrail.to_dict t) <> Returned t.
Proof. split; [reflexivity | discriminate]. Qed.

(** A context that holds a trail shares the failure. *)
Lemma ResearchContext_from_dict_raises_at_top_level
  (format : Datetime.Format) (c : ResearchContext.t) :
  Datetime.format_inverse ->
  ResearchContext.research_trails c <> [] ->
  ResearchContext.from_dict TopLevel (ResearchContext.to_dict c)
  = Raised (ImportError "attempted relative import with no known parent package").
Proof.
  intros Hiso Htrails.
  destruct c as [q st cl fs ts bu qs hs md ca ua]. simpl in Htrails.
  destruct ts as [|t ts]; [done |].
  unfold ResearchContext.from_dict, ResearchContext.to_dict, objects_of.
  reduce_dict.
  rewrite ResearchState_value_round_trip. reduce_dict.
  rewrite (traverse_objects _ _ _ _ (Finding_round_trip Hiso)). reduce_dict.
  done.
Qed.

(** ** Further properties of the serialisation *)

Section SerialisationExtras.

(** X7.  [ResourceUsage], [ResearchBudget] and [QualityScore] (with its
    gaps) come back equal from [from_dict] after [to_dict], however the
    modules are loaded and whatever the date format. *)
Theorem X7_usage_budget_quality_round_trip :
  (forall u, ResourceUsage.from_dict (ResourceUsage.to_dict u) = Returned u)
  /\ (forall b, ResearchBudget.from_dict (ResearchBudget.to_dict b) = Returned b)
  /\ (forall g, Gap.from_dict (Gap.to_dict g) = Returned g)
  /\ (forall q, QualityScore.from_dict (QualityScore.to_dict q) = Returned q).
Proof.
  split; [exact ResourceUsage_round_trip |].
  split; [exact ResearchBudget_round_trip |].
  split; [exact Gap_round_trip | exact QualityScore_round_trip].
Qed.

(** X8.  When [datetime.fromisoformat] inverts [datetime.isoformat], a
    [Finding] and a [HandoffRecord] come back equal from [from_dict] after
    [to_dict]. *)
Theorem X8_finding_handoff_round_trip (format : Datetime.Format) :
  Datetime.format_inverse ->
  (forall f, Finding.from_dict (Finding.to_dict f) = Returned f)
  /\ (forall h, HandoffRecord.from_dict (HandoffRecord.to_dict h) = Returned h).
Proof.
  intros Hiso. split.
  - exact (Finding_round_trip Hiso).
  - exact (HandoffRecord_round_trip Hiso).
Qed.

(** X9.  With the modules loaded as a package, so that the relative import
    of [ResearchTrail.from_dict] resolves, and a date format that
    [fromisoformat] inverts, a [ResearchTrail] and a whole
    [ResearchContext] come back equal from [from_dict] after [to_dict]. *)
Theorem X9_trail_context_round_trip_as_package (format : Datetime.Format) :
  Datetime.format_inverse ->
  (forall t,
     ResearchTrail.from_dict AsPackage (ResearchTrail.to_dict t) = Returned t)
  /\ (forall c,
        ResearchContext.from_dict AsPackage (ResearchContext.to_dict c)
        = Returned c).
Proof.
  intros Hiso. split.
  - exact (ResearchTrail_round_trip_as_package Hiso).
  - exact (ResearchContext_round_trip_as_package Hiso).
Qed.

Lemma eqb_not_in (k : string) (fields : list string) :
  k ∉ fields -> existsb (String.eqb k) fields = false.
Proof.
  induction fields as [|f fields IH]; intros Hk; simpl; [done |].
  rewrite not_elem_of_cons in Hk. destruct Hk as [Hne Hk].
  by rewrite (proj2 (String.eqb_neq k f)), IH.
Qed.

Lemma kwargs_unknown (fields : list string) (data : pydict) (k : string)
  (v : pyval) :
  k ∉ fields ->
  kwargs_known fields (data ++ [(k, v)])
  = Raised (TypeError "got an unexpected keyword argument").
Proof.
  intros Hk. unfold kwargs_known. rewrite forallb_app. simpl.
  by rewrite (eqb_not_in _ _ Hk), andb_false_r.
Qed.

(** X10.  What [from_dict] does with keys.  A dictionary without
    ['timestamp'] makes [Finding.from_dict] raise [KeyError], and one
    without ['state'] makes [ResearchContext.from_dict] raise [KeyError];
    [ResourceUsage.from_dict] gives the defaults on the empty dictionary
    and raises [TypeError] on a key that is no field; a budget dictionary
    without ['current_usage'] gives a budget with no usage. *)
Theorem X10_from_dict_keys (format : Datetime.Format) (mode : load_mode) :
  (forall data, dict_get data "timestamp" = None ->
     Finding.from_dict data = Raised (KeyError "timestamp"))
  /\ (forall data, dict_get data "state" = None ->
        ResearchContext.from_dict mode data = Raised (KeyError "state"))
  /\ ResourceUsage.from_dict [] = Returned ResourceUsage.default
  /\ (forall u k v, k ∉ ["tokens_used"; "api_calls"; "time_seconds"] ->
        ResourceUsage.from_dict (ResourceUsage.to_dict u ++ [(k, v)])
        = Raised (TypeError "got an unexpected keyword argument"))
  /\ (forall mt ms mc md,
        ResearchBudget.from_dict
          [ ("max_tokens", PInt mt); ("max_time_seconds", PFloat ms);
            ("max_api_calls", PInt mc); ("max_trail_depth", PInt md) ]
        = Returned (ResearchBudget.new mt ms mc md)).
Proof.
  split.
  { intros data Hmiss. unfold Finding.from_dict, subscript. by rewrite Hmiss. }
  split.
  { intros data Hmiss. unfold ResearchContext.from_dict, subscript.
    by rewrite Hmiss. }
  split; [reflexivity |]. split; [| reflexivity].
  intros u k v Hk. unfold ResourceUsage.from_dict.
  by rewrite (kwargs_unknown _ _ _ _ Hk).
Qed.

End SerialisationExtras.

(** * Instances

    Each property above that carries a hypothesis is applied here to a
    concrete input on which the hypothesis holds. *)

Section BudgetInstances.

Import ResourceUsage ResearchBudget.



Lemma C6_default_budget_instance :
  0 <= trail_depth create_default /\ 2 <= max_trail_depth create_default
  /\ max_trail_depth (allocate_for_trail create_default (1 # 5))
     < max_trail_depth create_default.
Proof.
  assert (H0 : 0 <= trail_depth create_default) by (simpl; lia).
  assert (H2 : 2 <= max_trail_depth create_default) by (simpl; lia).
  split; [exact H0 |]. split; [exact H2 |].
  destruct (C6_allocate_for_trail_depth_cap create_default (1 # 5))
    as (_ & _ & _ & _ & _ & Hlt).
  exact (Hlt H0 H2).
Defined.


End BudgetInstances.

Section StateMachineInstances.

Import ResearchStateMachine Examples.

(** From INITIALIZING, COMPLETED is no edge and PLANNING is one. *)
Lemma C7_fresh_machine_instance :
  (ResearchState.COMPLETED
     ∉ TRANSITIONS (ResearchContext.state (context fresh_machine)))
  /\ ResearchState.PLANNING
       ∈ TRANSITIONS (ResearchContext.state (context fresh_machine))
  /\ (transition fresh_machine ResearchState.COMPLETED "" noon).2 = fresh_machine
  /\ exists m',
       transition fresh_machine ResearchState.PLANNING "" noon = (Returned tt, m')
       /\ ResearchContext.state (context m') = ResearchState.PLANNING.
Proof.
  assert (Hout : ResearchState.COMPLETED
                   ∉ TRANSITIONS (ResearchContext.state (context fresh_machine))).
  { apply (bool_decide_unpack _). reflexivity. }
  assert (Hin : ResearchState.PLANNING
                  ∈ TRANSITIONS (ResearchContext.state (context fresh_machine))).
  { apply (bool_decide_unpack _). reflexivity. }
  split; [exact Hout |]. split; [exact Hin |].
  destruct (C7_transition_follows_table fresh_machine ResearchState.COMPLETED
              "" noon) as [Hraise _].
  destruct (C7_transition_follows_table fresh_machine ResearchState.PLANNING
              "" noon) as [_ Hmove].
  split.
  - by rewrite (Hraise Hout).
  - destruct (Hmove Hin) as (m' & Hm' & Hstate & _). by exists m'.
Defined.

End StateMachineInstances.

Section DiscoveryInstances.

Import ResearchTrailSuggestion TrailDiscovery Examples.






End DiscoveryInstances.

Section ManagerInstances.

Import ResearchTrail TrailManager TrailExecutionEngine Examples.

Lemma one_pending_heap : heap one_pending = [pending_trail].
Proof. reflexivity. Qed.

(** C3, as the claim has it, fails.  A trail that was created and never
    started is PENDING; [abandon_trail] on it, the one call of the
    manager's own test of abandonment, leaves it ABANDONED, and
    [complete_trail] leaves it COMPLETED. *)
Lemma C3_pending_trail_reaches_terminal_status :
  status_at one_pending 0 = Some TrailStatus.PENDING
  /\ abandon_trail one_pending "trail-1" "test reason"
     = (true, run (AbandonTrail "trail-1" "test reason") one_pending)
  /\ status_at (run (AbandonTrail "trail-1" "test reason") one_pending) 0
     = Some TrailStatus.ABANDONED
  /\ status_at (run (CompleteTrail "trail-1") one_pending) 0
     = Some TrailStatus.COMPLETED.
Proof. repeat split. Qed.

Lemma C3_start_instance :
  status_at one_pending 0 = Some TrailStatus.PENDING
  /\ status_at (run (StartTrail "trail-1") one_pending) 0
     = Some TrailStatus.ACTIVE.
Proof.
  assert (Hbefore : status_at one_pending 0 = Some TrailStatus.PENDING)
    by reflexivity.
  split; [exact Hbefore |].
  destruct (C3_status_changes_by_call (StartTrail "trail-1") one_pending 0
              TrailStatus.PENDING Hbefore) as (after & Hafter & _).
  rewrite Hafter. f_equal.
  assert (Hrun : status_at (run (StartTrail "trail-1") one_pending) 0
                 = Some TrailStatus.ACTIVE) by reflexivity.
  congruence.
Defined.




End ManagerInstances.

Section SerialisationInstances.

Import Examples.

(** A context that holds a finding and a trail makes the round trip in the
    decimal format, the modules being loaded as a package. *)
Lemma context_round_trip_instance :
  let c :=
    ResearchContext.mk "test query" ResearchState.PLANNING
      [("What scope?", "Technical details")] [finding_alpha] [pending_trail]
      ResourceUsage.default [] [] [] noon noon in
  @ResearchContext.from_dict decimal_format AsPackage
    (@ResearchContext.to_dict decimal_format c)
  = Returned c.
Proof.
  intros c.
  exact (@ResearchContext_round_trip_as_package decimal_format
           decimal_format_inverse c).
Defined.

End SerialisationInstances.

Section BudgetExtraInstances.

Import ResourceUsage ResearchBudget Examples.

(** A development budget one level deep, lowered three times. *)
Lemma X1_lowered_three_times_instance :
  let b := increment_trail_depth create_development in
  0 <= trail_depth b
  /\ trail_depth (Nat.iter 3 decrement_trail_depth b) = 0
  /\ decrement_trail_depth (increment_trail_depth b) = b.
Proof.
  intros b.
  assert (H0 : 0 <= trail_depth b) by (simpl; lia).
  split; [exact H0 |].
  destruct (X1_decrement_trail_depth_floor b 3 H0) as (Hdepth & _ & _ & Hback).
  split; [exact Hdepth | exact Hback].
Defined.

(** The spent budget is within its token cap and has nothing left. *)
Lemma X2_spent_budget_instance :
  tokens_used (current_usage spent_budget) <= max_tokens spent_budget
  /\ tokens_used (remaining spent_budget) = 0
  /\ is_exhausted spent_budget = true
  /\ tokens_used (current_usage spent_budget)
     + tokens_used (remaining spent_budget) = max_tokens spent_budget.
Proof.
  assert (Hcap : tokens_used (current_usage spent_budget)
                 <= max_tokens spent_budget) by (simpl; lia).
  assert (Hnone : tokens_used (remaining spent_budget) = 0) by reflexivity.
  split; [exact Hcap |]. split; [exact Hnone |].
  destruct (X2_exhausted_iff_nothing_remaining spent_budget)
    as (Hiff & _ & Hsum).
  split; [apply Hiff; left; exact Hnone | exact (Hsum Hcap)].
Defined.

(** The spent budget is near every limit up to 1; a budget without caps is
    near none. *)
Lemma X3_spent_and_capless_instance :
  let capless := new 0 0 0 0 in
  0 < max_tokens spent_budget /\ 0 < max_api_calls spent_budget
  /\ (0 < max_time_seconds spent_budget)%Q /\ (9 # 10 <= 1)%Q
  /\ is_exhausted spent_budget = true
  /\ is_near_limit spent_budget (9 # 10) = true
  /\ max_tokens capless <= 0 /\ (0 < 9 # 10)%Q
  /\ is_near_limit capless (9 # 10) = false.
Proof.
  intros capless.
  assert (H1 : 0 < max_tokens spent_budget) by (simpl; lia).
  assert (H2 : 0 < max_api_calls spent_budget) by (simpl; lia).
  assert (H3 : (0 < max_time_seconds spent_budget)%Q) by reflexivity.
  assert (H4 : (9 # 10 <= 1)%Q) by (unfold Qle; simpl; lia).
  assert (H5 : is_exhausted spent_budget = true) by reflexivity.
  assert (H6 : max_tokens capless <= 0) by (simpl; lia).
  assert (H7 : (0 < 9 # 10)%Q) by reflexivity.
  do 5 (split; [assumption |]).
  split.
  { exact (proj1 (X3_exhausted_is_near_limit spent_budget (9 # 10))
             H1 H2 H3 H4 H5). }
  split; [exact H6 |]. split; [exact H7 |].
  apply (proj2 (X3_exhausted_is_near_limit capless (9 # 10)));
    [simpl; lia | simpl; lia | unfold Qle; simpl; lia | simpl; lia | exact H7].
Defined.

End BudgetExtraInstances.

Section StateMachineExtraInstances.

Import ResearchStateMachine Examples.

(** A machine that was forced to fail takes no transition; the fresh
    machine can fail. *)
Lemma X5_failed_machine_instance :
  let failed := force_fail fresh_machine "no budget" noon in
  is_terminal_state failed = true
  /\ is_terminal_state fresh_machine = false
  /\ (exists message,
        transition failed ResearchState.PLANNING "again" noon
        = (Raised (StateTransitionError message), failed))
  /\ can_transition fresh_machine ResearchState.FAILED = true.
Proof.
  intros failed.
  assert (Hterminal : is_terminal_state failed = true) by reflexivity.
  assert (Hfresh : is_terminal_state fresh_machine = false) by reflexivity.
  split; [exact Hterminal |]. split; [exact Hfresh |].
  split.
  - destruct (X5_terminal_states_are_absorbing failed) as (_ & Habsorb & _).
    exact (Habsorb Hterminal ResearchState.PLANNING "again" noon).
  - destruct (X5_terminal_states_are_absorbing fresh_machine) as (_ & _ & Hfail).
    exact (proj2 (Hfail Hfresh)).
Defined.

(** The keys of the metadata other than the failure reason stay. *)
Lemma X6_other_metadata_instance :
  "topic" <> "failure_reason"
  /\ dict_get (ResearchContext.metadata
                 (context (force_fail fresh_machine "no budget" noon)))
       "topic"
     = dict_get (ResearchContext.metadata (context fresh_machine)) "topic".
Proof.
  assert (Hne : "topic" <> "failure_reason") by discriminate.
  split; [exact Hne |].
  destruct (X6_force_fail_from_any_state fresh_machine "no budget" noon)
    as (_ & _ & _ & Hkeep & _).
  exact (Hkeep "topic" Hne).
Defined.

End StateMachineExtraInstances.

Section ManagerExtraInstances.

Import ResearchTrail TrailManager Examples.

(** Three creations on a manager with room for two trails. *)
Lemma X11_three_creations_instance :
  let cs :=
    [ CreateTrail "b" (7 # 10) ResearchBudget.create_development None "trail-2";
      CreateTrail "c" (6 # 10) ResearchBudget.create_development None "trail-3";
      StartTrail "trail-1" ] in
  Z.of_nat (length (_active_trails (self one_pending)))
  <= max_concurrent_trails (self one_pending)
  /\ Z.of_nat (length (_active_trails (self (run_all cs one_pending)))) <= 2.
Proof.
  intros cs.
  assert (Hroom : Z.of_nat (length (_active_trails (self one_pending)))
                  <= max_concurrent_trails (self one_pending))
    by (vm_compute; discriminate).
  split; [exact Hroom |].
  exact (proj1 (proj1 (X11_active_list_within_cap cs one_pending) Hroom)).
Defined.


(** The pending trail is started once. *)
Lemma X13_started_once_instance :
  let s1 := (start_trail one_pending "trail-1").2 in
  start_trail one_pending "trail-1" = (true, s1)
  /\ start_trail s1 "trail-1" = (false, s1).
Proof.
  intros s1.
  assert (Hstart : start_trail one_pending "trail-1" = (true, s1)) by reflexivity.
  split; [exact Hstart |].
  exact (proj1 (X13_start_trail_twice one_pending s1 "trail-1" Hstart)).
Defined.

(** An id the manager does not know, and the id of the pending trail. *)
Lemma X14_known_and_unknown_id_instance :
  _find_trail one_pending "trail-7" = None
  /\ _find_trail one_pending "trail-1" = Some (0%nat, pending_trail)
  /\ abandon_trail one_pending "trail-7" "test reason" = (false, one_pending)
  /\ status_at (complete_trail one_pending "trail-1").2 0
     = Some TrailStatus.COMPLETED
  /\ _completed_trails (self (abandon_trail one_pending "trail-1" "test reason").2)
     = [0%nat].
Proof.
  assert (Hnone : _find_trail one_pending "trail-7" = None) by reflexivity.
  assert (Hfind : _find_trail one_pending "trail-1" = Some (0%nat, pending_trail))
    by reflexivity.
  split; [exact Hnone |]. split; [exact Hfind |].
  destruct (X14_complete_and_abandon_move_the_trail one_pending "trail-7"
              "test reason") as [Hmissing _].
  destruct (X14_complete_and_abandon_move_the_trail one_pending "trail-1"
              "test reason") as [_ Hfound].
  destruct (Hfound 0%nat pending_trail Hfind)
    as [(_ & Hcompleted & _) (_ & _ & Hlist & _)].
  split; [exact (proj2 (Hmissing Hnone)) |].
  split; [exact Hcompleted | exact Hlist].
Defined.

Lemma two_pending_priorities : prioritize_trails two_pending = [0%nat; 1%nat].
Proof. vm_compute. reflexivity. Qed.

(** The two pending trails, the one of relevance 0.8 first. *)
Lemma X16_two_pending_instance :
  1%nat ∈ prioritize_trails two_pending
  /\ 1%nat ∈ _active_trails (self two_pending)
  /\ status_at two_pending 1 = Some TrailStatus.PENDING.
Proof.
  assert (Hin : 1%nat ∈ prioritize_trails two_pending).
  { rewrite two_pending_priorities, !elem_of_cons. right. by left. }
  split; [exact Hin |].
  destruct (X16_prioritize_trails_sorts_the_pending two_pending)
    as (_ & _ & Hpending).
  exact (Hpending 1%nat Hin).
Defined.

End ManagerExtraInstances.

Section SerialisationExtraInstances.

Import Examples.

(** A finding makes the round trip in the decimal format. *)
Lemma X8_finding_round_trip_instance :
  @Finding.from_dict decimal_format (@Finding.to_dict decimal_format finding_beta)
  = Returned finding_beta.
Proof.
  exact (proj1 (X8_finding_handoff_round_trip decimal_format
                  decimal_format_inverse) finding_beta).
Defined.

(** The pending trail makes the round trip in the decimal format, the
    modules being loaded as a package. *)
Lemma X9_trail_round_trip_instance :
  @ResearchTrail.from_dict decimal_format AsPackage
    (@ResearchTrail.to_dict decimal_format pending_trail)
  = Returned pending_trail.
Proof.
  exact (proj1 (X9_trail_context_round_trip_as_package decimal_format
                  decimal_format_inverse) pending_trail).
Defined.

(** A finding without a timestamp, and a usage record with a key that is
    no field. *)
Lemma X10_missing_and_unknown_key_instance :
  dict_get [("id", PStr "f1"); ("content", PStr "text")] "timestamp" = None
  /\ @Finding.from_dict decimal_format
       [("id", PStr "f1"); ("content", PStr "text")]
     = Raised (KeyError "timestamp")
  /\ ("cost" ∉ ["tokens_used"; "api_calls"; "time_seconds"])
  /\ ResourceUsage.from_dict
       (ResourceUsage.to_dict ResourceUsage.default ++ [("cost", PInt 1)])
     = Raised (TypeError "got an unexpected keyword argument").
Proof.
  assert (Hnone : dict_get [("id", PStr "f1"); ("content", PStr "text")]
                    "timestamp" = None) by reflexivity.
  assert (Hkey : "cost" ∉ ["tokens_used"; "api_calls"; "time_seconds"]).
  { rewrite !not_elem_of_cons. repeat split; try discriminate.
    apply not_elem_of_nil. }
  destruct (X10_from_dict_keys decimal_format AsPackage)
    as (Htimestamp & _ & _ & Hunknown & _).
  split; [exact Hnone |]. split; [exact (Htimestamp _ Hnone) |].
  split; [exact Hkey |].
  exact (Hunknown ResourceUsage.default "cost" (PInt 1) Hkey).
Defined.

End SerialisationExtraInstances.

Section DiscoveryExtraInstances.

Import ResearchTrailSuggestion TrailDiscovery Examples.

Lemma alpha_extracted :
  _extract_trails_from_finding finding_alpha "greek letters" = [suggestion_alpha].
Proof. vm_compute. reflexivity. Qed.

(** The one suggestion that the finding with "See also" yields. *)
Lemma X17_alpha_extracted_instance :
  suggestion_alpha ∈ _extract_trails_from_finding finding_alpha "greek letters"
  /\ relevance_score suggestion_alpha = (7 # 10)%Q
  /\ (String.length (trail_query suggestion_alpha) <= 65)%nat.
Proof.
  assert (Hin : suggestion_alpha
                  ∈ _extract_trails_from_finding finding_alpha "greek letters").
  { rewrite alpha_extracted. by apply list_elem_of_singleton. }
  split; [exact Hin |].
  destruct (X17_extracted_suggestions finding_alpha "greek letters") as [_ Hall].
  destruct (Hall suggestion_alpha Hin) as (Hscore & Hlength & _).
  split; [exact Hscore | exact Hlength].
Defined.

Lemma first_call_list :
  (discover_trails discovery "greek letters" [finding_alpha; finding_beta] 1).1
  = [suggestion_alpha].
Proof. vm_compute. reflexivity. Qed.

(** The first call of the discovery on the two findings, cut to one
    trail. *)
Lemma X18_first_call_instance :
  let result :=
    (discover_trails discovery "greek letters" [finding_alpha; finding_beta] 1).1 in
  0 <= 1
  /\ Z.of_nat (length result) <= 1
  /\ suggestion_alpha ∈ result
  /\ (min_relevance discovery <= relevance_score suggestion_alpha)%Q
  /\ (lower (trail_query suggestion_alpha) ∉ _discovered_trails discovery).
Proof.
  intros result.
  assert (H0 : 0 <= 1) by lia.
  assert (Hin : suggestion_alpha ∈ result).
  { unfold result. rewrite first_call_list. by apply list_elem_of_singleton. }
  destruct (X18_discover_trails_result discovery "greek letters"
              [finding_alpha; finding_beta] 1)
    as (_ & Hlength & _ & Hall & _).
  split; [exact H0 |]. split; [exact (Hlength H0) |]. split; [exact Hin |].
  exact (Hall suggestion_alpha Hin).
Defined.

(** A trail query that repeats the whole original query, and one that
    shares no word with it. *)
Lemma X19_full_and_no_overlap_instance :
  terms "quantum" <> ∅
  /\ terms "quantum" ⊆ terms "Quantum computing"
  /\ (score_trail_relevance discovery "Quantum computing" "quantum" [] == 1)%Q
  /\ terms "weather" ∩ terms "quantum" = ∅
  /\ ((score_trail_relevance discovery "weather" "quantum" [] == 0)%Q
      \/ (score_trail_relevance discovery "weather" "quantum" [] == 2 # 10)%Q).
Proof.
  assert (Hne : terms "quantum" <> ∅).
  { intros H. vm_compute in H. discriminate H. }
  assert (Hsub : terms "quantum" ⊆ terms "Quantum computing").
  { apply (bool_decide_unpack _). vm_compute. reflexivity. }
  assert (Hdisjoint : terms "weather" ∩ terms "quantum" = ∅).
  { vm_compute. reflexivity. }
  split; [exact Hne |]. split; [exact Hsub |].
  destruct (X19_score_trail_relevance_range discovery "Quantum computing"
              "quantum" []) as (_ & Hfull & _).
  destruct (X19_score_trail_relevance_range discovery "weather" "quantum" [])
    as (_ & _ & Hnone).
  split; [exact (Hfull Hne Hsub) |]. split; [exact Hdisjoint |].
  exact (Hnone Hdisjoint).
Defined.

(** A trail query whose words are all in a finding is not novel. *)
Lemma X20_known_words_instance :
  finding_alpha ∈ [finding_beta; finding_alpha]
  /\ terms "also see" <> ∅
  /\ terms "also see" ⊆ terms (Finding.content finding_alpha)
  /\ (detect_novelty discovery "also see" [finding_beta; finding_alpha] == 0)%Q.
Proof.
  assert (Hin : finding_alpha ∈ [finding_beta; finding_alpha]).
  { rewrite !elem_of_cons. right. by left. }
  assert (Hne : terms "also see" <> ∅).
  { intros H. vm_compute in H. discriminate H. }
  assert (Hsub : terms "also see" ⊆ terms (Finding.content finding_alpha)).
  { apply (bool_decide_unpack _). vm_compute. reflexivity. }
  split; [exact Hin |]. split; [exact Hne |]. split; [exact Hsub |].
  destruct (X20_detect_novelty_range discovery "also see"
              [finding_beta; finding_alpha]) as (_ & _ & Hknown & _).
  exact (Hknown finding_alpha Hin Hne Hsub).
Defined.

(** The two suggestions, scored against the two findings. *)
Lemma X21_scored_suggestions_instance :
  exists t,
    t ∈ TrailDiscovery.prioritize_trails discovery
          [suggestion_alpha; suggestion_beta] "greek letters"
          [finding_alpha; finding_beta]
    /\ (0 <= relevance_score t <= 1)%Q.
Proof.
  destruct (X21_prioritize_trails_scores discovery
              [suggestion_alpha; suggestion_beta] "greek letters"
              [finding_alpha; finding_beta]) as (_ & _ & Hall).
  destruct (TrailDiscovery.prioritize_trails discovery
              [suggestion_alpha; suggestion_beta] "greek letters"
              [finding_alpha; finding_beta]) as [|t ts] eqn:E.
  { vm_compute in E. discriminate E. }
  assert (Hin : t ∈ t :: ts) by (apply elem_of_cons; by left).
  exists t. split; [exact Hin |]. exact (proj1 (Hall t Hin)).
Defined.

End DiscoveryExtraInstances.

Section ExecutionExtraInstances.

Import ResearchTrail TrailManager TrailExecutionEngine Examples.


(** The search agent answers on the pending trail of the development
    budget: the trail holds the finding twice and is charged once. *)
Lemma X23_answered_search_instance :
  _find_trail one_pending (id pending_trail) = Some (0%nat, pending_trail)
  /\ ResearchBudget.can_afford (budget_allocated pending_trail) search_op = true
  /\ exists s' trail',
       execute_trail working_search one_pending 0 = (Returned 0%nat, s')
       /\ heap s' !! 0%nat = Some trail'
       /\ length (findings trail') = 2%nat
       /\ ResourceUsage.tokens_used
            (ResearchBudget.current_usage (budget_allocated trail')) = 2000
       /\ status trail' = TrailStatus.COMPLETED.
Proof.
  assert (Hfind : _find_trail one_pending (id pending_trail)
                  = Some (0%nat, pending_trail)) by reflexivity.
  assert (Hafford : ResearchBudget.can_afford (budget_allocated pending_trail)
                      search_op = true) by reflexivity.
  split; [exact Hfind |]. split; [exact Hafford |].
  destruct (X23_found_finding_is_recorded_twice working_search one_pending 0%nat
              pending_trail "search_agent" "found" Hfind eq_refl Hafford eq_refl
              (fun _ => eq_refl))
    as (s' & trail' & Hrun & Hheap & Hfindings & _ & Htokens & Hstatus).
  exists s', trail'. split; [exact Hrun |]. split; [exact Hheap |].
  split; [by rewrite Hfindings |]. split; [exact Htokens | exact Hstatus].
Defined.

(** The pending trail is executed once: a second call, with an agent that
    would answer, changes nothing. *)
Lemma X24_second_execution_instance :
  heap one_pending !! 0%nat = Some pending_trail
  /\ find_by_id (heap one_pending) (id pending_trail)
       (_completed_trails (self one_pending)) = None
  /\ execute_trail working_search (execute_trail failing_search one_pending 0).2 0
     = (Returned 0%nat, (execute_trail failing_search one_pending 0).2).
Proof.
  assert (Hheap : heap one_pending !! 0%nat = Some pending_trail) by reflexivity.
  assert (Hfresh : find_by_id (heap one_pending) (id pending_trail)
                     (_completed_trails (self one_pending)) = None)
    by reflexivity.
  split; [exact Hheap |]. split; [exact Hfresh |].
  destruct (X24_execute_trail_once failing_search working_search one_pending
              0%nat pending_trail Hheap) as [_ Honce].
  exact (Honce eq_refl eq_refl Hfresh).
Defined.


End ExecutionExtraInstances.

Section CoordinatorExtraInstances.

Import ResearchCoordinator Examples.

(** The trails of the two findings are followed on the development
    budget, which is then as before. *)
Lemma X26_development_budget_instance :
  0 <= ResearchBudget.trail_depth (budget after_searches)
  /\ (_follow_trails answering_world after_searches).1 = Returned tt
  /\ budget (_follow_trails answering_world after_searches).2
     = ResearchBudget.create_development.
Proof.
  assert (H0 : 0 <= ResearchBudget.trail_depth (budget after_searches))
    by (simpl; lia).
  split; [exact H0 |].
  destruct (X26_follow_trails_restores_the_budget answering_world after_searches)
    as (Hreturns & _ & _ & Hbudget & _).
  split; [exact Hreturns | exact (Hbudget H0)].
Defined.

(** Two planned searches on the development budget. *)
Lemma X27_two_searches_instance :
  ResourceUsage.tokens_used
    (ResearchBudget.current_usage
       (_execute_searches answering_world planned_searches fresh_context
          ResearchBudget.create_development (mkDraws 0 0)).1.2)
  <= 10000.
Proof.
  destruct (X27_execute_searches_accounting answering_world planned_searches
              fresh_context ResearchBudget.create_development (mkDraws 0 0))
    as (added & Hfindings & _ & _ & _ & _ & _ & _ & _ & _ & _ & Hbound).
  cbv zeta in Hfindings, Hbound.
  assert (Hadded : added <> []).
  { intros ->. vm_compute in Hfindings. discriminate Hfindings. }
  exact (proj1 (Hbound Hadded)).
Defined.

End CoordinatorExtraInstances.

Section RegistryExtraInstances.

Import AgentRegistry Examples.

Lemma registry_search : _agents registry !! "search" = Some search_info.
Proof. vm_compute. reflexivity. Qed.

Lemma registry_searching : _capability_map registry Capability.SEARCHING = ["search"].
Proof. vm_compute. reflexivity. Qed.

Lemma registry_well_mapped : well_mapped registry.
Proof.
  unfold registry. apply register_agent_well_mapped.
  - apply register_agent_well_mapped.
    + intros c. split; [constructor |].
      intros aid Haid. by apply elem_of_nil in Haid.
    + intros info Hinfo. vm_compute in Hinfo. discriminate Hinfo.
  - intros info Hinfo. vm_compute in Hinfo. discriminate Hinfo.
Qed.

(** One invocation that is answered and one that fails, on the search
    agent. *)
Lemma X28_counted_invocations_instance :
  _agents registry !! "search" = Some search_info
  /\ AgentInfo.is_available search_info = true
  /\ _agents registry !! "writer" = None
  /\ (exists info',
        _agents (invoke_agent_tool answering_run registry "search" "query" None).2
          !! "search" = Some info'
        /\ AgentInfo.is_available info' = true)
  /\ invoke_agent_tool failing_run registry "writer" "query" None
     = (Raised (ValueError "Agent writer not found in registry"), registry).
Proof.
  assert (Hsearch : _agents registry !! "search" = Some search_info)
    by exact registry_search.
  assert (Havailable : AgentInfo.is_available search_info = true) by reflexivity.
  assert (Hwriter : _agents registry !! "writer" = None)
    by (vm_compute; reflexivity).
  split; [exact Hsearch |]. split; [exact Havailable |]. split; [exact Hwriter |].
  destruct (X28_invoke_agent_tool_counts answering_run registry "search" "query"
              None) as (_ & _ & Hcounted & _).
  destruct (X28_invoke_agent_tool_counts failing_run registry "writer" "query"
              None) as (Hunknown & _).
  split.
  - destruct (Hcounted search_info Hsearch Havailable)
      as (info' & Hinfo' & _ & _ & Hstill & _).
    exists info'. split; [exact Hinfo' | exact Hstill].
  - exact (Hunknown Hwriter).
Defined.

(** The registry with the search agent and the planner answers for the
    searching capability. *)
Lemma X29_search_agent_instance :
  well_mapped registry
  /\ exists res,
       get_agent_for_capability registry Capability.SEARCHING = Returned res
       /\ (res = None <->
           forall aid info,
             aid ∈ _capability_map registry Capability.SEARCHING ->
             _agents registry !! aid = Some info ->
             AgentInfo.is_available info = false).
Proof.
  split; [exact registry_well_mapped |].
  destruct (X29_get_agent_for_capability_choice registry Capability.SEARCHING
              registry_well_mapped) as (res & Hres & Hnone & _).
  exists res. split; [exact Hres | exact Hnone].
Defined.

(** The search agent is registered again, for writing only, and then
    unregistered: it is still listed for searching. *)
Lemma X30_stale_entry_instance :
  well_mapped registry
  /\ "search" ∈ _capability_map registry Capability.SEARCHING
  /\ (Capability.SEARCHING ∉ [Capability.WRITING])
  /\ get_agent_for_capability
       (unregister_agent
          (register_agent registry "search" "Search Agent" [Capability.WRITING] "")
          "search")
       Capability.SEARCHING
     = Raised (KeyError "search").
Proof.
  assert (Hlisted : "search" ∈ _capability_map registry Capability.SEARCHING).
  { rewrite registry_searching. by apply list_elem_of_singleton. }
  assert (Hdropped : Capability.SEARCHING ∉ [Capability.WRITING]).
  { intros Hin. apply list_elem_of_singleton in Hin. discriminate Hin. }
  split; [exact registry_well_mapped |]. split; [exact Hlisted |].
  split; [exact Hdropped |].
  destruct (X30_registry_stays_well_mapped registry "search" "Search Agent"
              [Capability.WRITING] "" registry_well_mapped)
    as (_ & _ & _ & _ & _ & _ & Hstale).
  exact (Hstale Capability.SEARCHING Hlisted Hdropped).
Defined.

End RegistryExtraInstances.
